(** * pkg/cfn/manager: node-group stacks of eksctl

    A shallow embedding of [pkg/cfn/manager/nodegroup.go] and of the
    scenarios of [pkg/cfn/manager/api_test.go].

    Conventions of the embedding.
    - A Go [string] is a [string]; a Go [error] is an [option error] whose
      [None] is [nil]; a Go result [(T, error)] is a pair.
    - Pointer fields that the code dereferences without a nil check
      ([*tag.Key], [*tag.Value], [*s.StackName], [*s.StackStatus],
      [*asg.Name]) are modelled by the value they point to; a nil there
      makes the Go code panic and is outside the model.
    - A Go [map[string]string] that the code only ranges over is the list
      of its entries in the order that the range statement visits them.
    - Calls into collaborators (AWS clients, builders, the logger, the
      result channel) are recorded as events, and what they answer is read
      from a [World]. *)

From Stdlib Require Import String Ascii List Bool Arith Lia DecimalString.
Import ListNotations.
Local Open Scope string_scope.
Local Open Scope list_scope.

(** ** Go vocabulary *)

(** [error] values as the code builds them: [errors.New], [errors.Wrapf]
    (github.com/pkg/errors) and [fmt.Errorf], with their format string and
    arguments kept apart. *)
Inductive error : Type :=
| errors_New (msg : string)
| errors_Wrapf (cause : error) (format : string) (args : list string)
| fmt_Errorf (format : string) (args : list string).

(** [strings.HasSuffix]:
    [len(s) >= len(suffix) && s[len(s)-len(suffix):] == suffix]. *)
Definition strings_HasSuffix (s suffix : string) : bool :=
  Nat.leb (String.length suffix) (String.length s)
  && (substring (String.length s - String.length suffix)
                (String.length suffix) s =? suffix).

(** [strings.Join]. *)
Definition strings_Join (elems : list string) (sep : string) : string :=
  String.concat sep elems.

(** [strings.Contains], by scanning the start positions from the left. *)
Fixpoint strings_Contains (s substr : string) : bool :=
  String.prefix substr s
  || match s with
     | EmptyString => false
     | String _ rest => strings_Contains rest substr
     end.

(** ** AWS SDK vocabulary *)

(** [cloudformation.Tag]. *)
Record Tag : Type := mkTag { Key : string; Value : string }.

(** [cloudformation.Stack], the fields this package reads. *)
Record Stack : Type := mkStack
  { StackName : string;
    StackStatus : string;
    Tags : list Tag }.

Definition cfn_StackStatusDeleteComplete : string := "DELETE_COMPLETE".
Definition cfn_StackStatusDeleteFailed : string := "DELETE_FAILED".

(** ** Package api (pkg/apis/eksctl.io/v1alpha5)

    The tag keys and the node-group types are constants of a package whose
    source is not part of this development; they are taken as a parameter.
    [NodeGroupType] is a string type in Go. *)
Definition NodeGroupType : Type := string.

Record ApiConstants : Type := mkApi
  { NodeGroupNameTag : string;
    OldNodeGroupNameTag : string;
    OldNodeGroupIDTag : string;
    NodeGroupTypeTag : string;
    NodeGroupTypeManaged : NodeGroupType;
    NodeGroupTypeUnmanaged : NodeGroupType }.

(** The values these constants have upstream, for the concrete runs. *)
Definition v1alpha5 : ApiConstants :=
  {| NodeGroupNameTag := "alpha.eksctl.io/nodegroup-name";
     OldNodeGroupNameTag := "eksctl.cluster.k8s.io/v1alpha1/nodegroup-name";
     OldNodeGroupIDTag := "eksctl.cluster.k8s.io/v1alpha1/nodegroup-id";
     NodeGroupTypeTag := "alpha.eksctl.io/nodegroup-type";
     NodeGroupTypeManaged := "managed";
     NodeGroupTypeUnmanaged := "unmanaged" |}.

(** ** Stack metadata from tags (nodegroup.go, lines 304-363) *)

Section Metadata.
Variable api : ApiConstants.


(** The [case] list of the switch in [GetNodegroupTagName]. *)
Definition isNameTagKey (k : string) : bool :=
  (k =? NodeGroupNameTag api)
  || (k =? OldNodeGroupNameTag api)
  || (k =? OldNodeGroupIDTag api).

(** [GetNodegroupTagName]: the value of the first tag, in slice order,
    whose key is one of the three name keys; [""] when the loop ends. *)
Fixpoint GetNodegroupTagName (tags : list Tag) : string :=
  match tags with
  | [] => ""
  | tag :: rest =>
      if isNameTagKey (Key tag) then Value tag
      else GetNodegroupTagName rest
  end.

(** One iteration of the loop of [GetNodeGroupType]. *)
Definition typeTagStep (nodeGroupType : NodeGroupType) (tag : Tag)
  : NodeGroupType :=
  if Key tag =? NodeGroupTypeTag api then Value tag else nodeGroupType.

(** [GetNodeGroupType]. *)
Definition GetNodeGroupType (tags : list Tag)
  : NodeGroupType * option error :=
  if GetNodegroupTagName tags =? "" then
    ("", Some (errors_New "failed to find the nodegroup name tag"))
  else
    let nodeGroupType := fold_left typeTagStep tags "" in
    let nodeGroupType :=
      if nodeGroupType =? "" then NodeGroupTypeUnmanaged api
      else nodeGroupType in
    (nodeGroupType, None).

(** [GetNodeGroupName]. *)
Definition GetNodeGroupName (s : Stack) : string :=
  let tagName := GetNodegroupTagName (Tags s) in
  if negb (tagName =? "") then tagName
  else if strings_HasSuffix (StackName s) "-nodegroup-0" then
    "legacy-nodegroup-0"
  else if strings_HasSuffix (StackName s) "-DefaultNodeGroup" then
    "legacy-default"
  else "".

End Metadata.

(** ** Collaborators *)

(** Package autoscaling of the AWS SDK: the tag record sent to
    [CreateOrUpdateTags]. *)
Module autoscaling.
Record Tag : Type := mkTag
  { ResourceId : string;
    ResourceType : string;
    Key : string;
    Value : string;
    PropagateAtLaunch : bool }.
End autoscaling.

(** Package eks of the AWS SDK: [DescribeNodegroupInput], and of
    [DescribeNodegroupOutput] the part the code reads:
    [Nodegroup.Resources], nil or the names of its [AutoScalingGroups]. *)
Module eks.
Record DescribeNodegroupInput : Type := mkInput
  { ClusterName : string;
    NodegroupName : string }.
Record DescribeNodegroupOutput : Type := mkOutput
  { Resources : option (list string) }.
End eks.

(** [api.ManagedNodeGroup], the fields this file reads.  [ng_Tags] is a Go
    map; [ng_DisableASGTagPropagation] is a [*bool]. *)
Record ManagedNodeGroup : Type := mkManagedNodeGroup
  { ng_Name : string;
    ng_Tags : list (string * string);
    ng_DisableASGTagPropagation : option bool }.

(** What the receiver [c *StackCollection] gives access to: the cluster
    spec, the AWS clients, the builder, and the methods of the package
    that live in other files. *)
Record World : Type := mkWorld
  { spec_Metadata_Name : string;
    spec_IPv6Enabled : bool;
    DescribeClusterStack : option Stack * option error;
    DescribeStacks : list Stack * option error;
    getClusterNameTag : Stack -> string;
    eksAPI_DescribeNodegroup :
      eks.DescribeNodegroupInput -> eks.DescribeNodegroupOutput * option error;
    asgAPI_CreateOrUpdateTags : list autoscaling.Tag -> option error;
    cloudformationAPI_DescribeStackResource :
      string -> string -> string * option error;
    stack_AddAllResources : option error;
    CreateStack : string -> list (string * string) -> option error }.

Inductive Level : Type := Info | Warning | Debug.

Inductive LogArg : Type :=
| ArgString (s : string)
| ArgStacks (stacks : list Stack).

(** The calls that leave the function, in program order.  [chan_send v]
    is the goroutine [go func() { errorCh <- v }()]. *)
Inductive Event : Type :=
| logger (level : Level) (format : string) (args : list LogArg)
| call_DescribeClusterStack
| call_DescribeStacks
| call_DescribeNodegroup (input : eks.DescribeNodegroupInput)
| call_CreateOrUpdateTags (tags : list autoscaling.Tag)
| call_DescribeStackResource (stackName logicalResourceId : string)
| call_NewManagedBootstrapper (ng : ManagedNodeGroup)
| call_NewLaunchTemplateFetcher
| call_NewManagedNodeGroup (ng : ManagedNodeGroup) (forceAddCNIPolicy : bool)
| call_AddAllResources
| call_CreateStack (name : string) (tags : list (string * string))
| chan_send (v : option error).

(** A computation returns its value and the calls it caused, in order. *)
Definition Traced (E A : Type) : Type := (A * list E)%type.

Definition ret {E A : Type} (a : A) : Traced E A := (a, []).

Definition bind {E A B : Type} (m : Traced E A) (k : A -> Traced E B)
  : Traced E B :=
  let (a, t1) := m in
  let (b, t2) := k a in
  (b, t1 ++ t2).

Arguments bind {E A B} m k : simpl never.

Definition emit {E : Type} (e : E) : Traced E unit := (tt, [e]).

(** A call together with the answer of the collaborator. *)
Definition ask {E A : Type} (e : E) (answer : A) : Traced E A :=
  (answer, [e]).

Declare Scope eff_scope.
Delimit Scope eff_scope with eff.
Notation "x <- m ;; k" := (bind m (fun x => k))
  (at level 61, m at next level, right associativity) : eff_scope.
Notation "' p <- m ;; k" := (bind m (fun p => k))
  (at level 61, p pattern, m at next level, right associativity) : eff_scope.
Notation "m ;;; k" := (bind m (fun _ => k))
  (at level 61, right associativity) : eff_scope.
Local Open Scope eff_scope.

Definition value {E A : Type} (m : Traced E A) : A := fst m.
Definition trace {E A : Type} (m : Traced E A) : list E := snd m.

Definition Eff (A : Type) : Type := Traced Event A.

(** ** Observations on a trace *)

Definition isNetworkCall (e : Event) : bool :=
  match e with
  | call_DescribeNodegroup _ | call_CreateOrUpdateTags _
  | call_DescribeStackResource _ _ | call_DescribeStacks
  | call_DescribeClusterStack | call_CreateStack _ _ => true
  | _ => false
  end.

Definition networkCalls (t : list Event) : list Event :=
  filter isNetworkCall t.

(** The tag lists of the tagging calls, in order. *)
Fixpoint taggingCalls (t : list Event) : list (list autoscaling.Tag) :=
  match t with
  | [] => []
  | call_CreateOrUpdateTags tags :: rest => tags :: taggingCalls rest
  | _ :: rest => taggingCalls rest
  end.

(** The values sent on the result channel, in order. *)
Fixpoint delivered (t : list Event) : list (option error) :=
  match t with
  | [] => []
  | chan_send v :: rest => v :: delivered rest
  | _ :: rest => delivered rest
  end.

Definition isConstruction (e : Event) : bool :=
  match e with
  | call_NewManagedBootstrapper _ | call_NewLaunchTemplateFetcher
  | call_NewManagedNodeGroup _ _ | call_AddAllResources
  | call_CreateStack _ _ => true
  | _ => false
  end.

(** ** Node-group operations (nodegroup.go, lines 31-259) *)

Section Operations.
Variable api : ApiConstants.

Variable c : World.

(** [makeNodeGroupStackName]: [fmt.Sprintf] with two [%s] verbs. *)
Definition makeNodeGroupStackName (name : string) : string :=
  ("eksctl-" ++ spec_Metadata_Name c ++ "-nodegroup-" ++ name)%string.

(** [createManagedNodeGroupTask]. *)
Definition createManagedNodeGroupTask (ng : ManagedNodeGroup)
  (forceAddCNIPolicy : bool) : Eff (option error) :=
  let name := makeNodeGroupStackName (ng_Name ng) in
  '(cluster, err) <- ask call_DescribeClusterStack (DescribeClusterStack c) ;;
  match err with
  | Some err => ret (Some err)
  | None =>
      if match cluster with None => spec_IPv6Enabled c | Some _ => false end
      then
        ret (Some (errors_New
          "managed nodegroups cannot be created on IPv6 unowned clusters"))
      else
        emit (logger Info "building managed nodegroup stack %q"
                [ArgString name]) ;;;
        emit (call_NewManagedBootstrapper ng) ;;;
        emit call_NewLaunchTemplateFetcher ;;;
        emit (call_NewManagedNodeGroup ng forceAddCNIPolicy) ;;;
        err <- ask call_AddAllResources (stack_AddAllResources c) ;;
        match err with
        | Some err => ret (Some err)
        | None =>
            ask (call_CreateStack name (ng_Tags ng))
                (CreateStack c name (ng_Tags ng))
        end
  end.

(** The condition
    [ng.DisableASGTagPropagation != nil && *ng.DisableASGTagPropagation]. *)
Definition propagationDisabled (ng : ManagedNodeGroup) : bool :=
  match ng_DisableASGTagPropagation ng with
  | Some b => b
  | None => false
  end.

(** The two nested range loops that build [asgTags]. *)
Definition buildASGTags (asgs : list string) (ngTags : list (string * string))
  : list autoscaling.Tag :=
  flat_map
    (fun asg =>
       map (fun kv =>
              {| autoscaling.ResourceId := asg;
                 autoscaling.ResourceType := "auto-scaling-group";
                 autoscaling.Key := fst kv;
                 autoscaling.Value := snd kv;
                 autoscaling.PropagateAtLaunch := false |})
           ngTags)
    asgs.

(** [propagateManagedNodeGroupTagsToASGTask]. *)
Definition propagateManagedNodeGroupTagsToASGTask (ng : ManagedNodeGroup)
  : Eff (option error) :=
  if propagationDisabled ng then ret None
  else
    let input :=
      {| eks.ClusterName := spec_Metadata_Name c;
         eks.NodegroupName := ng_Name ng |} in
    '(res, err) <- ask (call_DescribeNodegroup input)
                       (eksAPI_DescribeNodegroup c input) ;;
    match err with
    | Some err =>
        ret (Some (errors_Wrapf err
          "couldn't get managed nodegroup details for nodegroup %q"
          [ng_Name ng]))
    | None =>
        failed <-
          match eks.Resources res with
          | Some asgs =>
              let asgTags := buildASGTags asgs (ng_Tags ng) in
              err <- ask (call_CreateOrUpdateTags asgTags)
                         (asgAPI_CreateOrUpdateTags c asgTags) ;;
              match err with
              | Some err =>
                  ret (Some (errors_Wrapf err
                    "creating or updating asg tags for managed nodegroup %q"
                    [ng_Name ng]))
              | None => ret None
              end
          | None => ret None
          end ;;
        match failed with
        | Some err => ret (Some err)
        | None => emit (chan_send None) ;;; ret None
        end
    end.

(** The body of the loop of [DescribeNodeGroupStacks], over the rest of the
    slice, with [nodeGroupStacks] as the accumulator. *)
Fixpoint describeNodeGroupStacksLoop (stacks nodeGroupStacks : list Stack)
  : Eff (list Stack) :=
  match stacks with
  | [] => ret nodeGroupStacks
  | s :: rest =>
      if StackStatus s =? cfn_StackStatusDeleteComplete then
        describeNodeGroupStacksLoop rest nodeGroupStacks
      else if StackStatus s =? cfn_StackStatusDeleteFailed then
        emit (logger Warning "stack's status of nodegroup named %s is %s"
                [ArgString (StackName s); ArgString (StackStatus s)]) ;;;
        describeNodeGroupStacksLoop rest nodeGroupStacks
      else if negb (GetNodeGroupName api s =? "") then
        describeNodeGroupStacksLoop rest (nodeGroupStacks ++ [s])
      else
        describeNodeGroupStacksLoop rest nodeGroupStacks
  end.

(** [DescribeNodeGroupStacks].  A nil slice and an empty slice are both the
    empty list. *)
Definition DescribeNodeGroupStacks : Eff (list Stack * option error) :=
  '(stacks, err) <- ask call_DescribeStacks (DescribeStacks c) ;;
  match err with
  | Some err => ret ([], Some err)
  | None =>
      if Nat.eqb (List.length stacks) 0 then ret ([], None)
      else
        nodeGroupStacks <- describeNodeGroupStacksLoop stacks [] ;;
        emit (logger Debug "nodegroups = %v" [ArgStacks nodeGroupStacks]) ;;;
        ret (nodeGroupStacks, None)
  end.

(** [GetUnmanagedNodeGroupAutoScalingGroupName]; the answer of the client
    is [*res.StackResourceDetail.PhysicalResourceId]. *)
Definition GetUnmanagedNodeGroupAutoScalingGroupName (s : Stack)
  : Eff (string * option error) :=
  '(res, err) <- ask (call_DescribeStackResource (StackName s) "NodeGroup")
       (cloudformationAPI_DescribeStackResource c (StackName s) "NodeGroup") ;;
  match err with
  | Some err => ret ("", Some err)
  | None => ret (res, None)
  end.

(** [getManagedNodeGroupAutoScalingGroupName]. *)
Definition getManagedNodeGroupAutoScalingGroupName (s : Stack)
  : Eff (string * option error) :=
  let input :=
    {| eks.ClusterName := getClusterNameTag c s;
       eks.NodegroupName := GetNodeGroupName api s |} in
  '(res, err) <- ask (call_DescribeNodegroup input)
                     (eksAPI_DescribeNodegroup c input) ;;
  match err with
  | Some _ =>
      emit (logger Warning
              "couldn't get managed nodegroup details for stack %q"
              [ArgString (StackName s)]) ;;;
      ret ("", None)
  | None =>
      let asgs :=
        match eks.Resources res with
        | Some groups => groups
        | None => []
        end in
      ret (strings_Join asgs ",", None)
  end.

(** [GetAutoScalingGroupName]. *)
Definition GetAutoScalingGroupName (s : Stack) : Eff (string * option error) :=
  let (nodeGroupType, err) := GetNodeGroupType api (Tags s) in
  match err with
  | Some err => ret ("", Some err)
  | None =>
      if nodeGroupType =? NodeGroupTypeManaged api then
        '(res, err) <- getManagedNodeGroupAutoScalingGroupName s ;;
        match err with
        | Some err => ret ("", Some err)
        | None => ret (res, None)
        end
      else if (nodeGroupType =? NodeGroupTypeUnmanaged api)
              || (nodeGroupType =? "") then
        '(res, err) <- GetUnmanagedNodeGroupAutoScalingGroupName s ;;
        match err with
        | Some err => ret ("", Some err)
        | None => ret (res, None)
        end
      else
        ret ("", Some (fmt_Errorf
          "cant get autoscaling group name, because unexpected nodegroup type : %q"
          [nodeGroupType]))
  end.

End Operations.

(** ** UpdateStack

    [UpdateStack] lives in [pkg/cfn/manager/api.go], of which only the
    scenarios of [api_test.go] are embedded here.  This module follows the
    state machine that the design document gives for it. *)

Module UpdateStackModel.

Definition cfn_ChangeSetStatusFailed : string := "FAILED".
Definition cfn_ChangeSetStatusCreateComplete : string := "CREATE_COMPLETE".

(** Modelled from the spec: the status-reason substring of a change set
    that changes nothing (api.go is missing). *)
Definition noChangesReason : string := "didn't contain changes".

Record UpdateStackOptions : Type := mkOptions
  { opt_Stack : option Stack;
    opt_StackName : string;
    opt_ChangeSetName : string;
    opt_Description : string;
    opt_TemplateData : string;
    opt_Tags : list Tag;
    opt_Wait : bool }.

(** Modelled from the spec: the terminal state of a change set (api.go is
    missing), its status and status reason. *)
Record ChangeSetState : Type := mkChangeSetState
  { Status : string;
    StatusReason : string }.

(** Modelled from the spec: the external service that UpdateStack talks to
    (api.go is missing) and the cluster metadata it reads. *)
Record Service : Type := mkService
  { ClusterNameTag : string;
    Metadata_Name : string;
    Metadata_Tags : list Tag;
    DescribeStack : string -> option Stack;
    CreateChangeSet : string -> string -> list Tag -> string -> option error;
    waitChangeSet : string -> string -> ChangeSetState;
    ExecuteChangeSet : string -> string -> option error;
    waitStackUpdate : string -> option error }.

Inductive Call : Type :=
| call_DescribeStack (stackName : string)
| call_CreateChangeSet (stackName changeSetName : string) (tags : list Tag)
    (templateData : string)
| call_waitChangeSet (stackName changeSetName : string)
| call_ExecuteChangeSet (stackName changeSetName : string)
| call_waitStackUpdate (stackName : string).

Definition isExecute (e : Call) : bool :=
  match e with
  | call_ExecuteChangeSet _ _ => true
  | _ => false
  end.

Definition isWaitChangeSet (e : Call) : bool :=
  match e with
  | call_waitChangeSet _ _ => true
  | _ => false
  end.

(** Modelled from the spec: the tag set of step 2 of UpdateStack (api.go is
    missing), the union of the caller's tags, the existing tags, the
    metadata tags and the cluster-name tag, where the first tag of a key
    in that order is the one kept. *)
Fixpoint dedupTags (seen : list string) (tags : list Tag) : list Tag :=
  match tags with
  | [] => []
  | t :: rest =>
      if existsb (String.eqb (Key t)) seen then dedupTags seen rest
      else t :: dedupTags (Key t :: seen) rest
  end.

Definition mergeTags (svc : Service) (opts : UpdateStackOptions)
  (existing : list Tag) : list Tag :=
  dedupTags []
    (opt_Tags opts ++ existing ++ Metadata_Tags svc
     ++ [mkTag (ClusterNameTag svc) (Metadata_Name svc)]).

(** Modelled from the spec: steps 2 to 7 of UpdateStack (api.go is
    missing) on the resolved stack: merge the tags, create the change set,
    wait for its terminal state, return nil on a failed state whose reason
    has the no-changes substring, execute on success, and wait for the
    stack only when [Wait] is set. *)
Definition applyChangeSet (svc : Service) (opts : UpdateStackOptions)
  (s : Stack) : Traced Call (option error) :=
  let name := StackName s in
  let changeSet := opt_ChangeSetName opts in
  let tags := mergeTags svc opts (Tags s) in
  err <- ask (call_CreateChangeSet name changeSet tags
                (opt_TemplateData opts))
             (CreateChangeSet svc name changeSet tags
                (opt_TemplateData opts)) ;;
  match err with
  | Some err => ret (Some err)
  | None =>
      st <- ask (call_waitChangeSet name changeSet)
                (waitChangeSet svc name changeSet) ;;
      if (Status st =? cfn_ChangeSetStatusFailed)
         && strings_Contains (StatusReason st) noChangesReason
      then ret None
      else if Status st =? cfn_ChangeSetStatusCreateComplete then
        err <- ask (call_ExecuteChangeSet name changeSet)
                   (ExecuteChangeSet svc name changeSet) ;;
        match err with
        | Some err => ret (Some err)
        | None =>
            if opt_Wait opts then
              ask (call_waitStackUpdate name) (waitStackUpdate svc name)
            else ret None
        end
      else ret (Some (errors_New (StatusReason st)))
  end.

(** Modelled from the spec: UpdateStack (api.go is missing), step 1 of the
    state machine of section 4.1, which resolves the stack from the
    reference in the options or by a describe call, where a stack that is
    not found is an error, followed by steps 2 to 7. *)
Definition UpdateStack (svc : Service) (opts : UpdateStackOptions)
  : Traced Call (option error) :=
  resolved <-
    match opt_Stack opts with
    | Some s => ret (Some s)
    | None => ask (call_DescribeStack (opt_StackName opts))
                  (DescribeStack svc (opt_StackName opts))
    end ;;
  match resolved with
  | None => ret (Some (errors_New "stack not found"))
  | Some s => applyChangeSet svc opts s
  end.

End UpdateStackModel.

(** ** Quotas of package builder *)

(** Modelled from the spec: [builder.MaximumTagNumber] (package builder is
    missing), the maximum number of tags of an autoscaling group. *)
Definition builder_MaximumTagNumber : nat := 50.

(** Modelled from the spec: [builder.MaximumCreatedTagNumberPerCall]
    (package builder is missing), the maximum number of tags of one tagging
    call; [api_test.go] splits 30 tags at this index into 25 and 5. *)
Definition builder_MaximumCreatedTagNumberPerCall : nat := 25.

(** ** Vocabulary of the statements *)

Section Vocabulary.
Variable api : ApiConstants.

(** [t] carries one of the three name keys. *)
Definition nameIdentifying (t : Tag) : Prop :=
  Key t = NodeGroupNameTag api
  \/ Key t = OldNodeGroupNameTag api
  \/ Key t = OldNodeGroupIDTag api.

(** [t] carries the type key. *)
Definition typeIdentifying (t : Tag) : Prop := Key t = NodeGroupTypeTag api.

Definition noNameTag (tags : list Tag) : Prop :=
  forall u, In u tags -> ~ nameIdentifying u.

Definition noTypeTag (tags : list Tag) : Prop :=
  forall u, In u tags -> ~ typeIdentifying u.

(** [t] is the first tag of [tags], in slice order, with a name key. *)
Definition firstNameTag (tags : list Tag) (t : Tag) : Prop :=
  exists pre post,
    tags = pre ++ t :: post /\ noNameTag pre /\ nameIdentifying t.

(** [t] is the last tag of [tags], in slice order, with the type key. *)
Definition lastTypeTag (tags : list Tag) (t : Tag) : Prop :=
  exists pre post,
    tags = pre ++ t :: post /\ typeIdentifying t /\ noTypeTag post.

(** The value of the first tag with key [k]. *)
Fixpoint lookupTag (k : string) (tags : list Tag) : option string :=
  match tags with
  | [] => None
  | t :: rest => if Key t =? k then Some (Value t) else lookupTag k rest
  end.

(** The name resolution as the design document words it: the current name
    tag, then the legacy name tag, then the legacy id tag, then the two
    suffixes of the stack name, then the empty string. *)
Definition GetNodeGroupName_byPrecedence (s : Stack) : string :=
  match lookupTag (NodeGroupNameTag api) (Tags s) with
  | Some v => v
  | None =>
      match lookupTag (OldNodeGroupNameTag api) (Tags s) with
      | Some v => v
      | None =>
          match lookupTag (OldNodeGroupIDTag api) (Tags s) with
          | Some v => v
          | None =>
              if strings_HasSuffix (StackName s) "-nodegroup-0" then
                "legacy-nodegroup-0"
              else if strings_HasSuffix (StackName s) "-DefaultNodeGroup" then
                "legacy-default"
              else ""
          end
      end
  end.

End Vocabulary.

(** The input of the describe-node-group call of the propagation task. *)
Definition propagateInput (c : World) (ng : ManagedNodeGroup)
  : eks.DescribeNodegroupInput :=
  {| eks.ClusterName := spec_Metadata_Name c;
     eks.NodegroupName := ng_Name ng |}.

(** The input of the describe-node-group call that resolves the autoscaling
    groups of a managed stack. *)
Definition managedInput (api : ApiConstants) (c : World) (s : Stack)
  : eks.DescribeNodegroupInput :=
  {| eks.ClusterName := getClusterNameTag c s;
     eks.NodegroupName := GetNodeGroupName api s |}.

(** The stacks that [DescribeNodeGroupStacks] keeps. *)
Definition keptStack (api : ApiConstants) (s : Stack) : bool :=
  negb (StackStatus s =? cfn_StackStatusDeleteComplete)
  && negb (StackStatus s =? cfn_StackStatusDeleteFailed)
  && negb (GetNodeGroupName api s =? "").

(** ** Scenarios

    The inputs of [api_test.go] and of the concrete runs below. *)

(** [fmt.Sprintf("%d", i)] for a natural number. *)
Definition itoa (i : nat) : string := NilEmpty.string_of_uint (Nat.to_uint i).

(** The map filled by the loops of the tests: [tag_key_i -> tag_value_i]
    for [i < n]. *)
Definition testTags (n : nat) : list (string * string) :=
  map (fun i => (("tag_key_" ++ itoa i)%string,
                 ("tag_value_" ++ itoa i)%string)) (seq 0 n).

Definition testNodeGroup (n : nat) : ManagedNodeGroup :=
  {| ng_Name := "ng-test-name";
     ng_Tags := testTags n;
     ng_DisableASGTagPropagation := None |}.

Definition disabledNodeGroup : ManagedNodeGroup :=
  {| ng_Name := "ng-test-name";
     ng_Tags := testTags 1;
     ng_DisableASGTagPropagation := Some true |}.

(** A mock provider whose calls all succeed; the managed node group has the
    one autoscaling group of the tests. *)
Definition mockWorld : World :=
  {| spec_Metadata_Name := "";
     spec_IPv6Enabled := false;
     DescribeClusterStack := (None, None);
     DescribeStacks := ([], None);
     getClusterNameTag := fun _ => "";
     eksAPI_DescribeNodegroup :=
       fun _ => ({| eks.Resources := Some ["asg-test-name"] |}, None);
     asgAPI_CreateOrUpdateTags := fun _ => None;
     cloudformationAPI_DescribeStackResource := fun _ _ => ("", None);
     stack_AddAllResources := None;
     CreateStack := fun _ _ => None |}.

Definition withDescribeNodegroup
  (f : eks.DescribeNodegroupInput -> eks.DescribeNodegroupOutput * option error)
  (w : World) : World :=
  {| spec_Metadata_Name := spec_Metadata_Name w;
     spec_IPv6Enabled := spec_IPv6Enabled w;
     DescribeClusterStack := DescribeClusterStack w;
     DescribeStacks := DescribeStacks w;
     getClusterNameTag := getClusterNameTag w;
     eksAPI_DescribeNodegroup := f;
     asgAPI_CreateOrUpdateTags := asgAPI_CreateOrUpdateTags w;
     cloudformationAPI_DescribeStackResource :=
       cloudformationAPI_DescribeStackResource w;
     stack_AddAllResources := stack_AddAllResources w;
     CreateStack := CreateStack w |}.

Definition withCreateOrUpdateTags
  (f : list autoscaling.Tag -> option error) (w : World) : World :=
  {| spec_Metadata_Name := spec_Metadata_Name w;
     spec_IPv6Enabled := spec_IPv6Enabled w;
     DescribeClusterStack := DescribeClusterStack w;
     DescribeStacks := DescribeStacks w;
     getClusterNameTag := getClusterNameTag w;
     eksAPI_DescribeNodegroup := eksAPI_DescribeNodegroup w;
     asgAPI_CreateOrUpdateTags := f;
     cloudformationAPI_DescribeStackResource :=
       cloudformationAPI_DescribeStackResource w;
     stack_AddAllResources := stack_AddAllResources w;
     CreateStack := CreateStack w |}.

Definition withDescribeStacks (r : list Stack * option error) (w : World)
  : World :=
  {| spec_Metadata_Name := spec_Metadata_Name w;
     spec_IPv6Enabled := spec_IPv6Enabled w;
     DescribeClusterStack := DescribeClusterStack w;
     DescribeStacks := r;
     getClusterNameTag := getClusterNameTag w;
     eksAPI_DescribeNodegroup := eksAPI_DescribeNodegroup w;
     asgAPI_CreateOrUpdateTags := asgAPI_CreateOrUpdateTags w;
     cloudformationAPI_DescribeStackResource :=
       cloudformationAPI_DescribeStackResource w;
     stack_AddAllResources := stack_AddAllResources w;
     CreateStack := CreateStack w |}.

Definition withDescribeStackResource
  (f : string -> string -> string * option error) (w : World) : World :=
  {| spec_Metadata_Name := spec_Metadata_Name w;
     spec_IPv6Enabled := spec_IPv6Enabled w;
     DescribeClusterStack := DescribeClusterStack w;
     DescribeStacks := DescribeStacks w;
     getClusterNameTag := getClusterNameTag w;
     eksAPI_DescribeNodegroup := eksAPI_DescribeNodegroup w;
     asgAPI_CreateOrUpdateTags := asgAPI_CreateOrUpdateTags w;
     cloudformationAPI_DescribeStackResource := f;
     stack_AddAllResources := stack_AddAllResources w;
     CreateStack := CreateStack w |}.

Definition withIPv6 (w : World) : World :=
  {| spec_Metadata_Name := spec_Metadata_Name w;
     spec_IPv6Enabled := true;
     DescribeClusterStack := DescribeClusterStack w;
     DescribeStacks := DescribeStacks w;
     getClusterNameTag := getClusterNameTag w;
     eksAPI_DescribeNodegroup := eksAPI_DescribeNodegroup w;
     asgAPI_CreateOrUpdateTags := asgAPI_CreateOrUpdateTags w;
     cloudformationAPI_DescribeStackResource :=
       cloudformationAPI_DescribeStackResource w;
     stack_AddAllResources := stack_AddAllResources w;
     CreateStack := CreateStack w |}.

Definition serviceError : error := errors_New "AccessDeniedException".

(** A world whose describe-node-group call fails. *)
Definition describeFails : World :=
  withDescribeNodegroup
    (fun _ => ({| eks.Resources := None |}, Some serviceError)) mockWorld.

(** A world whose tagging call fails. *)
Definition taggingFails : World :=
  withCreateOrUpdateTags (fun _ => Some serviceError) mockWorld.

(** A world whose describe-stack-resource call fails. *)
Definition describeResourceFails : World :=
  withDescribeStackResource (fun _ _ => ("", Some serviceError)) mockWorld.

(** An IPv6 cluster without a cluster stack of its own. *)
Definition unownedIPv6 : World := withIPv6 mockWorld.

(** Tag lists and stacks. *)
Definition nameTag (v : string) : Tag := mkTag (NodeGroupNameTag v1alpha5) v.
Definition legacyIdTag (v : string) : Tag :=
  mkTag (OldNodeGroupIDTag v1alpha5) v.
Definition typeTag (v : string) : Tag := mkTag (NodeGroupTypeTag v1alpha5) v.

(** The tags of an unmanaged node group as [createNodeGroupTask] sets them:
    its name and the type [unmanaged]. *)
Definition unmanagedTags : list Tag := [nameTag "ng-1"; typeTag "unmanaged"].

(** A name tag whose value is empty. *)
Definition emptyNameTags : list Tag := [nameTag ""].

(** A name tag with an empty value, followed by a type tag. *)
Definition emptyNameTypedTags : list Tag := [nameTag ""; typeTag "spot"].

(** A node group of a type outside the enumeration. *)
Definition spotTags : list Tag := [nameTag "ng-1"; typeTag "spot"].

(** Two type tags with different values. *)
Definition retypedTags : list Tag :=
  [nameTag "ng-1"; typeTag "spot"; typeTag "managed"].

(** A type tag whose value is empty. *)
Definition emptyTypeTags : list Tag := [nameTag "ng-1"; typeTag ""].

Definition stackOf (name status : string) (tags : list Tag) : Stack :=
  {| StackName := name; StackStatus := status; Tags := tags |}.

(** A stack that carries a legacy id tag before its current name tag. *)
Definition relabelledStack : Stack :=
  stackOf "eksctl-web-nodegroup-blue" "CREATE_COMPLETE"
    [legacyIdTag "green"; nameTag "blue"].

Definition legacyStack : Stack :=
  stackOf "eksctl-web-nodegroup-0" "CREATE_COMPLETE" [].

Definition managedStack : Stack :=
  stackOf "eksctl-web-nodegroup-ng-1" "CREATE_COMPLETE"
    [nameTag "ng-1"; typeTag "managed"].

Definition unmanagedStack : Stack :=
  stackOf "eksctl-web-nodegroup-ng-2" "CREATE_COMPLETE" unmanagedTags.

Definition spotStack : Stack :=
  stackOf "eksctl-web-nodegroup-ng-3" "CREATE_COMPLETE" spotTags.

(** The answer of a describe-all query: a deleted stack, a stack whose
    deletion failed, two node-group stacks and the cluster stack. *)
Definition listedStacks : list Stack :=
  [ stackOf "eksctl-web-nodegroup-old" "DELETE_COMPLETE" [nameTag "old"];
    stackOf "eksctl-web-nodegroup-stuck" "DELETE_FAILED" [nameTag "stuck"];
    managedStack;
    stackOf "eksctl-web-cluster" "CREATE_COMPLETE" [];
    legacyStack ].

Definition listingWorld : World :=
  withDescribeStacks (listedStacks, None) mockWorld.

(** [api_test.go], "succeeds if no changes required": the stack is found,
    the change set is accepted, its terminal status is FAILED and its
    status reason tells that nothing changes. *)
Definition noChangesService : UpdateStackModel.Service :=
  {| UpdateStackModel.ClusterNameTag := "alpha.eksctl.io/cluster-name";
     UpdateStackModel.Metadata_Name := "";
     UpdateStackModel.Metadata_Tags := [];
     UpdateStackModel.DescribeStack :=
       fun name => Some (stackOf name "CREATE_COMPLETE" []);
     UpdateStackModel.CreateChangeSet := fun _ _ _ _ => None;
     UpdateStackModel.waitChangeSet :=
       fun _ _ =>
         {| UpdateStackModel.Status := "FAILED";
            UpdateStackModel.StatusReason :=
              "The submitted information didn't contain changes" |};
     UpdateStackModel.ExecuteChangeSet := fun _ _ => None;
     UpdateStackModel.waitStackUpdate := fun _ => None |}.

Definition noChangesOptions : UpdateStackModel.UpdateStackOptions :=
  {| UpdateStackModel.opt_Stack := None;
     UpdateStackModel.opt_StackName := "eksctl-stack";
     UpdateStackModel.opt_ChangeSetName := "eksctl-changeset";
     UpdateStackModel.opt_Description := "description";
     UpdateStackModel.opt_TemplateData := "";
     UpdateStackModel.opt_Tags := [];
     UpdateStackModel.opt_Wait := true |}.

(** [api_test.go], "updates tags (existing + metadata + auto)" and "will
    skip the last wait sequence": the stack has the tag [existing: tag],
    the cluster is [clusteur] with the metadata tag [meta: data], and the
    change set reaches CREATE_COMPLETE. *)
Definition updateService : UpdateStackModel.Service :=
  {| UpdateStackModel.ClusterNameTag := "alpha.eksctl.io/cluster-name";
     UpdateStackModel.Metadata_Name := "clusteur";
     UpdateStackModel.Metadata_Tags := [mkTag "meta" "data"];
     UpdateStackModel.DescribeStack :=
       fun name =>
         Some (stackOf name "CREATE_COMPLETE" [mkTag "existing" "tag"]);
     UpdateStackModel.CreateChangeSet := fun _ _ _ _ => None;
     UpdateStackModel.waitChangeSet :=
       fun _ _ =>
         {| UpdateStackModel.Status := "CREATE_COMPLETE";
            UpdateStackModel.StatusReason := "" |};
     UpdateStackModel.ExecuteChangeSet := fun _ _ => None;
     UpdateStackModel.waitStackUpdate := fun _ => None |}.

Definition updateOptions (wait : bool) : UpdateStackModel.UpdateStackOptions :=
  {| UpdateStackModel.opt_Stack := None;
     UpdateStackModel.opt_StackName := "eksctl-stack";
     UpdateStackModel.opt_ChangeSetName := "eksctl-changeset";
     UpdateStackModel.opt_Description := "description";
     UpdateStackModel.opt_TemplateData := "";
     UpdateStackModel.opt_Tags := [];
     UpdateStackModel.opt_Wait := wait |}.

(** ** The other operations of nodegroup.go *)

(** [api.NodeGroup], the fields this file reads.  [nodeGroup_Tags] is a Go
    map, and nil is [None]. *)
Record NodeGroup : Type := mkNodeGroup
  { nodeGroup_Name : string;
    nodeGroup_Tags : option (list (string * string)) }.

(** [NodeGroupStack] (nodegroup.go, lines 24-29); [Stack] is a pointer. *)
Record NodeGroupStack : Type := mkNodeGroupStack
  { ngs_NodeGroupName : string;
    ngs_Type : NodeGroupType;
    ngs_Stack : option Stack }.

(** [cloudformation.StackResource], kept as the service returns it. *)
Record StackResource : Type := mkStackResource
  { LogicalResourceId : string;
    PhysicalResourceId : string;
    ResourceType : string }.

(** [StackInfo], the two fields that this file fills. *)
Record StackInfo : Type := mkStackInfo
  { info_Resources : list StackResource;
    info_Stack : Stack }.

(** [types.AutoScalingGroup] of the AWS SDK: fields of pointer type, all
    nil in the zero value [types.AutoScalingGroup{}]. *)
Record AutoScalingGroup : Type := mkAutoScalingGroup
  { AutoScalingGroupName : option string;
    DesiredCapacity : option nat }.

Definition zeroAutoScalingGroup : AutoScalingGroup :=
  {| AutoScalingGroupName := None; DesiredCapacity := None |}.

(** [semver.Version], and its zero value [semver.Version{}]. *)
Record Version : Type := mkVersion
  { Major : nat;
    Minor : nat;
    Patch : nat;
    Pre : list string;
    Build : list string }.

Definition zeroVersion : Version :=
  {| Major := 0; Minor := 0; Patch := 0; Pre := []; Build := [] |}.

(** [GetNodegroupOption], the two fields that [GetNodeGroupStackType]
    reads. *)
Record GetNodegroupOption : Type := mkGetNodegroupOption
  { option_Stack : option NodeGroupStack;
    option_NodeGroupName : string }.

(** A Go map with string keys, as the list of its entries with one entry
    for a key; the order of the list stands for nothing.  [mapSet] is the
    assignment [m[k] = v] and [mapGet] the lookup [m[k]]. *)
Definition mapSet {V : Type} (k : string) (v : V) (m : list (string * V))
  : list (string * V) :=
  (k, v) :: filter (fun kv => negb (fst kv =? k)) m.

Fixpoint mapGet {V : Type} (k : string) (m : list (string * V)) : option V :=
  match m with
  | [] => None
  | (k', v) :: rest => if k' =? k then Some v else mapGet k rest
  end.

(** The collaborators of the operations below that [World] does not
    have.  [DescribeStack] is the method of the package that describes a
    stack by its name; its answer is the stack that the returned pointer
    points to, which the code reads without a nil check when the error is
    nil. *)
Record Provider : Type := mkProvider
  { nodebootstrap_NewBootstrapper : NodeGroup -> option error;
    nodeGroupStack_AddAllResources : option error;
    cloudformationAPI_DescribeStackResources :
      string -> list StackResource * option error;
    asgAPI_DescribeAutoScalingGroups :
      list string -> list AutoScalingGroup * option error;
    DescribeStack : string -> Stack * option error }.

(** The calls of the operations below: those of [Event] and five more. *)
Inductive Action : Type :=
| event (e : Event)
| call_NewBootstrapper (ng : NodeGroup)
| call_NewNodeGroupResourceSet (ng : NodeGroup) (forceAddCNIPolicy : bool)
| call_DescribeStackResources (stackName : string)
| call_DescribeAutoScalingGroups (names : list string)
| call_DescribeStack (stackName : string).

(** A computation over [Event] as one over [Action]. *)
Definition lift {A : Type} (m : Eff A) : Traced Action A :=
  (fst m, map event (snd m)).

(** The calls to [CreateStack] in a trace: name and tags. *)
Fixpoint createStackCalls (t : list Action)
  : list (string * list (string * string)) :=
  match t with
  | [] => []
  | event (call_CreateStack name tags) :: rest =>
      (name, tags) :: createStackCalls rest
  | _ :: rest => createStackCalls rest
  end.

(** The stack names of the describe-stack-resources calls in a trace. *)
Fixpoint resourceCalls (t : list Action) : list string :=
  match t with
  | [] => []
  | call_DescribeStackResources name :: rest => name :: resourceCalls rest
  | _ :: rest => resourceCalls rest
  end.

(** The name lists of the describe-auto-scaling-groups calls in a
    trace. *)
Fixpoint groupCalls (t : list Action) : list (list string) :=
  match t with
  | [] => []
  | call_DescribeAutoScalingGroups names :: rest => names :: groupCalls rest
  | _ :: rest => groupCalls rest
  end.

(** The arguments of the warnings in a trace. *)
Fixpoint warnings (t : list Event) : list (list LogArg) :=
  match t with
  | [] => []
  | logger Warning _ args :: rest => args :: warnings rest
  | _ :: rest => warnings rest
  end.

Section MoreOperations.
Variable api : ApiConstants.

Variable c : World.

Variable p : Provider.

(** The map [ng.Tags] after lines 50-55 of [createNodeGroupTask]. *)
Definition identityTags (ng : NodeGroup) : list (string * string) :=
  let tags :=
    match nodeGroup_Tags ng with
    | None => []
    | Some tags => tags
    end in
  let tags := mapSet (NodeGroupNameTag api) (nodeGroup_Name ng) tags in
  let tags := mapSet (OldNodeGroupNameTag api) (nodeGroup_Name ng) tags in
  mapSet (NodeGroupTypeTag api) (NodeGroupTypeUnmanaged api) tags.

(** [createNodeGroupTask]; [errors.Wrap] is [errors.Wrapf] without
    arguments. *)
Definition createNodeGroupTask (ng : NodeGroup) (forceAddCNIPolicy : bool)
  : Traced Action (option error) :=
  let name := makeNodeGroupStackName c (nodeGroup_Name ng) in
  emit (event (logger Info "building nodegroup stack %q" [ArgString name])) ;;;
  err <- ask (call_NewBootstrapper ng) (nodebootstrap_NewBootstrapper p ng) ;;
  match err with
  | Some err => ret (Some (errors_Wrapf err "error creating bootstrapper" []))
  | None =>
      emit (call_NewNodeGroupResourceSet ng forceAddCNIPolicy) ;;;
      err <- ask (event call_AddAllResources)
                 (nodeGroupStack_AddAllResources p) ;;
      match err with
      | Some err => ret (Some err)
      | None =>
          let tags := identityTags ng in
          ask (event (call_CreateStack name tags)) (CreateStack c name tags)
      end
  end.

(** The loop of [ListNodeGroupStacks]. *)
Fixpoint listNodeGroupStacksLoop (stacks : list Stack)
  (nodeGroupStacks : list NodeGroupStack)
  : list NodeGroupStack * option error :=
  match stacks with
  | [] => (nodeGroupStacks, None)
  | stack :: rest =>
      let (nodeGroupType, err) := GetNodeGroupType api (Tags stack) in
      match err with
      | Some err => ([], Some err)
      | None =>
          listNodeGroupStacksLoop rest
            (nodeGroupStacks
             ++ [{| ngs_NodeGroupName := GetNodeGroupName api stack;
                    ngs_Type := nodeGroupType;
                    ngs_Stack := Some stack |}])
      end
  end.

(** [ListNodeGroupStacks]. *)
Definition ListNodeGroupStacks : Eff (list NodeGroupStack * option error) :=
  '(stacks, err) <- DescribeNodeGroupStacks api c ;;
  match err with
  | Some err => ret ([], Some err)
  | None => ret (listNodeGroupStacksLoop stacks [])
  end.

(** The loop of [DescribeNodeGroupStacksAndResources]. *)
Fixpoint describeResourcesLoop (stacks : list Stack)
  (allResources : list (string * StackInfo))
  : Traced Action (list (string * StackInfo) * option error) :=
  match stacks with
  | [] => ret (allResources, None)
  | s :: rest =>
      '(resources, err) <-
        ask (call_DescribeStackResources (StackName s))
            (cloudformationAPI_DescribeStackResources p (StackName s)) ;;
      match err with
      | Some err =>
          ret ([], Some (errors_Wrapf err
                 "getting all resources for %q stack" [StackName s]))
      | None =>
          describeResourcesLoop rest
            (mapSet (GetNodeGroupName api s)
               {| info_Resources := resources; info_Stack := s |}
               allResources)
      end
  end.

(** [DescribeNodeGroupStacksAndResources]. *)
Definition DescribeNodeGroupStacksAndResources
  : Traced Action (list (string * StackInfo) * option error) :=
  '(stacks, err) <- lift (DescribeNodeGroupStacks api c) ;;
  match err with
  | Some err => ret ([], Some err)
  | None => describeResourcesLoop stacks []
  end.

(** [GetAutoScalingGroupDesiredCapacity]. *)
Definition GetAutoScalingGroupDesiredCapacity (name : string)
  : Traced Action (AutoScalingGroup * option error) :=
  '(asg, err) <- ask (call_DescribeAutoScalingGroups [name])
                     (asgAPI_DescribeAutoScalingGroups p [name]) ;;
  match err with
  | Some _ =>
      ret (zeroAutoScalingGroup,
           Some (fmt_Errorf "couldn't describe ASG: %s" [name]))
  | None =>
      if negb (Nat.eqb (List.length asg) 1) then
        emit (event (logger Warning "couldn't find ASG %s"
                       [ArgString name])) ;;;
        ret (zeroAutoScalingGroup,
             Some (fmt_Errorf "couldn't find ASG: %s" [name]))
      else ret (hd zeroAutoScalingGroup asg, None)
  end.

(** [DescribeNodeGroupStack]. *)
Definition DescribeNodeGroupStack (nodeGroupName : string)
  : Traced Action (Stack * option error) :=
  let stackName := makeNodeGroupStackName c nodeGroupName in
  ask (call_DescribeStack stackName) (DescribeStack p stackName).

(** [GetNodeGroupStackType]. *)
Definition GetNodeGroupStackType (options : GetNodegroupOption)
  : Traced Action (NodeGroupType * option error) :=
  let stack :=
    match option_Stack options with
    | Some ngs => ngs_Stack ngs
    | None => None
    end in
  match stack with
  | Some stack => ret (GetNodeGroupType api (Tags stack))
  | None =>
      '(stack, err) <- DescribeNodeGroupStack (option_NodeGroupName options) ;;
      match err with
      | Some err => ret ("", Some err)
      | None => ret (GetNodeGroupType api (Tags stack))
      end
  end.

End MoreOperations.

Section VersionTag.
(** [api.EksctlVersionTag] and [version.ParseEksctlVersion] belong to
    packages whose source is not part of this development. *)
Variable EksctlVersionTag : string.

Variable ParseEksctlVersion : string -> Version * option error.

(** [GetEksctlVersionFromTags]. *)
Fixpoint GetEksctlVersionFromTags (tags : list Tag)
  : Version * bool * option error :=
  match tags with
  | [] => (zeroVersion, false, None)
  | tag :: rest =>
      if Key tag =? EksctlVersionTag then
        let (v, err) := ParseEksctlVersion (Value tag) in
        match err with
        | Some err =>
            (v, false,
             Some (errors_Wrapf err
                     "unexpected error parsing eksctl version %q"
                     [Value tag]))
        | None => (v, true, None)
        end
      else GetEksctlVersionFromTags rest
  end.

End VersionTag.

(** ** Vocabulary of the further statements *)

(** The record that [ListNodeGroupStacks] builds for a stack. *)
Definition nodeGroupStackOf (api : ApiConstants) (s : Stack)
  : NodeGroupStack :=
  {| ngs_NodeGroupName := GetNodeGroupName api s;
     ngs_Type := fst (GetNodeGroupType api (Tags s));
     ngs_Stack := Some s |}.

(** The entry that [DescribeNodeGroupStacksAndResources] stores for a
    stack. *)
Definition stackInfoOf (p : Provider) (s : Stack) : StackInfo :=
  {| info_Resources :=
       fst (cloudformationAPI_DescribeStackResources p (StackName s));
     info_Stack := s |}.

(** One round of the loop of [DescribeNodeGroupStacksAndResources] on the
    map, when the resources are described. *)
Definition storeStack (api : ApiConstants) (p : Provider)
  (m : list (string * StackInfo)) (s : Stack) : list (string * StackInfo) :=
  mapSet (GetNodeGroupName api s) (stackInfoOf p s) m.

Definition deleteFailed (s : Stack) : bool :=
  StackStatus s =? cfn_StackStatusDeleteFailed.

(** The stack tags [ts] are the entries of the map [m]. *)
Definition represents (ts : list Tag) (m : list (string * string)) : Prop :=
  (forall t, In t ts -> mapGet (Key t) m = Some (Value t))
  /\ (forall k v, mapGet k m = Some v -> In (mkTag k v) ts).

(** The calls to [CreateStack] in a trace of the managed task. *)
Fixpoint stackSubmissions (t : list Event)
  : list (string * list (string * string)) :=
  match t with
  | [] => []
  | call_CreateStack name tags :: rest => (name, tags) :: stackSubmissions rest
  | _ :: rest => stackSubmissions rest
  end.

(** The record that the task sends for an autoscaling group and a tag. *)
Definition asgTagOf (asg : string) (kv : string * string) : autoscaling.Tag :=
  {| autoscaling.ResourceId := asg;
     autoscaling.ResourceType := "auto-scaling-group";
     autoscaling.Key := fst kv;
     autoscaling.Value := snd kv;
     autoscaling.PropagateAtLaunch := false |}.

(** ** Further scenarios *)

Definition versionTagKey : string := "alpha.eksctl.io/eksctl-version".

(** A parser that accepts one version string. *)
Definition parseOnly (accepted : string) (v : Version) (s : string)
  : Version * option error :=
  if s =? accepted then (v, None)
  else (zeroVersion, Some (errors_New "No Major.Minor.Patch elements found")).

Definition version_0_70_0 : Version :=
  {| Major := 0; Minor := 70; Patch := 0; Pre := []; Build := [] |}.

Definition emptyNodeGroup : ManagedNodeGroup :=
  {| ng_Name := "ng-test-name";
     ng_Tags := [];
     ng_DisableASGTagPropagation := Some false |}.

Definition noResources : World :=
  withDescribeNodegroup
    (fun _ => ({| eks.Resources := None |}, None)) mockWorld.

(** A stack that no tag names and whose name ends in [-nodegroup-0],
    listed after a tagged one. *)
Definition legacyListing : World :=
  withDescribeStacks ([managedStack; legacyStack], None) mockWorld.

(** Two tagged node-group stacks. *)
Definition taggedListing : World :=
  withDescribeStacks ([managedStack; unmanagedStack], None) mockWorld.

(** A listing with a stack whose deletion failed. *)
Definition stuckStack : Stack :=
  stackOf "eksctl-web-nodegroup-stuck" "DELETE_FAILED" [nameTag "stuck"].

(** A describe-all query that fails. *)
Definition listingFails : World :=
  withDescribeStacks ([], Some serviceError) mockWorld.

(** A provider whose calls all succeed: the stack of a node group is
    found with the name that is asked for and the tags of an unmanaged
    node group; every stack has one resource; every autoscaling group is
    found. *)
Definition mockProvider : Provider :=
  {| nodebootstrap_NewBootstrapper := fun _ => None;
     nodeGroupStack_AddAllResources := None;
     cloudformationAPI_DescribeStackResources :=
       fun name =>
         ([{| LogicalResourceId := "NodeGroup";
              PhysicalResourceId := (name ++ "-asg")%string;
              ResourceType := "AWS::AutoScaling::AutoScalingGroup" |}], None);
     asgAPI_DescribeAutoScalingGroups :=
       fun names =>
         (map (fun n => {| AutoScalingGroupName := Some n;
                           DesiredCapacity := Some 2 |}) names, None);
     DescribeStack :=
       fun name => (stackOf name "CREATE_COMPLETE" unmanagedTags, None) |}.

(** A provider whose calls all fail. *)
Definition failingProvider : Provider :=
  {| nodebootstrap_NewBootstrapper := fun _ => Some serviceError;
     nodeGroupStack_AddAllResources := Some serviceError;
     cloudformationAPI_DescribeStackResources :=
       fun _ => ([], Some serviceError);
     asgAPI_DescribeAutoScalingGroups := fun _ => ([], Some serviceError);
     DescribeStack :=
       fun name => (stackOf name "" [], Some serviceError) |}.

(** A provider whose bootstrapper succeeds and whose resource set fails. *)
Definition resourceSetFails : Provider :=
  {| nodebootstrap_NewBootstrapper := fun _ => None;
     nodeGroupStack_AddAllResources := Some serviceError;
     cloudformationAPI_DescribeStackResources :=
       cloudformationAPI_DescribeStackResources mockProvider;
     asgAPI_DescribeAutoScalingGroups :=
       asgAPI_DescribeAutoScalingGroups mockProvider;
     DescribeStack := DescribeStack mockProvider |}.

(** A provider that finds no autoscaling group. *)
Definition noGroupProvider : Provider :=
  {| nodebootstrap_NewBootstrapper := fun _ => None;
     nodeGroupStack_AddAllResources := None;
     cloudformationAPI_DescribeStackResources :=
       cloudformationAPI_DescribeStackResources mockProvider;
     asgAPI_DescribeAutoScalingGroups := fun _ => ([], None);
     DescribeStack := DescribeStack mockProvider |}.

(** An unmanaged node group whose own tags use two of the reserved keys. *)
Definition webNodeGroup : NodeGroup :=
  {| nodeGroup_Name := "ng-2";
     nodeGroup_Tags :=
       Some [("team", "web");
             (NodeGroupNameTag v1alpha5, "other");
             (NodeGroupTypeTag v1alpha5, "managed")] |}.

(** The stack tags of a map, one tag for an entry. *)
Definition tagsOfMap (m : list (string * string)) : list Tag :=
  map (fun kv => mkTag (fst kv) (snd kv)) m.

Definition withClusterStack (r : option Stack * option error) (w : World)
  : World :=
  {| spec_Metadata_Name := spec_Metadata_Name w;
     spec_IPv6Enabled := spec_IPv6Enabled w;
     DescribeClusterStack := r;
     DescribeStacks := DescribeStacks w;
     getClusterNameTag := getClusterNameTag w;
     eksAPI_DescribeNodegroup := eksAPI_DescribeNodegroup w;
     asgAPI_CreateOrUpdateTags := asgAPI_CreateOrUpdateTags w;
     cloudformationAPI_DescribeStackResource :=
       cloudformationAPI_DescribeStackResource w;
     stack_AddAllResources := stack_AddAllResources w;
     CreateStack := CreateStack w |}.

Definition withAddAllResources (r : option error) (w : World) : World :=
  {| spec_Metadata_Name := spec_Metadata_Name w;
     spec_IPv6Enabled := spec_IPv6Enabled w;
     DescribeClusterStack := DescribeClusterStack w;
     DescribeStacks := DescribeStacks w;
     getClusterNameTag := getClusterNameTag w;
     eksAPI_DescribeNodegroup := eksAPI_DescribeNodegroup w;
     asgAPI_CreateOrUpdateTags := asgAPI_CreateOrUpdateTags w;
     cloudformationAPI_DescribeStackResource :=
       cloudformationAPI_DescribeStackResource w;
     stack_AddAllResources := r;
     CreateStack := CreateStack w |}.

Definition clusterStack : Stack :=
  stackOf "eksctl-web-cluster" "CREATE_COMPLETE" [].

(** An IPv6 cluster whose cluster stack is found. *)
Definition ownedIPv6 : World :=
  withClusterStack (Some clusterStack, None) unownedIPv6.

(** A cluster whose cluster stack cannot be described. *)
Definition clusterLookupFails : World :=
  withClusterStack (None, Some serviceError) unownedIPv6.

(** An owned IPv6 cluster where the resource set of the node group
    fails. *)
Definition managedResourceSetFails : World :=
  withAddAllResources (Some serviceError) ownedIPv6.

(** Two stacks that resolve to the same node-group name. *)
Definition twinStack : Stack :=
  stackOf "eksctl-web-nodegroup-ng-1-copy" "CREATE_COMPLETE" [nameTag "ng-1"].

Definition twinListing : World :=
  withDescribeStacks ([managedStack; twinStack], None) mockWorld.

(** A provider whose describe-stack-resources call fails for one stack. *)
Definition resourcesFailFor (name : string) : Provider :=
  {| nodebootstrap_NewBootstrapper := fun _ => None;
     nodeGroupStack_AddAllResources := None;
     cloudformationAPI_DescribeStackResources :=
       fun n =>
         if n =? name then ([], Some serviceError)
         else cloudformationAPI_DescribeStackResources mockProvider n;
     asgAPI_DescribeAutoScalingGroups :=
       asgAPI_DescribeAutoScalingGroups mockProvider;
     DescribeStack := DescribeStack mockProvider |}.

(** A provider that finds two autoscaling groups under every name. *)
Definition twoGroupsProvider : Provider :=
  {| nodebootstrap_NewBootstrapper := fun _ => None;
     nodeGroupStack_AddAllResources := None;
     cloudformationAPI_DescribeStackResources :=
       cloudformationAPI_DescribeStackResources mockProvider;
     asgAPI_DescribeAutoScalingGroups :=
       fun _ => ([zeroAutoScalingGroup; zeroAutoScalingGroup], None);
     DescribeStack := DescribeStack mockProvider |}.

(** ** PropagateManagedNodeGroupTagsToASG

    The exported operation that [api_test.go] calls with the name of the
    node group, its tags, the names of its autoscaling groups and the
    result channel.  Its definition is in a file of the package that is
    not embedded here; this section follows the algorithm that the design
    document gives for it.  It does not receive the node group, so the
    check of [DisableASGTagPropagation] is not part of it: that check is in
    [propagateManagedNodeGroupTagsToASGTask]. *)


(** Modelled from the spec: TagBatcher (the definition of
    PropagateManagedNodeGroupTagsToASG and of its batching is missing),
    the partition of a sequence into chunks of at most [M] records, in
    order, the last one possibly smaller.  [fuel] bounds the number of
    chunks. *)
Fixpoint chunks {A : Type} (fuel M : nat) (l : list A) : list (list A) :=
  match fuel with
  | 0 => []
  | S fuel =>
      match l with
      | [] => []
      | _ :: _ => firstn M l :: chunks fuel M (skipn M l)
      end
  end.

(** Modelled from the spec: TagBatcher (its definition is missing), with as
    many rounds as the sequence has records, which is enough for every
    chunk size above zero. *)
Definition TagBatcher {A : Type} (M : nat) (l : list A) : list (list A) :=
  chunks (List.length l) M l.


(** Modelled from the spec: the quota error of
    PropagateManagedNodeGroupTagsToASG (its definition is missing), whose
    message contains "maximum amount for asg". *)
Definition quotaError (n : nat) : error :=
  fmt_Errorf
    "number of tags is exceeding the maximum amount for asg, was: %d, max: %d"
    [itoa n; itoa builder_MaximumTagNumber].

(** Modelled from the spec: step b of PropagateManagedNodeGroupTagsToASG
    (its definition is missing), one record for each pair of an
    autoscaling group and a tag, of resource type [auto-scaling-group] and
    not propagated at launch. *)
Definition propagationRecords (asgNames : list string)
  (ngTags : list (string * string)) : list autoscaling.Tag :=
  flat_map (fun asg => map (asgTagOf asg) ngTags) asgNames.

(** Modelled from the spec: step c of PropagateManagedNodeGroupTagsToASG
    (its definition is missing), the batches of at most
    [MaximumCreatedTagNumberPerCall] records. *)
Definition propagationBatches (asgNames : list string)
  (ngTags : list (string * string)) : list (list autoscaling.Tag) :=
  TagBatcher builder_MaximumCreatedTagNumberPerCall
    (propagationRecords asgNames ngTags).

(** Modelled from the spec: steps c and d of
    PropagateManagedNodeGroupTagsToASG (its definition is missing), one
    tagging call for a batch, in order; the first failure ends the
    submission and is the outcome. *)
Fixpoint submitBatches (c : World) (batches : list (list autoscaling.Tag))
  : Eff (option error) :=
  match batches with
  | [] => ret None
  | batch :: rest =>
      err <- ask (call_CreateOrUpdateTags batch)
                 (asgAPI_CreateOrUpdateTags c batch) ;;
      match err with
      | Some err => ret (Some err)
      | None => submitBatches c rest
      end
  end.

(** Modelled from the spec: PropagateManagedNodeGroupTagsToASG (its
    definition is missing; api_test.go calls it), steps a to e of section
    4.2: the call returns nil; a tag map of more than [MaximumTagNumber]
    entries delivers the quota error on the channel before any call;
    otherwise the records are built, submitted batch by batch, and the
    outcome (nil, or the error of the batch that failed) is delivered on
    the channel. *)
Definition PropagateManagedNodeGroupTagsToASG (c : World) (ngName : string)
  (ngTags : list (string * string)) (asgNames : list string)
  : Eff (option error) :=
  (if Nat.ltb builder_MaximumTagNumber (List.length ngTags) then
     emit (chan_send (Some (quotaError (List.length ngTags))))
   else
     outcome <- submitBatches c (propagationBatches asgNames ngTags) ;;
     emit (chan_send outcome)) ;;;
  ret None.

(** A world whose stack submission fails. *)
Definition submissionFails : World :=
  {| spec_Metadata_Name := spec_Metadata_Name mockWorld;
     spec_IPv6Enabled := spec_IPv6Enabled mockWorld;
     DescribeClusterStack := DescribeClusterStack mockWorld;
     DescribeStacks := DescribeStacks mockWorld;
     getClusterNameTag := getClusterNameTag mockWorld;
     eksAPI_DescribeNodegroup := eksAPI_DescribeNodegroup mockWorld;
     asgAPI_CreateOrUpdateTags := asgAPI_CreateOrUpdateTags mockWorld;
     cloudformationAPI_DescribeStackResource :=
       cloudformationAPI_DescribeStackResource mockWorld;
     stack_AddAllResources := stack_AddAllResources mockWorld;
     CreateStack := fun _ _ => Some serviceError |}.

(** * Properties *)

(** ** Strings *)

Lemma substring_whole (s : string) : substring 0 (String.length s) s = s.
Proof.
  induction s as [|a s IH]; simpl; [reflexivity | now rewrite IH].
Qed.

Lemma substring_after_prefix (p s : string) (n : nat) :
  substring (String.length p) n (p ++ s) = substring 0 n s.
Proof.
  induction p as [|a p IH]; simpl; [reflexivity | exact IH].
Qed.

Lemma append_length (p s : string) :
  String.length (p ++ s) = String.length p + String.length s.
Proof.
  induction p as [|a p IH]; simpl; [reflexivity | now rewrite IH].
Qed.

Lemma substring_split (n : nat) :
  forall s, n <= String.length s ->
    s = (substring 0 n s ++ substring n (String.length s - n) s)%string.
Proof.
  induction n as [|n IH]; intros s Hn.
  - rewrite Nat.sub_0_r, substring_whole.
    destruct s; reflexivity.
  - destruct s as [|a s]; simpl in *; [lia|].
    f_equal. apply IH. lia.
Qed.

Lemma strings_HasSuffix_append (p suffix : string) :
  strings_HasSuffix (p ++ suffix) suffix = true.
Proof.
  unfold strings_HasSuffix. rewrite append_length.
  replace (String.length p + String.length suffix - String.length suffix)
    with (String.length p) by lia.
  rewrite substring_after_prefix, substring_whole, String.eqb_refl.
  rewrite andb_true_r. apply Nat.leb_le. lia.
Qed.

Lemma strings_HasSuffix_true (s suffix : string) :
  strings_HasSuffix s suffix = true <-> exists p, s = (p ++ suffix)%string.
Proof.
  split.
  - unfold strings_HasSuffix. intros H.
    apply andb_true_iff in H. destruct H as [Hlen Heq].
    apply Nat.leb_le in Hlen. apply String.eqb_eq in Heq.
    exists (substring 0 (String.length s - String.length suffix) s).
    assert (Hs := substring_split (String.length s - String.length suffix) s).
    replace (String.length s - (String.length s - String.length suffix))
      with (String.length suffix) in Hs by lia.
    rewrite Heq in Hs. apply Hs. lia.
  - intros [p ->]. apply strings_HasSuffix_append.
Qed.

Lemma strings_HasSuffix_false (s suffix : string) :
  strings_HasSuffix s suffix = false <->
  forall p, s <> (p ++ suffix)%string.
Proof.
  split.
  - intros H p Hp. subst s. rewrite strings_HasSuffix_append in H.
    discriminate.
  - intros H. destruct (strings_HasSuffix s suffix) eqn:E; [|reflexivity].
    apply strings_HasSuffix_true in E. destruct E as [p Hp].
    exfalso. exact (H p Hp).
Qed.

(** ** The tag scans *)

Section ScanFacts.
Variable api : ApiConstants.

Lemma isNameTagKey_true (t : Tag) :
  isNameTagKey api (Key t) = true <-> nameIdentifying api t.
Proof.
  unfold isNameTagKey, nameIdentifying.
  rewrite !orb_true_iff, !String.eqb_eq. tauto.
Qed.

Lemma isNameTagKey_false (t : Tag) :
  isNameTagKey api (Key t) = false <-> ~ nameIdentifying api t.
Proof.
  rewrite <- isNameTagKey_true.
  destruct (isNameTagKey api (Key t)); split; intros H;
    try reflexivity; try discriminate; congruence.
Qed.

Lemma noNameTag_cons (t : Tag) (tags : list Tag) :
  noNameTag api (t :: tags) <-> ~ nameIdentifying api t /\ noNameTag api tags.
Proof.
  unfold noNameTag. split.
  - intros H. split; [apply H; now left | intros u Hu; apply H; now right].
  - intros [Ht H] u [<-|Hu]; auto.
Qed.

Lemma noTypeTag_cons (t : Tag) (tags : list Tag) :
  noTypeTag api (t :: tags) <-> ~ typeIdentifying api t /\ noTypeTag api tags.
Proof.
  unfold noTypeTag. split.
  - intros H. split; [apply H; now left | intros u Hu; apply H; now right].
  - intros [Ht H] u [<-|Hu]; auto.
Qed.

(** A tag list has no name tag, or it has a first one. *)
Lemma nameTag_cases (tags : list Tag) :
  noNameTag api tags \/ exists t, firstNameTag api tags t.
Proof.
  induction tags as [|t tags IH].
  - left. intros u [].
  - destruct (isNameTagKey api (Key t)) eqn:E.
    + right. exists t, [], tags. repeat split.
      * intros u [].
      * now apply isNameTagKey_true.
    + apply isNameTagKey_false in E. destruct IH as [IH | [u (pre & post & -> & Hpre & Hu)]].
      * left. now apply noNameTag_cons.
      * right. exists u, (t :: pre), post. repeat split; trivial.
        now apply noNameTag_cons.
Qed.

(** A tag list has no type tag, or it has a last one. *)
Lemma typeTag_cases (tags : list Tag) :
  noTypeTag api tags \/ exists t, lastTypeTag api tags t.
Proof.
  induction tags as [|t tags IH].
  - left. intros u [].
  - destruct IH as [IH | [u (pre & post & -> & Hu & Hpost)]].
    + destruct (Key t =? NodeGroupTypeTag api) eqn:E.
      * right. exists t, [], tags. apply String.eqb_eq in E. now repeat split.
      * left. apply noTypeTag_cons. split; trivial.
        unfold typeIdentifying. now apply String.eqb_neq.
    + right. exists u, (t :: pre), post. now repeat split.
Qed.

Lemma GetNodegroupTagName_noNameTag (tags : list Tag) :
  noNameTag api tags -> GetNodegroupTagName api tags = "".
Proof.
  induction tags as [|t tags IH]; intros H; simpl; [reflexivity|].
  apply noNameTag_cons in H. destruct H as [Ht H].
  apply isNameTagKey_false in Ht. rewrite Ht. now apply IH.
Qed.

Lemma GetNodegroupTagName_firstNameTag (tags : list Tag) (t : Tag) :
  firstNameTag api tags t -> GetNodegroupTagName api tags = Value t.
Proof.
  intros (pre & post & -> & Hpre & Ht).
  induction pre as [|u pre IH]; simpl.
  - apply isNameTagKey_true in Ht. now rewrite Ht.
  - apply noNameTag_cons in Hpre. destruct Hpre as [Hu Hpre].
    apply isNameTagKey_false in Hu. rewrite Hu. now apply IH.
Qed.

(** The scan yields the empty string exactly when there is no name tag or
    the first one has an empty value. *)
Lemma GetNodegroupTagName_empty (tags : list Tag) :
  GetNodegroupTagName api tags = "" <->
  noNameTag api tags \/ exists t, firstNameTag api tags t /\ Value t = "".
Proof.
  split.
  - intros H. destruct (nameTag_cases tags) as [Hn | [t Ht]]; [now left|].
    right. exists t. split; trivial.
    now rewrite <- (GetNodegroupTagName_firstNameTag tags t Ht).
  - intros [Hn | [t [Ht Hv]]].
    + now apply GetNodegroupTagName_noNameTag.
    + now rewrite (GetNodegroupTagName_firstNameTag tags t Ht).
Qed.

Lemma typeTagStep_noTypeTag (tags : list Tag) :
  noTypeTag api tags ->
  forall acc, fold_left (typeTagStep api) tags acc = acc.
Proof.
  induction tags as [|t tags IH]; intros H acc; simpl; [reflexivity|].
  apply noTypeTag_cons in H. destruct H as [Ht H].
  rewrite (IH H). unfold typeTagStep.
  destruct (Key t =? NodeGroupTypeTag api) eqn:E; [|reflexivity].
  apply String.eqb_eq in E. contradiction.
Qed.

Lemma typeTagStep_lastTypeTag (tags : list Tag) (t : Tag) :
  lastTypeTag api tags t ->
  forall acc, fold_left (typeTagStep api) tags acc = Value t.
Proof.
  intros (pre & post & -> & Ht & Hpost) acc.
  rewrite fold_left_app. simpl.
  rewrite (typeTagStep_noTypeTag post Hpost).
  unfold typeTagStep. unfold typeIdentifying in Ht.
  apply String.eqb_eq in Ht. now rewrite Ht.
Qed.

(** [GetNodeGroupType] without its error branch. *)
Lemma GetNodeGroupType_named (tags : list Tag) :
  GetNodegroupTagName api tags <> "" ->
  GetNodeGroupType api tags =
    (if fold_left (typeTagStep api) tags "" =? ""
     then NodeGroupTypeUnmanaged api
     else fold_left (typeTagStep api) tags "", None).
Proof.
  intros H. unfold GetNodeGroupType.
  apply String.eqb_neq in H. now rewrite H.
Qed.

Lemma GetNodeGroupType_unnamed (tags : list Tag) :
  GetNodegroupTagName api tags = "" ->
  GetNodeGroupType api tags =
    ("", Some (errors_New "failed to find the nodegroup name tag")).
Proof.
  intros H. unfold GetNodeGroupType. now rewrite H.
Qed.

Lemma named_of_firstNameTag (tags : list Tag) :
  (exists n, firstNameTag api tags n /\ Value n <> "") ->
  GetNodegroupTagName api tags <> "".
Proof.
  intros [n [Hn Hv]]. now rewrite (GetNodegroupTagName_firstNameTag tags n Hn).
Qed.

End ScanFacts.

(** ** GetNodeGroupType *)

(** C4, as stated, fails twice.  A name tag whose value is empty is
    present and [GetNodeGroupType] still returns the error; and on the tags
    of an unmanaged node group, which carry the type tag [unmanaged], the
    result is Unmanaged although a type tag is present. *)
Lemma GetNodeGroupType_claim_fails :
  ~ (snd (GetNodeGroupType v1alpha5 emptyNameTags) <> None <->
     noNameTag v1alpha5 emptyNameTags)
  /\ ~ ((exists t, In t unmanagedTags /\ nameIdentifying v1alpha5 t) ->
        (fst (GetNodeGroupType v1alpha5 unmanagedTags)
           = NodeGroupTypeUnmanaged v1alpha5 <->
         noTypeTag v1alpha5 unmanagedTags)).
Proof.
  split.
  - intros [H _].
    assert (Herr : snd (GetNodeGroupType v1alpha5 emptyNameTags) <> None)
      by (vm_compute; discriminate).
    apply (H Herr (nameTag "")); [now left | left; reflexivity].
  - intros H.
    assert (Hname : exists t, In t unmanagedTags /\ nameIdentifying v1alpha5 t).
    { exists (nameTag "ng-1"). split; [now left | left; reflexivity]. }
    destruct (H Hname) as [Hno _].
    apply (Hno eq_refl (typeTag "unmanaged")); [right; now left | reflexivity].
Qed.

(** C4, amended: [GetNodeGroupType] returns an error if and only if there
    is no name-identifying tag or the first one, in tag order, has an empty
    value; and when the first name-identifying tag has a non-empty value,
    it returns Unmanaged if and only if no type tag is present or the value
    of the last type tag is empty or is the Unmanaged value. *)
Theorem GetNodeGroupType_error_and_default (api : ApiConstants)
  (tags : list Tag) :
  (snd (GetNodeGroupType api tags) <> None <->
   noNameTag api tags
   \/ exists t, firstNameTag api tags t /\ Value t = "")
  /\ ((exists n, firstNameTag api tags n /\ Value n <> "") ->
      snd (GetNodeGroupType api tags) = None
      /\ (fst (GetNodeGroupType api tags) = NodeGroupTypeUnmanaged api <->
          noTypeTag api tags
          \/ exists t, lastTypeTag api tags t
               /\ (Value t = "" \/ Value t = NodeGroupTypeUnmanaged api))).
Proof.
  split.
  - rewrite <- GetNodegroupTagName_empty.
    unfold GetNodeGroupType.
    destruct (GetNodegroupTagName api tags =? "") eqn:E; simpl.
    + apply String.eqb_eq in E. split; [trivial | discriminate].
    + apply String.eqb_neq in E. split; [congruence | contradiction].
  - intros Hn. apply named_of_firstNameTag in Hn.
    rewrite (GetNodeGroupType_named api tags Hn). simpl.
    split; [reflexivity|].
    destruct (typeTag_cases api tags) as [Hno | [t Ht]].
    + rewrite (typeTagStep_noTypeTag api tags Hno). simpl.
      split; [now left | reflexivity].
    + rewrite (typeTagStep_lastTypeTag api tags t Ht).
      destruct (Value t =? "") eqn:E.
      * apply String.eqb_eq in E. split; [|reflexivity].
        intros _. right. exists t. tauto.
      * apply String.eqb_neq in E. split.
        -- intros Hv. right. exists t. tauto.
        -- intros [Hno | [u [Hu Hv]]].
           ++ destruct Ht as (pre & post & -> & Hk & _).
              exfalso. apply (Hno t); [|exact Hk].
              apply in_or_app. right. now left.
           ++ assert (Heq : Value u = Value t).
              { rewrite <- (typeTagStep_lastTypeTag api tags u Hu "").
                now apply typeTagStep_lastTypeTag. }
              destruct Hv as [Hv | Hv]; congruence.
Qed.

Lemma GetNodeGroupType_error_and_default_witness :
  snd (GetNodeGroupType v1alpha5 unmanagedTags) = None
  /\ (fst (GetNodeGroupType v1alpha5 unmanagedTags)
        = NodeGroupTypeUnmanaged v1alpha5 <->
      noTypeTag v1alpha5 unmanagedTags
      \/ exists t, lastTypeTag v1alpha5 unmanagedTags t
           /\ (Value t = ""
               \/ Value t = NodeGroupTypeUnmanaged v1alpha5)).
Proof.
  apply (proj2 (GetNodeGroupType_error_and_default v1alpha5 unmanagedTags)).
  exists (nameTag "ng-1"). split.
  - exists [], [typeTag "unmanaged"]. repeat split.
    + intros u [].
    + left. reflexivity.
  - simpl. discriminate.
Defined.

(** C10, as stated, fails.  A name tag with an empty value and a type tag
    with the non-empty value [spot] are present, and [GetNodeGroupType]
    returns the error instead of the type; and where a second type tag
    follows the one with the value [spot], the value of the second one is
    returned. *)
Lemma GetNodeGroupType_verbatim_fails :
  ((exists t, In t emptyNameTypedTags /\ nameIdentifying v1alpha5 t)
   /\ (exists t, In t emptyNameTypedTags /\ typeIdentifying v1alpha5 t
         /\ Value t = "spot" /\ Value t <> "")
   /\ GetNodeGroupType v1alpha5 emptyNameTypedTags <> ("spot", None))
  /\ ((exists t, In t retypedTags /\ nameIdentifying v1alpha5 t)
      /\ (exists t, In t retypedTags /\ typeIdentifying v1alpha5 t
            /\ Value t = "spot" /\ Value t <> "")
      /\ GetNodeGroupType v1alpha5 retypedTags <> ("spot", None)).
Proof.
  split; (split; [|split]).
  - exists (nameTag ""). split; [now left | left; reflexivity].
  - exists (typeTag "spot"). split; [right; now left|].
    split; [reflexivity|]. split; [reflexivity | simpl; discriminate].
  - vm_compute. discriminate.
  - exists (nameTag "ng-1"). split; [now left | left; reflexivity].
  - exists (typeTag "spot"). split; [right; now left|].
    split; [reflexivity|]. split; [reflexivity | simpl; discriminate].
  - vm_compute. discriminate.
Qed.

(** C10, amended: for every tag list whose first name-identifying tag has
    a non-empty value, [GetNodeGroupType] does not validate the type tag:
    when the last type tag has a non-empty value [v] it returns
    [NodeGroupType(v)] verbatim with no error, even when [v] is neither the
    managed nor the unmanaged value, and [GetAutoScalingGroupName] is what
    rejects such a [v], before any call; when the value of the last type
    tag is empty it returns Unmanaged. *)
Theorem GetNodeGroupType_verbatim (api : ApiConstants) (c : World)
  (s : Stack) (t : Tag) :
  (exists n, firstNameTag api (Tags s) n /\ Value n <> "") ->
  lastTypeTag api (Tags s) t ->
  (Value t <> "" ->
   GetNodeGroupType api (Tags s) = (Value t, None)
   /\ (Value t <> NodeGroupTypeManaged api ->
       Value t <> NodeGroupTypeUnmanaged api ->
       GetAutoScalingGroupName api c s =
         (("", Some (fmt_Errorf
            "cant get autoscaling group name, because unexpected nodegroup type : %q"
            [Value t])), [])))
  /\ (Value t = "" ->
      GetNodeGroupType api (Tags s) = (NodeGroupTypeUnmanaged api, None)).
Proof.
  intros Hn Ht. apply named_of_firstNameTag in Hn.
  assert (Hty := GetNodeGroupType_named api (Tags s) Hn).
  rewrite (typeTagStep_lastTypeTag api (Tags s) t Ht) in Hty.
  split.
  - intros Hv. apply String.eqb_neq in Hv. rewrite Hv in Hty.
    split; [exact Hty|].
    intros Hm Hu. unfold GetAutoScalingGroupName. rewrite Hty.
    apply String.eqb_neq in Hm, Hu. now rewrite Hm, Hu, Hv.
  - intros Hv. rewrite Hv in Hty. exact Hty.
Qed.

Lemma GetNodeGroupType_verbatim_witness :
  GetNodeGroupType v1alpha5 (Tags spotStack) = ("spot", None)
  /\ GetAutoScalingGroupName v1alpha5 mockWorld spotStack =
       (("", Some (fmt_Errorf
          "cant get autoscaling group name, because unexpected nodegroup type : %q"
          ["spot"])), []).
Proof.
  assert (Hn : exists n, firstNameTag v1alpha5 (Tags spotStack) n
                         /\ Value n <> "").
  { exists (nameTag "ng-1"). split.
    - exists [], [typeTag "spot"]. repeat split.
      + intros u [].
      + left. reflexivity.
    - simpl. discriminate. }
  assert (Ht : lastTypeTag v1alpha5 (Tags spotStack) (typeTag "spot")).
  { exists [nameTag "ng-1"], []. repeat split. intros u []. }
  destruct (GetNodeGroupType_verbatim v1alpha5 mockWorld spotStack
              (typeTag "spot") Hn Ht) as [H _].
  destruct H as [Hty Hasg]; [simpl; discriminate|].
  split; [exact Hty|].
  apply Hasg; simpl; discriminate.
Defined.

(** ** GetNodeGroupName *)

Lemma suffixes_exclusive (p : string) :
  strings_HasSuffix (p ++ "-DefaultNodeGroup") "-nodegroup-0" = false.
Proof.
  apply strings_HasSuffix_false. intros q Hq.
  assert (Hlen := f_equal String.length Hq).
  rewrite !append_length in Hlen. simpl in Hlen.
  assert (H1 := append_correct2 p "-DefaultNodeGroup" 16).
  assert (H2 := append_correct2 q "-nodegroup-0" 11).
  rewrite Hq in H1.
  replace (16 + String.length p) with (11 + String.length q) in H1 by lia.
  rewrite <- H2 in H1. simpl in H1. discriminate.
Qed.

Section NameFacts.
Variable api : ApiConstants.

Lemma lookupTag_None (k : string) (tags : list Tag) :
  lookupTag k tags = None -> forall u, In u tags -> Key u <> k.
Proof.
  induction tags as [|t tags IH]; simpl; intros H u Hu; [contradiction|].
  destruct (Key t =? k) eqn:E; [discriminate|].
  apply String.eqb_neq in E. destruct Hu as [<-|Hu]; auto.
Qed.

Lemma lookupTag_Some (k v : string) (tags : list Tag) :
  lookupTag k tags = Some v ->
  exists u, In u tags /\ Key u = k /\ Value u = v.
Proof.
  induction tags as [|t tags IH]; simpl; intros H; [discriminate|].
  destruct (Key t =? k) eqn:E.
  - apply String.eqb_eq in E. exists t. split; [now left|].
    split; congruence.
  - destruct (IH H) as (u & Hu & Hk & Hv). exists u. auto.
Qed.

Lemma firstNameTag_In (tags : list Tag) (t : Tag) :
  firstNameTag api tags t -> In t tags /\ nameIdentifying api t.
Proof.
  intros (pre & post & -> & _ & Ht). split; trivial.
  apply in_or_app. right. now left.
Qed.

(** The name taken from the tags: the first name tag when its value is not
    empty. *)
Lemma GetNodeGroupName_tagged (s : Stack) (t : Tag) :
  firstNameTag api (Tags s) t -> Value t <> "" ->
  GetNodeGroupName api s = Value t.
Proof.
  intros Ht Hv. unfold GetNodeGroupName.
  rewrite (GetNodegroupTagName_firstNameTag api (Tags s) t Ht).
  apply String.eqb_neq in Hv. now rewrite Hv.
Qed.

(** The name taken from the stack name, when the tags give none. *)
Lemma GetNodeGroupName_untagged (s : Stack) :
  GetNodegroupTagName api (Tags s) = "" ->
  GetNodeGroupName api s =
    if strings_HasSuffix (StackName s) "-nodegroup-0" then
      "legacy-nodegroup-0"
    else if strings_HasSuffix (StackName s) "-DefaultNodeGroup" then
      "legacy-default"
    else "".
Proof.
  intros H. unfold GetNodeGroupName. now rewrite H.
Qed.

(** Where the tags with a name key agree on one non-empty value, the order
    of the tags does not matter and the code follows the precedence. *)
Lemma GetNodeGroupName_agrees_byPrecedence (s : Stack) :
  (forall t u, In t (Tags s) -> In u (Tags s) ->
     nameIdentifying api t -> nameIdentifying api u -> Value t = Value u) ->
  (forall t, In t (Tags s) -> nameIdentifying api t -> Value t <> "") ->
  GetNodeGroupName api s = GetNodeGroupName_byPrecedence api s.
Proof.
  intros Hsame Hfull. unfold GetNodeGroupName_byPrecedence.
  destruct (nameTag_cases api (Tags s)) as [Hno | [t Ht]].
  - rewrite (GetNodeGroupName_untagged s
               (GetNodegroupTagName_noNameTag api (Tags s) Hno)).
    destruct (lookupTag (NodeGroupNameTag api) (Tags s)) as [v|] eqn:E1.
    { apply lookupTag_Some in E1. destruct E1 as (u & Hu & Hk & _).
      exfalso. apply (Hno u Hu). now left. }
    destruct (lookupTag (OldNodeGroupNameTag api) (Tags s)) as [v|] eqn:E2.
    { apply lookupTag_Some in E2. destruct E2 as (u & Hu & Hk & _).
      exfalso. apply (Hno u Hu). right. now left. }
    destruct (lookupTag (OldNodeGroupIDTag api) (Tags s)) as [v|] eqn:E3.
    { apply lookupTag_Some in E3. destruct E3 as (u & Hu & Hk & _).
      exfalso. apply (Hno u Hu). right. now right. }
    reflexivity.
  - destruct (firstNameTag_In (Tags s) t Ht) as [Hin Hname].
    rewrite (GetNodeGroupName_tagged s t Ht (Hfull t Hin Hname)).
    destruct (lookupTag (NodeGroupNameTag api) (Tags s)) as [v|] eqn:E1.
    { apply lookupTag_Some in E1. destruct E1 as (u & Hu & Hk & <-).
      apply Hsame; trivial. now left. }
    destruct (lookupTag (OldNodeGroupNameTag api) (Tags s)) as [v|] eqn:E2.
    { apply lookupTag_Some in E2. destruct E2 as (u & Hu & Hk & <-).
      apply Hsame; trivial. right. now left. }
    destruct (lookupTag (OldNodeGroupIDTag api) (Tags s)) as [v|] eqn:E3.
    { apply lookupTag_Some in E3. destruct E3 as (u & Hu & Hk & <-).
      apply Hsame; trivial. right. now right. }
    exfalso. destruct Hname as [Hk | [Hk | Hk]].
    + exact (lookupTag_None _ _ E1 t Hin Hk).
    + exact (lookupTag_None _ _ E2 t Hin Hk).
    + exact (lookupTag_None _ _ E3 t Hin Hk).
Qed.

End NameFacts.

(** C5, as stated, fails: on a stack whose tag list has the legacy id tag
    before the current name tag, the code returns the value of the legacy
    id tag, and the stated precedence gives the value of the current name
    tag. *)
Lemma GetNodeGroupName_precedence_fails :
  GetNodeGroupName v1alpha5 relabelledStack = "green"
  /\ GetNodeGroupName_byPrecedence v1alpha5 relabelledStack = "blue"
  /\ GetNodeGroupName v1alpha5 relabelledStack
     <> GetNodeGroupName_byPrecedence v1alpha5 relabelledStack.
Proof.
  split; [reflexivity|]. split; [reflexivity|].
  vm_compute. discriminate.
Qed.

(** C5, amended: for every stack whose name-identifying tags all carry the
    same non-empty value (at most one such tag, or none, in particular),
    [GetNodeGroupName] resolves the name with the precedence current-name
    tag, legacy-name tag, legacy-id tag, suffix heuristics, empty string.
    For every stack, the three keys are not ranked: the first tag in tag
    order with one of them gives the name when its value is not empty;
    when there is no such tag or that value is empty, a stack name ending
    in [-nodegroup-0] yields [legacy-nodegroup-0], one ending in
    [-DefaultNodeGroup] yields [legacy-default], and any other the empty
    string. *)
Theorem GetNodeGroupName_resolution (api : ApiConstants) (s : Stack) :
  ((forall t u, In t (Tags s) -> In u (Tags s) ->
      nameIdentifying api t -> nameIdentifying api u -> Value t = Value u) ->
   (forall t, In t (Tags s) -> nameIdentifying api t -> Value t <> "") ->
   GetNodeGroupName api s = GetNodeGroupName_byPrecedence api s)
  /\ (forall t, firstNameTag api (Tags s) t -> Value t <> "" ->
      GetNodeGroupName api s = Value t)
  /\ (noNameTag api (Tags s)
      \/ (exists t, firstNameTag api (Tags s) t /\ Value t = "") ->
      (forall p, StackName s = (p ++ "-nodegroup-0")%string ->
         GetNodeGroupName api s = "legacy-nodegroup-0")
      /\ (forall p, StackName s = (p ++ "-DefaultNodeGroup")%string ->
            GetNodeGroupName api s = "legacy-default")
      /\ ((forall p, StackName s <> (p ++ "-nodegroup-0")%string) ->
          (forall p, StackName s <> (p ++ "-DefaultNodeGroup")%string) ->
          GetNodeGroupName api s = "")).
Proof.
  split; [apply GetNodeGroupName_agrees_byPrecedence|].
  split; [apply GetNodeGroupName_tagged|].
  intros H. apply GetNodegroupTagName_empty in H.
  rewrite (GetNodeGroupName_untagged api s H).
  split; [|split].
  - intros p ->. now rewrite strings_HasSuffix_append.
  - intros p ->. now rewrite suffixes_exclusive, strings_HasSuffix_append.
  - intros H0 HD. apply strings_HasSuffix_false in H0, HD.
    now rewrite H0, HD.
Qed.

Lemma GetNodeGroupName_resolution_witness :
  GetNodeGroupName v1alpha5 unmanagedStack
    = GetNodeGroupName_byPrecedence v1alpha5 unmanagedStack
  /\ GetNodeGroupName v1alpha5 relabelledStack = "green"
  /\ GetNodeGroupName v1alpha5 legacyStack = "legacy-nodegroup-0".
Proof.
  split; [|split].
  - apply (proj1 (GetNodeGroupName_resolution v1alpha5 unmanagedStack)).
    + intros t u [<-|[<-|[]]] [<-|[<-|[]]] Ht Hu; try reflexivity;
        destruct Ht as [Ht|[Ht|Ht]]; try discriminate Ht;
        destruct Hu as [Hu|[Hu|Hu]]; discriminate Hu.
    + intros t [<-|[<-|[]]] Ht; simpl; discriminate.
  - apply (proj1 (proj2 (GetNodeGroupName_resolution v1alpha5 relabelledStack))
             (legacyIdTag "green")).
    + exists [], [nameTag "blue"]. repeat split.
      * intros u [].
      * right. right. reflexivity.
    + simpl. discriminate.
  - apply (proj1 (proj2 (proj2
             (GetNodeGroupName_resolution v1alpha5 legacyStack))
             (or_introl (fun u (H : In u []) => match H with end)))
             "eksctl-web").
    reflexivity.
Defined.

(** ** Traces *)

Lemma value_bind {E A B : Type} (m : Traced E A) (k : A -> Traced E B) :
  value (bind m k) = value (k (value m)).
Proof.
  unfold value, bind. destruct m as [a t1]. simpl.
  now destruct (k a).
Qed.

Lemma trace_bind {E A B : Type} (m : Traced E A) (k : A -> Traced E B) :
  trace (bind m k) = trace m ++ trace (k (value m)).
Proof.
  unfold value, trace, bind. destruct m as [a t1]. simpl.
  now destruct (k a).
Qed.

Lemma delivered_app (t1 t2 : list Event) :
  delivered (t1 ++ t2) = delivered t1 ++ delivered t2.
Proof.
  induction t1 as [|e t1 IH]; simpl; [reflexivity|].
  destruct e; simpl; now rewrite ?IH.
Qed.


(** ** DescribeNodeGroupStacks *)

Section Listing.
Variable api : ApiConstants.

(** The loop appends to its accumulator the stacks it keeps, in order. *)
Lemma describeNodeGroupStacksLoop_value (stacks : list Stack) :
  forall acc,
    value (describeNodeGroupStacksLoop api stacks acc)
    = acc ++ filter (keptStack api) stacks.
Proof.
  induction stacks as [|s stacks IH]; intros acc; simpl.
  - unfold value, ret. simpl. now rewrite app_nil_r.
  - unfold keptStack.
    destruct (StackStatus s =? cfn_StackStatusDeleteComplete); simpl;
      [apply IH|].
    destruct (StackStatus s =? cfn_StackStatusDeleteFailed); simpl.
    + rewrite value_bind. apply IH.
    + destruct (GetNodeGroupName api s =? ""); simpl; [apply IH|].
      rewrite IH, <- app_assoc. reflexivity.
Qed.

(** The loop makes no call: it only logs. *)
Lemma describeNodeGroupStacksLoop_quiet (stacks : list Stack) :
  forall acc,
    networkCalls (trace (describeNodeGroupStacksLoop api stacks acc)) = [].
Proof.
  induction stacks as [|s stacks IH]; intros acc; simpl; [reflexivity|].
  destruct (StackStatus s =? cfn_StackStatusDeleteComplete); [apply IH|].
  destruct (StackStatus s =? cfn_StackStatusDeleteFailed).
  - rewrite trace_bind. unfold networkCalls. rewrite filter_app.
    simpl. apply IH.
  - destruct (negb (GetNodeGroupName api s =? "")); apply IH.
Qed.

Lemma keptStack_true (s : Stack) :
  keptStack api s = true <->
  StackStatus s <> cfn_StackStatusDeleteComplete
  /\ StackStatus s <> cfn_StackStatusDeleteFailed
  /\ GetNodeGroupName api s <> "".
Proof.
  unfold keptStack.
  rewrite !andb_true_iff, !negb_true_iff, !String.eqb_neq. tauto.
Qed.

Lemma DescribeNodeGroupStacks_value (c : World) (stacks : list Stack) :
  DescribeStacks c = (stacks, None) ->
  value (DescribeNodeGroupStacks api c)
  = (filter (keptStack api) stacks, None).
Proof.
  intros H. unfold DescribeNodeGroupStacks, ask. rewrite H.
  destruct stacks as [|s stacks]; [reflexivity|].
  assert (Hlen : Nat.eqb (List.length (s :: stacks)) 0 = false)
    by reflexivity.
  remember (s :: stacks) as l eqn:El.
  rewrite value_bind. cbn [value fst]. rewrite Hlen.
  change (fst ?m) with (value m).
  rewrite !value_bind. cbn [value ret fst].
  change (fst ?m) with (value m).
  now rewrite describeNodeGroupStacksLoop_value.
Qed.

End Listing.

(** C7: on the stack list that the describe-all query returns,
    [DescribeNodeGroupStacks] returns no error and returns, in their order,
    exactly the stacks whose status is neither delete-complete nor
    delete-failed and whose node-group name resolves to a non-empty
    string. *)
Theorem DescribeNodeGroupStacks_classifies (api : ApiConstants) (c : World)
  (stacks : list Stack) :
  DescribeStacks c = (stacks, None) ->
  snd (value (DescribeNodeGroupStacks api c)) = None
  /\ fst (value (DescribeNodeGroupStacks api c))
     = filter (keptStack api) stacks
  /\ forall s,
       In s (fst (value (DescribeNodeGroupStacks api c))) <->
       In s stacks
       /\ StackStatus s <> cfn_StackStatusDeleteComplete
       /\ StackStatus s <> cfn_StackStatusDeleteFailed
       /\ GetNodeGroupName api s <> "".
Proof.
  intros H. rewrite (DescribeNodeGroupStacks_value api c stacks H). simpl.
  split; [reflexivity|]. split; [reflexivity|].
  intros s. rewrite filter_In, keptStack_true. tauto.
Qed.

Lemma DescribeNodeGroupStacks_classifies_witness :
  snd (value (DescribeNodeGroupStacks v1alpha5 listingWorld)) = None
  /\ fst (value (DescribeNodeGroupStacks v1alpha5 listingWorld))
     = [managedStack; legacyStack].
Proof.
  destruct (DescribeNodeGroupStacks_classifies v1alpha5 listingWorld
              listedStacks eq_refl) as (Herr & Hlist & _).
  split; [exact Herr|]. rewrite Hlist. reflexivity.
Defined.

(** ** createManagedNodeGroupTask *)

(** C6: when the cluster stack is not found and the cluster has IPv6
    enabled, [createManagedNodeGroupTask] returns the configuration error
    at once: the lookup of the cluster stack is the only call it makes, so
    no bootstrapper, resource set or stack creation is started. *)
Theorem createManagedNodeGroupTask_unowned_ipv6 (c : World)
  (ng : ManagedNodeGroup) (forceAddCNIPolicy : bool) :
  DescribeClusterStack c = (None, None) ->
  spec_IPv6Enabled c = true ->
  value (createManagedNodeGroupTask c ng forceAddCNIPolicy)
    = Some (errors_New
        "managed nodegroups cannot be created on IPv6 unowned clusters")
  /\ trace (createManagedNodeGroupTask c ng forceAddCNIPolicy)
     = [call_DescribeClusterStack]
  /\ filter isConstruction
       (trace (createManagedNodeGroupTask c ng forceAddCNIPolicy)) = [].
Proof.
  intros Hcluster Hv6. unfold createManagedNodeGroupTask, ask.
  rewrite Hcluster, Hv6. repeat split.
Qed.

Lemma createManagedNodeGroupTask_unowned_ipv6_witness :
  value (createManagedNodeGroupTask unownedIPv6 (testNodeGroup 1) false)
    = Some (errors_New
        "managed nodegroups cannot be created on IPv6 unowned clusters")
  /\ trace (createManagedNodeGroupTask unownedIPv6 (testNodeGroup 1) false)
     = [call_DescribeClusterStack]
  /\ filter isConstruction
       (trace (createManagedNodeGroupTask unownedIPv6 (testNodeGroup 1) false))
     = [].
Proof.
  apply (createManagedNodeGroupTask_unowned_ipv6 unownedIPv6
           (testNodeGroup 1) false); reflexivity.
Defined.

(** ** propagateManagedNodeGroupTagsToASGTask *)

Section Propagation.
Variable c : World.
Variable ng : ManagedNodeGroup.

Lemma propagate_disabled :
  propagationDisabled ng = true ->
  propagateManagedNodeGroupTagsToASGTask c ng = (None, []).
Proof.
  intros H. unfold propagateManagedNodeGroupTagsToASGTask. now rewrite H.
Qed.

Lemma propagate_describe_error (e : error) :
  propagationDisabled ng = false ->
  snd (eksAPI_DescribeNodegroup c (propagateInput c ng)) = Some e ->
  propagateManagedNodeGroupTagsToASGTask c ng =
    (Some (errors_Wrapf e
       "couldn't get managed nodegroup details for nodegroup %q"
       [ng_Name ng]),
     [call_DescribeNodegroup (propagateInput c ng)]).
Proof.
  intros Hd He. unfold propagateManagedNodeGroupTagsToASGTask, ask.
  rewrite Hd. fold (propagateInput c ng).
  destruct (eksAPI_DescribeNodegroup c (propagateInput c ng)) as [res err].
  simpl in He. subst err. reflexivity.
Qed.

Lemma propagate_tagging_error (res : eks.DescribeNodegroupOutput)
  (asgs : list string) (e : error) :
  propagationDisabled ng = false ->
  eksAPI_DescribeNodegroup c (propagateInput c ng) = (res, None) ->
  eks.Resources res = Some asgs ->
  asgAPI_CreateOrUpdateTags c (buildASGTags asgs (ng_Tags ng)) = Some e ->
  propagateManagedNodeGroupTagsToASGTask c ng =
    (Some (errors_Wrapf e
       "creating or updating asg tags for managed nodegroup %q"
       [ng_Name ng]),
     [call_DescribeNodegroup (propagateInput c ng);
      call_CreateOrUpdateTags (buildASGTags asgs (ng_Tags ng))]).
Proof.
  intros Hd Hres Hasgs He.
  unfold propagateManagedNodeGroupTagsToASGTask, ask.
  rewrite Hd. fold (propagateInput c ng).
  rewrite Hres. unfold bind at 1. cbn iota. rewrite Hasgs.
  unfold bind. now rewrite He.
Qed.

Lemma propagate_tagged (res : eks.DescribeNodegroupOutput)
  (asgs : list string) :
  propagationDisabled ng = false ->
  eksAPI_DescribeNodegroup c (propagateInput c ng) = (res, None) ->
  eks.Resources res = Some asgs ->
  asgAPI_CreateOrUpdateTags c (buildASGTags asgs (ng_Tags ng)) = None ->
  propagateManagedNodeGroupTagsToASGTask c ng =
    (None,
     [call_DescribeNodegroup (propagateInput c ng);
      call_CreateOrUpdateTags (buildASGTags asgs (ng_Tags ng));
      chan_send None]).
Proof.
  intros Hd Hres Hasgs He.
  unfold propagateManagedNodeGroupTagsToASGTask, ask.
  rewrite Hd. fold (propagateInput c ng).
  rewrite Hres. unfold bind at 1. cbn iota. rewrite Hasgs.
  unfold bind. now rewrite He.
Qed.

Lemma propagate_no_resources (res : eks.DescribeNodegroupOutput) :
  propagationDisabled ng = false ->
  eksAPI_DescribeNodegroup c (propagateInput c ng) = (res, None) ->
  eks.Resources res = None ->
  propagateManagedNodeGroupTagsToASGTask c ng =
    (None, [call_DescribeNodegroup (propagateInput c ng); chan_send None]).
Proof.
  intros Hd Hres Hasgs.
  unfold propagateManagedNodeGroupTagsToASGTask, ask.
  rewrite Hd. fold (propagateInput c ng).
  rewrite Hres. unfold bind at 1. cbn iota. now rewrite Hasgs.
Qed.

(** Unless it is disabled, the task starts with the describe-node-group
    call, whatever the number of tags. *)
Lemma propagate_describes_first :
  propagationDisabled ng = false ->
  exists rest,
    trace (propagateManagedNodeGroupTagsToASGTask c ng)
    = call_DescribeNodegroup (propagateInput c ng) :: rest.
Proof.
  intros Hd.
  destruct (eksAPI_DescribeNodegroup c (propagateInput c ng))
    as [res [e|]] eqn:Hres.
  - rewrite (propagate_describe_error e Hd); [|now rewrite Hres].
    now eexists.
  - destruct (eks.Resources res) as [asgs|] eqn:Hasgs.
    + destruct (asgAPI_CreateOrUpdateTags c (buildASGTags asgs (ng_Tags ng)))
        as [e|] eqn:He.
      * rewrite (propagate_tagging_error res asgs e Hd Hres Hasgs He).
        now eexists.
      * rewrite (propagate_tagged res asgs Hd Hres Hasgs He). now eexists.
    + rewrite (propagate_no_resources res Hd Hres Hasgs). now eexists.
Qed.

(** The task makes at most one tagging call, and that call carries a record
    for every pair of an autoscaling group and a tag. *)
Lemma propagate_one_tagging_call :
  taggingCalls (trace (propagateManagedNodeGroupTagsToASGTask c ng)) = []
  \/ exists asgs,
       taggingCalls (trace (propagateManagedNodeGroupTagsToASGTask c ng))
       = [buildASGTags asgs (ng_Tags ng)].
Proof.
  destruct (propagationDisabled ng) eqn:Hd.
  { left. now rewrite propagate_disabled. }
  destruct (eksAPI_DescribeNodegroup c (propagateInput c ng))
    as [res [e|]] eqn:Hres.
  - left. rewrite (propagate_describe_error e Hd); [|now rewrite Hres].
    reflexivity.
  - destruct (eks.Resources res) as [asgs|] eqn:Hasgs.
    + right. exists asgs.
      destruct (asgAPI_CreateOrUpdateTags c (buildASGTags asgs (ng_Tags ng)))
        as [e|] eqn:He.
      * now rewrite (propagate_tagging_error res asgs e Hd Hres Hasgs He).
      * now rewrite (propagate_tagged res asgs Hd Hres Hasgs He).
    + left. now rewrite (propagate_no_resources res Hd Hres Hasgs).
Qed.

(** The channel receives nothing or one nil, never an error. *)
Lemma propagate_delivers_nil_only :
  delivered (trace (propagateManagedNodeGroupTagsToASGTask c ng)) = []
  \/ delivered (trace (propagateManagedNodeGroupTagsToASGTask c ng)) = [None].
Proof.
  destruct (propagationDisabled ng) eqn:Hd.
  { left. now rewrite propagate_disabled. }
  destruct (eksAPI_DescribeNodegroup c (propagateInput c ng))
    as [res [e|]] eqn:Hres.
  - left. rewrite (propagate_describe_error e Hd); [|now rewrite Hres].
    reflexivity.
  - destruct (eks.Resources res) as [asgs|] eqn:Hasgs.
    + destruct (asgAPI_CreateOrUpdateTags c (buildASGTags asgs (ng_Tags ng)))
        as [e|] eqn:He.
      * left.
        now rewrite (propagate_tagging_error res asgs e Hd Hres Hasgs He).
      * right. now rewrite (propagate_tagged res asgs Hd Hres Hasgs He).
    + right. now rewrite (propagate_no_resources res Hd Hres Hasgs).
Qed.

End Propagation.

Lemma buildASGTags_length (asgs : list string)
  (ngTags : list (string * string)) :
  List.length (buildASGTags asgs ngTags)
  = List.length asgs * List.length ngTags.
Proof.
  unfold buildASGTags.
  induction asgs as [|asg asgs IH]; simpl; [reflexivity|].
  now rewrite length_app, length_map, IH.
Qed.

(** [api_test.go], "can create propagate tag": one tag on the autoscaling
    group [asg-test-name] is sent as the one record that the mock
    expects, and nil arrives on the channel. *)
Example propagate_one_tag :
  propagateManagedNodeGroupTagsToASGTask mockWorld
    {| ng_Name := "ng-test-name";
       ng_Tags := [("tag_key_1", "tag_value_1")];
       ng_DisableASGTagPropagation := None |}
  = (None,
     [call_DescribeNodegroup
        {| eks.ClusterName := ""; eks.NodegroupName := "ng-test-name" |};
      call_CreateOrUpdateTags
        [{| autoscaling.ResourceId := "asg-test-name";
            autoscaling.ResourceType := "auto-scaling-group";
            autoscaling.Key := "tag_key_1";
            autoscaling.Value := "tag_value_1";
            autoscaling.PropagateAtLaunch := false |}];
      chan_send None]).
Proof. reflexivity. Qed.

(** The task has no check of the number of tags: with 51 tags, one more
    than [MaximumTagNumber], it runs as with any other tag map.  It calls
    describe-node-group, sends all 51 records in one tagging call, returns
    nil and delivers nil on the channel. *)
Theorem propagate_over_quota_run :
  builder_MaximumTagNumber < List.length (ng_Tags (testNodeGroup 51))
  /\ value (propagateManagedNodeGroupTagsToASGTask mockWorld
              (testNodeGroup 51)) = None
  /\ delivered (trace (propagateManagedNodeGroupTagsToASGTask mockWorld
                         (testNodeGroup 51))) = [None]
  /\ networkCalls (trace (propagateManagedNodeGroupTagsToASGTask mockWorld
                            (testNodeGroup 51)))
     = [call_DescribeNodegroup (propagateInput mockWorld (testNodeGroup 51));
        call_CreateOrUpdateTags
          (buildASGTags ["asg-test-name"] (testTags 51))]
  /\ map (@List.length autoscaling.Tag)
       (taggingCalls (trace (propagateManagedNodeGroupTagsToASGTask mockWorld
                               (testNodeGroup 51)))) = [51].
Proof.
  split; [vm_compute; lia|]. repeat split; vm_compute; reflexivity.
Qed.

(** The task does not split its records: with 30 tags and one autoscaling
    group it issues one tagging call of 30 records, more than
    [MaximumCreatedTagNumberPerCall]; nil is returned and delivered. *)
Theorem propagate_thirty_tags_run :
  builder_MaximumCreatedTagNumberPerCall < 30
  /\ map (@List.length autoscaling.Tag)
       (taggingCalls (trace (propagateManagedNodeGroupTagsToASGTask mockWorld
                               (testNodeGroup 30)))) = [30]
  /\ map (@List.length autoscaling.Tag)
       (taggingCalls (trace (propagateManagedNodeGroupTagsToASGTask mockWorld
                               (testNodeGroup 30)))) <> [25; 5]
  /\ value (propagateManagedNodeGroupTagsToASGTask mockWorld
              (testNodeGroup 30)) = None
  /\ delivered (trace (propagateManagedNodeGroupTagsToASGTask mockWorld
                         (testNodeGroup 30))) = [None].
Proof.
  split; [vm_compute; lia|].
  split; [vm_compute; reflexivity|].
  split; [vm_compute; discriminate|].
  split; vm_compute; reflexivity.
Qed.

(** C3, on the code: with propagation disabled the task returns nil and
    sends nothing on the channel, where its successful run sends nil; and
    a describe-node-group error and a tagging error are returned by the
    call itself, and nothing is sent on the channel. *)
Lemma propagate_always_nil_fails :
  value (propagateManagedNodeGroupTagsToASGTask describeFails
           (testNodeGroup 1))
    = Some (errors_Wrapf serviceError
        "couldn't get managed nodegroup details for nodegroup %q"
        ["ng-test-name"])
  /\ delivered (trace (propagateManagedNodeGroupTagsToASGTask describeFails
                         (testNodeGroup 1))) = []
  /\ value (propagateManagedNodeGroupTagsToASGTask taggingFails
              (testNodeGroup 1))
       = Some (errors_Wrapf serviceError
           "creating or updating asg tags for managed nodegroup %q"
           ["ng-test-name"])
  /\ delivered (trace (propagateManagedNodeGroupTagsToASGTask taggingFails
                         (testNodeGroup 1))) = []
  /\ value (propagateManagedNodeGroupTagsToASGTask mockWorld
              disabledNodeGroup) = None
  /\ delivered (trace (propagateManagedNodeGroupTagsToASGTask mockWorld
                         disabledNodeGroup)) = [].
Proof. repeat split. Qed.

(** The results of the task, case by case: nil from the call itself when
    propagation is disabled, with no call made, and when the
    describe-node-group call and the tagging call (if any) succeed, with
    one nil sent on the channel; an error of describe-node-group or of the
    tagging call is returned by the call itself, wrapped with the name of
    the node group, with nothing sent on the channel. *)
Theorem propagate_result_contract (c : World) (ng : ManagedNodeGroup) :
  (propagationDisabled ng = true ->
   value (propagateManagedNodeGroupTagsToASGTask c ng) = None
   /\ networkCalls (trace (propagateManagedNodeGroupTagsToASGTask c ng)) = [])
  /\ (propagationDisabled ng = false ->
      (forall e,
         snd (eksAPI_DescribeNodegroup c (propagateInput c ng)) = Some e ->
         value (propagateManagedNodeGroupTagsToASGTask c ng)
           = Some (errors_Wrapf e
               "couldn't get managed nodegroup details for nodegroup %q"
               [ng_Name ng])
         /\ delivered (trace (propagateManagedNodeGroupTagsToASGTask c ng))
            = [])
      /\ (forall res asgs e,
            eksAPI_DescribeNodegroup c (propagateInput c ng) = (res, None) ->
            eks.Resources res = Some asgs ->
            asgAPI_CreateOrUpdateTags c (buildASGTags asgs (ng_Tags ng))
              = Some e ->
            value (propagateManagedNodeGroupTagsToASGTask c ng)
              = Some (errors_Wrapf e
                  "creating or updating asg tags for managed nodegroup %q"
                  [ng_Name ng])
            /\ delivered (trace (propagateManagedNodeGroupTagsToASGTask c ng))
               = [])
      /\ (forall res,
            eksAPI_DescribeNodegroup c (propagateInput c ng) = (res, None) ->
            (forall asgs,
               eks.Resources res = Some asgs ->
               asgAPI_CreateOrUpdateTags c (buildASGTags asgs (ng_Tags ng))
                 = None) ->
            value (propagateManagedNodeGroupTagsToASGTask c ng) = None
            /\ delivered (trace (propagateManagedNodeGroupTagsToASGTask c ng))
               = [None])).
Proof.
  split.
  - intros Hd. now rewrite (propagate_disabled c ng Hd).
  - intros Hd. split; [|split].
    + intros e He. now rewrite (propagate_describe_error c ng e Hd He).
    + intros res asgs e Hres Hasgs He.
      now rewrite (propagate_tagging_error c ng res asgs e Hd Hres Hasgs He).
    + intros res Hres Hok.
      destruct (eks.Resources res) as [asgs|] eqn:Hasgs.
      * now rewrite (propagate_tagged c ng res asgs Hd Hres Hasgs
                       (Hok asgs eq_refl)).
      * now rewrite (propagate_no_resources c ng res Hd Hres Hasgs).
Qed.

Lemma propagate_result_contract_witness :
  (value (propagateManagedNodeGroupTagsToASGTask mockWorld disabledNodeGroup)
     = None
   /\ networkCalls
        (trace (propagateManagedNodeGroupTagsToASGTask mockWorld
                  disabledNodeGroup)) = [])
  /\ (value (propagateManagedNodeGroupTagsToASGTask describeFails
               (testNodeGroup 1))
        = Some (errors_Wrapf serviceError
            "couldn't get managed nodegroup details for nodegroup %q"
            ["ng-test-name"])
      /\ delivered (trace (propagateManagedNodeGroupTagsToASGTask
                             describeFails (testNodeGroup 1))) = [])
  /\ (value (propagateManagedNodeGroupTagsToASGTask taggingFails
               (testNodeGroup 1))
        = Some (errors_Wrapf serviceError
            "creating or updating asg tags for managed nodegroup %q"
            ["ng-test-name"])
      /\ delivered (trace (propagateManagedNodeGroupTagsToASGTask
                             taggingFails (testNodeGroup 1))) = [])
  /\ (value (propagateManagedNodeGroupTagsToASGTask mockWorld
               (testNodeGroup 1)) = None
      /\ delivered (trace (propagateManagedNodeGroupTagsToASGTask mockWorld
                             (testNodeGroup 1))) = [None]).
Proof.
  split; [|split; [|split]].
  - apply (proj1 (propagate_result_contract mockWorld disabledNodeGroup)).
    reflexivity.
  - apply (proj1 (proj2 (propagate_result_contract describeFails
                           (testNodeGroup 1)) eq_refl)).
    reflexivity.
  - apply (proj1 (proj2 (proj2 (propagate_result_contract taggingFails
                                  (testNodeGroup 1)) eq_refl))
             {| eks.Resources := Some ["asg-test-name"] |}
             ["asg-test-name"]); reflexivity.
  - apply (proj2 (proj2 (proj2 (propagate_result_contract mockWorld
                                  (testNodeGroup 1)) eq_refl))
             {| eks.Resources := Some ["asg-test-name"] |}); reflexivity.
Defined.

(** ** UpdateStack *)

(** [api_test.go], "succeeds if no changes required": the stack is
    described, the change set is created and waited for, and the call
    returns nil. *)
Example UpdateStack_no_changes_run :
  UpdateStackModel.UpdateStack noChangesService noChangesOptions
  = (None,
     [UpdateStackModel.call_DescribeStack "eksctl-stack";
      UpdateStackModel.call_CreateChangeSet "eksctl-stack" "eksctl-changeset"
        [mkTag "alpha.eksctl.io/cluster-name" ""] "";
      UpdateStackModel.call_waitChangeSet "eksctl-stack" "eksctl-changeset"]).
Proof. reflexivity. Qed.

(** [api_test.go], "updates tags (existing + metadata + auto)": the change
    set carries the existing tag, the metadata tag and the cluster-name
    tag; it is executed and the stack is waited for. *)
Example UpdateStack_updates_tags :
  UpdateStackModel.UpdateStack updateService (updateOptions true)
  = (None,
     [UpdateStackModel.call_DescribeStack "eksctl-stack";
      UpdateStackModel.call_CreateChangeSet "eksctl-stack" "eksctl-changeset"
        [mkTag "existing" "tag"; mkTag "meta" "data";
         mkTag "alpha.eksctl.io/cluster-name" "clusteur"] "";
      UpdateStackModel.call_waitChangeSet "eksctl-stack" "eksctl-changeset";
      UpdateStackModel.call_ExecuteChangeSet "eksctl-stack" "eksctl-changeset";
      UpdateStackModel.call_waitStackUpdate "eksctl-stack"]).
Proof. reflexivity. Qed.

(** [api_test.go], "will skip the last wait sequence": without [Wait] the
    run ends with the execution of the change set. *)
Example UpdateStack_without_wait :
  UpdateStackModel.UpdateStack updateService (updateOptions false)
  = (None,
     [UpdateStackModel.call_DescribeStack "eksctl-stack";
      UpdateStackModel.call_CreateChangeSet "eksctl-stack" "eksctl-changeset"
        [mkTag "existing" "tag"; mkTag "meta" "data";
         mkTag "alpha.eksctl.io/cluster-name" "clusteur"] "";
      UpdateStackModel.call_waitChangeSet "eksctl-stack" "eksctl-changeset";
      UpdateStackModel.call_ExecuteChangeSet "eksctl-stack"
        "eksctl-changeset"]).
Proof. reflexivity. Qed.

(** On a resolved stack: the only wait for a change set is the one for the
    change set of the options, and a FAILED state whose reason has the
    no-changes substring ends the call with nil before any execution. *)
Lemma applyChangeSet_no_changes (svc : UpdateStackModel.Service)
  (opts : UpdateStackModel.UpdateStackOptions) (s : Stack)
  (name changeSet : string) :
  In (UpdateStackModel.call_waitChangeSet name changeSet)
     (trace (UpdateStackModel.applyChangeSet svc opts s)) ->
  UpdateStackModel.Status (UpdateStackModel.waitChangeSet svc name changeSet)
    = UpdateStackModel.cfn_ChangeSetStatusFailed ->
  strings_Contains
    (UpdateStackModel.StatusReason
       (UpdateStackModel.waitChangeSet svc name changeSet))
    "didn't contain changes" = true ->
  value (UpdateStackModel.applyChangeSet svc opts s) = None
  /\ filter UpdateStackModel.isExecute
       (trace (UpdateStackModel.applyChangeSet svc opts s)) = [].
Proof.
  intros Hin Hstatus Hreason.
  unfold UpdateStackModel.applyChangeSet, bind, ask, ret in *.
  destruct (UpdateStackModel.CreateChangeSet svc (StackName s)
              (UpdateStackModel.opt_ChangeSetName opts)
              (UpdateStackModel.mergeTags svc opts (Tags s))
              (UpdateStackModel.opt_TemplateData opts)) as [e|].
  { simpl in Hin. destruct Hin as [Hin | []]. discriminate Hin. }
  assert (Hsame : name = StackName s
                  /\ changeSet = UpdateStackModel.opt_ChangeSetName opts).
  { destruct ((UpdateStackModel.Status _
               =? UpdateStackModel.cfn_ChangeSetStatusFailed) && _);
      [|destruct (UpdateStackModel.Status _
                  =? UpdateStackModel.cfn_ChangeSetStatusCreateComplete);
        [destruct (UpdateStackModel.ExecuteChangeSet svc _ _);
          [|destruct (UpdateStackModel.opt_Wait opts)]|]];
      simpl in Hin;
      repeat (destruct Hin as [Hin | Hin];
              [try discriminate Hin; injection Hin; auto|]);
      contradiction. }
  destruct Hsame as [<- <-].
  rewrite Hstatus, String.eqb_refl.
  unfold UpdateStackModel.noChangesReason. rewrite Hreason.
  simpl. split; reflexivity.
Qed.

(** C9: when [UpdateStack] waits for its change set and the terminal state
    of that change set is FAILED with a status reason that contains
    "didn't contain changes", it returns nil and makes no
    execute-change-set call. *)
Theorem UpdateStack_no_changes (svc : UpdateStackModel.Service)
  (opts : UpdateStackModel.UpdateStackOptions) (name changeSet : string) :
  In (UpdateStackModel.call_waitChangeSet name changeSet)
     (trace (UpdateStackModel.UpdateStack svc opts)) ->
  UpdateStackModel.Status (UpdateStackModel.waitChangeSet svc name changeSet)
    = UpdateStackModel.cfn_ChangeSetStatusFailed ->
  strings_Contains
    (UpdateStackModel.StatusReason
       (UpdateStackModel.waitChangeSet svc name changeSet))
    "didn't contain changes" = true ->
  value (UpdateStackModel.UpdateStack svc opts) = None
  /\ filter UpdateStackModel.isExecute
       (trace (UpdateStackModel.UpdateStack svc opts)) = [].
Proof.
  intros Hin Hstatus Hreason.
  unfold UpdateStackModel.UpdateStack in *.
  rewrite value_bind. rewrite trace_bind in Hin |- *.
  destruct (UpdateStackModel.opt_Stack opts) as [s|].
  - cbn [trace value ret fst snd app] in *.
    now apply (applyChangeSet_no_changes svc opts s name changeSet).
  - unfold ask at 1 2 in Hin. unfold ask at 1 2 3.
    cbn [value trace fst snd] in *.
    destruct (UpdateStackModel.DescribeStack svc
                (UpdateStackModel.opt_StackName opts)) as [s|].
    + destruct Hin as [Hin | Hin]; [discriminate Hin|].
      destruct (applyChangeSet_no_changes svc opts s name changeSet
                  Hin Hstatus Hreason) as [Hv Ht].
      split; [exact Hv|]. simpl. exact Ht.
    + simpl in Hin. destruct Hin as [Hin | []]. discriminate Hin.
Qed.

Lemma UpdateStack_no_changes_witness :
  value (UpdateStackModel.UpdateStack noChangesService noChangesOptions) = None
  /\ filter UpdateStackModel.isExecute
       (trace (UpdateStackModel.UpdateStack noChangesService
                 noChangesOptions)) = [].
Proof.
  apply (UpdateStack_no_changes noChangesService noChangesOptions
           "eksctl-stack" "eksctl-changeset").
  - right. right. left. reflexivity.
  - reflexivity.
  - reflexivity.
Defined.

(** * Further properties *)

(** ** Names and types *)

Lemma append_cancel (p a b : string) :
  (p ++ a)%string = (p ++ b)%string -> a = b.
Proof.
  induction p as [|ch p IH]; simpl; intros H; [exact H|].
  injection H as H. now apply IH.
Qed.

(** X1: within one cluster, [makeNodeGroupStackName] gives different stack
    names to different node-group names. *)
Theorem makeNodeGroupStackName_injective (c : World) (a b : string) :
  makeNodeGroupStackName c a = makeNodeGroupStackName c b -> a = b.
Proof.
  unfold makeNodeGroupStackName. intros H.
  apply append_cancel in H. apply append_cancel in H.
  now apply append_cancel in H.
Qed.

Lemma makeNodeGroupStackName_injective_witness : "ng-1" = "ng-1".
Proof.
  apply (makeNodeGroupStackName_injective mockWorld "ng-1" "ng-1").
  reflexivity.
Defined.

(** X2: where the Unmanaged value is not the empty string,
    [GetNodeGroupType] returns the empty type exactly when it returns an
    error: a type that comes without error is never empty. *)
Theorem GetNodeGroupType_empty_iff_error (api : ApiConstants)
  (tags : list Tag) :
  NodeGroupTypeUnmanaged api <> "" ->
  (fst (GetNodeGroupType api tags) = ""
   <-> snd (GetNodeGroupType api tags) <> None).
Proof.
  intros Hu. unfold GetNodeGroupType.
  destruct (GetNodegroupTagName api tags =? ""); simpl.
  - split; [discriminate | reflexivity].
  - destruct (fold_left (typeTagStep api) tags "" =? "") eqn:E.
    + split; [contradiction | congruence].
    + apply String.eqb_neq in E. split; [contradiction | congruence].
Qed.

Lemma GetNodeGroupType_empty_iff_error_witness :
  fst (GetNodeGroupType v1alpha5 spotTags) = ""
  <-> snd (GetNodeGroupType v1alpha5 spotTags) <> None.
Proof.
  apply (GetNodeGroupType_empty_iff_error v1alpha5 spotTags).
  simpl. discriminate.
Defined.

(** ** The records of the tag propagation *)

(** X3: the records that the propagation task builds are exactly one
    record for each pair of an autoscaling group and a tag, each of
    resource type [auto-scaling-group] and not propagated at launch, and
    their number is the product of the two numbers. *)
Theorem buildASGTags_records (asgs : list string)
  (ngTags : list (string * string)) :
  (forall r,
     In r (buildASGTags asgs ngTags) <->
     exists asg kv, In asg asgs /\ In kv ngTags /\ r = asgTagOf asg kv)
  /\ (forall r,
        In r (buildASGTags asgs ngTags) ->
        autoscaling.ResourceType r = "auto-scaling-group"
        /\ autoscaling.PropagateAtLaunch r = false)
  /\ List.length (buildASGTags asgs ngTags)
     = List.length asgs * List.length ngTags.
Proof.
  assert (Hin : forall r,
     In r (buildASGTags asgs ngTags) <->
     exists asg kv, In asg asgs /\ In kv ngTags /\ r = asgTagOf asg kv).
  { intros r. unfold buildASGTags. rewrite in_flat_map. split.
    - intros (asg & Hasg & Hr). apply in_map_iff in Hr.
      destruct Hr as (kv & <- & Hkv). now exists asg, kv.
    - intros (asg & kv & Hasg & Hkv & ->). exists asg. split; trivial.
      apply in_map_iff. now exists kv. }
  split; [exact Hin|]. split.
  - intros r Hr. apply Hin in Hr. destruct Hr as (asg & kv & _ & _ & ->).
    split; reflexivity.
  - apply buildASGTags_length.
Qed.

Lemma buildASGTags_records_witness :
  autoscaling.ResourceType (asgTagOf "asg-test-name" ("team", "web"))
    = "auto-scaling-group"
  /\ autoscaling.PropagateAtLaunch (asgTagOf "asg-test-name" ("team", "web"))
     = false.
Proof.
  apply (proj1 (proj2 (buildASGTags_records ["asg-test-name"]
                         [("team", "web")]))).
  now left.
Defined.

(** X4: when the describe-node-group call succeeds for an enabled node
    group, the task makes one tagging call if the answer has resources,
    also when there is no record to send (no tag, or no autoscaling group),
    and makes no tagging call if the answer has no resources; nil is
    delivered in both cases when the tagging call does not fail. *)
Theorem propagate_empty_call (c : World) (ng : ManagedNodeGroup)
  (res : eks.DescribeNodegroupOutput) :
  propagationDisabled ng = false ->
  eksAPI_DescribeNodegroup c (propagateInput c ng) = (res, None) ->
  (forall asgs,
     eks.Resources res = Some asgs ->
     taggingCalls (trace (propagateManagedNodeGroupTagsToASGTask c ng))
       = [buildASGTags asgs (ng_Tags ng)]
     /\ (asgs = [] \/ ng_Tags ng = [] ->
         taggingCalls (trace (propagateManagedNodeGroupTagsToASGTask c ng))
           = [[]]))
  /\ (eks.Resources res = None ->
      taggingCalls (trace (propagateManagedNodeGroupTagsToASGTask c ng)) = []
      /\ delivered (trace (propagateManagedNodeGroupTagsToASGTask c ng))
         = [None]).
Proof.
  intros Hd Hres. split.
  - intros asgs Hasgs.
    assert (Hcall :
      taggingCalls (trace (propagateManagedNodeGroupTagsToASGTask c ng))
        = [buildASGTags asgs (ng_Tags ng)]).
    { destruct (asgAPI_CreateOrUpdateTags c (buildASGTags asgs (ng_Tags ng)))
        as [e|] eqn:He.
      - now rewrite (propagate_tagging_error c ng res asgs e Hd Hres Hasgs He).
      - now rewrite (propagate_tagged c ng res asgs Hd Hres Hasgs He). }
    split; [exact Hcall|].
    intros Hempty. rewrite Hcall. f_equal.
    apply length_zero_iff_nil. rewrite buildASGTags_length.
    destruct Hempty as [-> | ->]; simpl; lia.
  - intros Hasgs. now rewrite (propagate_no_resources c ng res Hd Hres Hasgs).
Qed.

Lemma propagate_empty_call_witness :
  taggingCalls (trace (propagateManagedNodeGroupTagsToASGTask mockWorld
                         emptyNodeGroup)) = [[]]
  /\ taggingCalls (trace (propagateManagedNodeGroupTagsToASGTask noResources
                            emptyNodeGroup)) = [].
Proof.
  split.
  - apply (proj1 (propagate_empty_call mockWorld emptyNodeGroup
                    {| eks.Resources := Some ["asg-test-name"] |}
                    eq_refl eq_refl) ["asg-test-name"] eq_refl).
    now right.
  - apply (proj2 (propagate_empty_call noResources emptyNodeGroup
                    {| eks.Resources := None |} eq_refl eq_refl) eq_refl).
Defined.

(** ** GetEksctlVersionFromTags *)

Section VersionFacts.
Variable EksctlVersionTag : string.
Variable ParseEksctlVersion : string -> Version * option error.

Lemma GetEksctlVersionFromTags_skip (pre rest : list Tag) :
  (forall u, In u pre -> Key u <> EksctlVersionTag) ->
  GetEksctlVersionFromTags EksctlVersionTag ParseEksctlVersion (pre ++ rest)
  = GetEksctlVersionFromTags EksctlVersionTag ParseEksctlVersion rest.
Proof.
  induction pre as [|u pre IH]; intros H; simpl; [reflexivity|].
  assert (Hu : Key u <> EksctlVersionTag) by (apply H; now left).
  apply String.eqb_neq in Hu. rewrite Hu.
  apply IH. intros v Hv. apply H. now right.
Qed.

End VersionFacts.

(** X5: [GetEksctlVersionFromTags] looks at the first version tag only.
    Without a version tag it returns the zero version, not found, and no
    error.  With one, the tags that follow it do not count: if its value
    parses, the parsed version is returned as found; if not, the parse
    error is returned, wrapped with that value, and nothing is found, also
    when a later version tag would parse. *)
Theorem GetEksctlVersionFromTags_first_tag (EksctlVersionTag : string)
  (ParseEksctlVersion : string -> Version * option error)
  (pre post : list Tag) (t : Tag) :
  (forall u, In u pre -> Key u <> EksctlVersionTag) ->
  GetEksctlVersionFromTags EksctlVersionTag ParseEksctlVersion pre
    = (zeroVersion, false, None)
  /\ (Key t = EksctlVersionTag ->
      (forall v,
         ParseEksctlVersion (Value t) = (v, None) ->
         GetEksctlVersionFromTags EksctlVersionTag ParseEksctlVersion
           (pre ++ t :: post) = (v, true, None))
      /\ (forall v e,
            ParseEksctlVersion (Value t) = (v, Some e) ->
            GetEksctlVersionFromTags EksctlVersionTag ParseEksctlVersion
              (pre ++ t :: post)
            = (v, false,
               Some (errors_Wrapf e
                       "unexpected error parsing eksctl version %q"
                       [Value t])))).
Proof.
  intros Hpre. split.
  - rewrite <- (app_nil_r pre).
    now rewrite (GetEksctlVersionFromTags_skip _ _ pre [] Hpre).
  - intros Hk. apply String.eqb_eq in Hk.
    split; intros; rewrite (GetEksctlVersionFromTags_skip _ _ pre _ Hpre);
      simpl; rewrite Hk, H; reflexivity.
Qed.

Lemma GetEksctlVersionFromTags_first_tag_witness :
  GetEksctlVersionFromTags versionTagKey (parseOnly "0.70.0" version_0_70_0)
    [nameTag "ng-1"] = (zeroVersion, false, None)
  /\ GetEksctlVersionFromTags versionTagKey
       (parseOnly "0.70.0" version_0_70_0)
       ([nameTag "ng-1"] ++ mkTag versionTagKey "0.70.0" :: [])
     = (version_0_70_0, true, None)
  /\ GetEksctlVersionFromTags versionTagKey
       (parseOnly "0.70.0" version_0_70_0)
       ([nameTag "ng-1"] ++ mkTag versionTagKey "dev"
          :: [mkTag versionTagKey "0.70.0"])
     = (zeroVersion, false,
        Some (errors_Wrapf
                (errors_New "No Major.Minor.Patch elements found")
                "unexpected error parsing eksctl version %q" ["dev"])).
Proof.
  assert (Hpre : forall u, In u [nameTag "ng-1"] -> Key u <> versionTagKey).
  { intros u [<-|[]]. simpl. discriminate. }
  split; [|split].
  - apply (proj1 (GetEksctlVersionFromTags_first_tag versionTagKey
                    (parseOnly "0.70.0" version_0_70_0) [nameTag "ng-1"] []
                    (mkTag versionTagKey "0.70.0") Hpre)).
  - apply (proj1 (proj2 (GetEksctlVersionFromTags_first_tag versionTagKey
                           (parseOnly "0.70.0" version_0_70_0)
                           [nameTag "ng-1"] []
                           (mkTag versionTagKey "0.70.0") Hpre) eq_refl)).
    reflexivity.
  - apply (proj2 (proj2 (GetEksctlVersionFromTags_first_tag versionTagKey
                           (parseOnly "0.70.0" version_0_70_0)
                           [nameTag "ng-1"] [mkTag versionTagKey "0.70.0"]
                           (mkTag versionTagKey "dev") Hpre) eq_refl)).
    reflexivity.
Defined.

(** ** The listings *)

Lemma filter_idempotent {A : Type} (f : A -> bool) (l : list A) :
  filter f (filter f l) = filter f l.
Proof.
  induction l as [|a l IH]; simpl; [reflexivity|].
  destruct (f a) eqn:E; simpl; [rewrite E, IH|]; auto.
Qed.

(** X6: the classification is stable: when the list that
    [DescribeNodeGroupStacks] returned is given to it again as the answer
    of the describe-all query, it returns that list unchanged. *)
Theorem DescribeNodeGroupStacks_stable (api : ApiConstants) (c c' : World)
  (stacks : list Stack) :
  DescribeStacks c = (stacks, None) ->
  DescribeStacks c'
    = (fst (value (DescribeNodeGroupStacks api c)), None) ->
  value (DescribeNodeGroupStacks api c')
  = value (DescribeNodeGroupStacks api c).
Proof.
  intros H H'.
  rewrite (DescribeNodeGroupStacks_value api c stacks H) in H' |- *.
  rewrite (DescribeNodeGroupStacks_value api c' _ H'). simpl.
  now rewrite filter_idempotent.
Qed.

Lemma DescribeNodeGroupStacks_stable_witness :
  value (DescribeNodeGroupStacks v1alpha5 legacyListing)
  = value (DescribeNodeGroupStacks v1alpha5 listingWorld).
Proof.
  apply (DescribeNodeGroupStacks_stable v1alpha5 listingWorld legacyListing
           listedStacks); reflexivity.
Defined.

Lemma warnings_app (t1 t2 : list Event) :
  warnings (t1 ++ t2) = warnings t1 ++ warnings t2.
Proof.
  induction t1 as [|e t1 IH]; simpl; [reflexivity|].
  destruct e as [[| |] ? ?| | | | | | | | | | |]; simpl; now rewrite ?IH.
Qed.

Lemma describeNodeGroupStacksLoop_warnings (api : ApiConstants)
  (stacks : list Stack) :
  forall acc,
    warnings (trace (describeNodeGroupStacksLoop api stacks acc))
    = map (fun s => [ArgString (StackName s); ArgString (StackStatus s)])
        (filter deleteFailed stacks).
Proof.
  induction stacks as [|s stacks IH]; intros acc; simpl; [reflexivity|].
  unfold deleteFailed at 1.
  destruct (StackStatus s =? cfn_StackStatusDeleteComplete) eqn:E1.
  - apply String.eqb_eq in E1. rewrite E1. simpl. apply IH.
  - destruct (StackStatus s =? cfn_StackStatusDeleteFailed) eqn:E2.
    + rewrite trace_bind, warnings_app. simpl. now rewrite IH.
    + destruct (negb (GetNodeGroupName api s =? "")); apply IH.
Qed.

Lemma DescribeNodeGroupStacks_query_fails (api : ApiConstants) (c : World)
  (stacks : list Stack) (e : error) :
  DescribeStacks c = (stacks, Some e) ->
  DescribeNodeGroupStacks api c = (([], Some e), [call_DescribeStacks]).
Proof.
  intros H. unfold DescribeNodeGroupStacks, ask. now rewrite H.
Qed.

(** X7: [DescribeNodeGroupStacks] makes one call, the describe-all query,
    whatever it answers.  A failure of the query is returned as it is with
    an empty list and without a warning; on success one warning is logged
    for each stack whose status is delete-failed, in their order, with the
    name and the status of the stack. *)
Theorem DescribeNodeGroupStacks_trace (api : ApiConstants) (c : World) :
  networkCalls (trace (DescribeNodeGroupStacks api c)) = [call_DescribeStacks]
  /\ (forall stacks e,
        DescribeStacks c = (stacks, Some e) ->
        DescribeNodeGroupStacks api c
        = (([], Some e), [call_DescribeStacks]))
  /\ (forall stacks,
        DescribeStacks c = (stacks, None) ->
        warnings (trace (DescribeNodeGroupStacks api c))
        = map (fun s => [ArgString (StackName s); ArgString (StackStatus s)])
            (filter deleteFailed stacks)).
Proof.
  unfold DescribeNodeGroupStacks, ask.
  destruct (DescribeStacks c) as [stacks [e|]] eqn:H.
  - split; [reflexivity|]. split; [|discriminate].
    intros stacks' e' Heq. injection Heq as <- <-. reflexivity.
  - assert (Hlen : stacks = [] \/ Nat.eqb (List.length stacks) 0 = false).
    { destruct stacks; [now left | now right]. }
    destruct Hlen as [-> | Hlen].
    { split; [reflexivity|]. split; [discriminate|].
      intros stacks' Heq. injection Heq as <-. reflexivity. }
    rewrite trace_bind. cbn [value trace fst snd]. rewrite Hlen.
    rewrite !trace_bind. cbn [emit ret trace value fst snd].
    split; [|split; [discriminate|]].
    + unfold networkCalls. cbn [app filter isNetworkCall].
      rewrite filter_app. f_equal.
      change (filter isNetworkCall ?t) with (networkCalls t).
      now rewrite describeNodeGroupStacksLoop_quiet.
    + intros stacks' Heq. injection Heq as <-.
      cbn [app warnings]. rewrite warnings_app. cbn [warnings].
      rewrite app_nil_r. apply describeNodeGroupStacksLoop_warnings.
Qed.

Lemma DescribeNodeGroupStacks_trace_witness :
  DescribeNodeGroupStacks v1alpha5 listingFails
    = (([], Some serviceError), [call_DescribeStacks])
  /\ warnings (trace (DescribeNodeGroupStacks v1alpha5 listingWorld))
     = [[ArgString "eksctl-web-nodegroup-stuck"; ArgString "DELETE_FAILED"]].
Proof.
  split.
  - apply (proj1 (proj2 (DescribeNodeGroupStacks_trace v1alpha5 listingFails))
             [] serviceError).
    reflexivity.
  - apply (proj2 (proj2 (DescribeNodeGroupStacks_trace v1alpha5 listingWorld))
             listedStacks).
    reflexivity.
Defined.

(** ** ListNodeGroupStacks *)

Section ListFacts.
Variable api : ApiConstants.

Lemma listNodeGroupStacksLoop_named (stacks : list Stack) :
  (forall s, In s stacks -> GetNodegroupTagName api (Tags s) <> "") ->
  forall acc,
    listNodeGroupStacksLoop api stacks acc
    = (acc ++ map (nodeGroupStackOf api) stacks, None).
Proof.
  induction stacks as [|s stacks IH]; intros H acc; simpl.
  - now rewrite app_nil_r.
  - assert (Hs : GetNodegroupTagName api (Tags s) <> "")
      by (apply H; now left).
    unfold nodeGroupStackOf at 1.
    rewrite (GetNodeGroupType_named api (Tags s) Hs). simpl.
    rewrite IH; [|intros u Hu; apply H; now right].
    now rewrite <- app_assoc.
Qed.

Lemma listNodeGroupStacksLoop_unnamed (stacks : list Stack) (s : Stack) :
  In s stacks -> GetNodegroupTagName api (Tags s) = "" ->
  forall acc,
    listNodeGroupStacksLoop api stacks acc
    = ([], Some (errors_New "failed to find the nodegroup name tag")).
Proof.
  induction stacks as [|u stacks IH]; intros Hin Hs acc; [contradiction|].
  simpl. destruct (GetNodegroupTagName api (Tags u) =? "") eqn:E.
  - apply String.eqb_eq in E.
    now rewrite (GetNodeGroupType_unnamed api (Tags u) E).
  - apply String.eqb_neq in E.
    rewrite (GetNodeGroupType_named api (Tags u) E).
    destruct Hin as [-> | Hin]; [contradiction|].
    now apply IH.
Qed.

Lemma ListNodeGroupStacks_value (c : World) (stacks : list Stack) :
  DescribeStacks c = (stacks, None) ->
  value (ListNodeGroupStacks api c)
  = listNodeGroupStacksLoop api (filter (keptStack api) stacks) [].
Proof.
  intros H. unfold ListNodeGroupStacks. rewrite value_bind.
  now rewrite (DescribeNodeGroupStacks_value api c stacks H).
Qed.

Lemma GetNodeGroupName_of_tag (s : Stack) :
  GetNodegroupTagName api (Tags s) <> "" ->
  GetNodeGroupName api s = GetNodegroupTagName api (Tags s).
Proof.
  intros H. unfold GetNodeGroupName.
  apply String.eqb_neq in H. now rewrite H.
Qed.

End ListFacts.

(** X8: when every stack that [DescribeNodeGroupStacks] keeps has a
    non-empty name in its tags, [ListNodeGroupStacks] returns no error and
    one record for each kept stack, in their order, with the stack, the
    type that [GetNodeGroupType] gives for its tags, and the name from its
    tags. *)
Theorem ListNodeGroupStacks_named (api : ApiConstants) (c : World)
  (stacks : list Stack) :
  DescribeStacks c = (stacks, None) ->
  (forall s, In s stacks -> keptStack api s = true ->
     GetNodegroupTagName api (Tags s) <> "") ->
  value (ListNodeGroupStacks api c)
    = (map (nodeGroupStackOf api) (filter (keptStack api) stacks), None)
  /\ map ngs_Stack (fst (value (ListNodeGroupStacks api c)))
     = map Some (fst (value (DescribeNodeGroupStacks api c)))
  /\ map ngs_NodeGroupName (fst (value (ListNodeGroupStacks api c)))
     = map (fun s => GetNodegroupTagName api (Tags s))
         (filter (keptStack api) stacks).
Proof.
  intros H Hnamed.
  assert (Hkept : forall s, In s (filter (keptStack api) stacks) ->
                    GetNodegroupTagName api (Tags s) <> "").
  { intros s Hs. apply filter_In in Hs. now apply Hnamed. }
  rewrite (ListNodeGroupStacks_value api c stacks H).
  rewrite (listNodeGroupStacksLoop_named api _ Hkept).
  rewrite (DescribeNodeGroupStacks_value api c stacks H). simpl.
  split; [reflexivity|]. split.
  - rewrite !map_map. reflexivity.
  - rewrite map_map. apply map_ext_in. intros s Hs. simpl.
    apply GetNodeGroupName_of_tag. now apply Hkept.
Qed.

Lemma ListNodeGroupStacks_named_witness :
  value (ListNodeGroupStacks v1alpha5 taggedListing)
  = ([ {| ngs_NodeGroupName := "ng-1";
          ngs_Type := "managed";
          ngs_Stack := Some managedStack |};
       {| ngs_NodeGroupName := "ng-1";
          ngs_Type := "unmanaged";
          ngs_Stack := Some unmanagedStack |} ], None).
Proof.
  refine (proj1 (ListNodeGroupStacks_named v1alpha5 taggedListing
                   [managedStack; unmanagedStack] eq_refl _)).
  intros s [<-|[<-|[]]] _; simpl; discriminate.
Defined.

(** X9: a stack that is not deleted, that no tag names and whose name ends
    in [-nodegroup-0] or [-DefaultNodeGroup] is kept by
    [DescribeNodeGroupStacks], and makes [ListNodeGroupStacks] fail as a
    whole: it returns no record and the error of the missing name tag. *)
Theorem ListNodeGroupStacks_legacy_fails (api : ApiConstants) (c : World)
  (stacks : list Stack) (s : Stack) (prefix : string) :
  DescribeStacks c = (stacks, None) ->
  In s stacks ->
  StackStatus s <> cfn_StackStatusDeleteComplete ->
  StackStatus s <> cfn_StackStatusDeleteFailed ->
  GetNodegroupTagName api (Tags s) = "" ->
  StackName s = (prefix ++ "-nodegroup-0")%string
  \/ StackName s = (prefix ++ "-DefaultNodeGroup")%string ->
  In s (fst (value (DescribeNodeGroupStacks api c)))
  /\ value (ListNodeGroupStacks api c)
     = ([], Some (errors_New "failed to find the nodegroup name tag")).
Proof.
  intros H Hin Hdc Hdf Htag Hname.
  assert (Hkept : In s (filter (keptStack api) stacks)).
  { apply filter_In. split; trivial. apply keptStack_true.
    repeat split; trivial.
    rewrite (GetNodeGroupName_untagged api s Htag).
    destruct Hname as [-> | ->].
    - rewrite strings_HasSuffix_append. discriminate.
    - rewrite suffixes_exclusive, strings_HasSuffix_append. discriminate. }
  split.
  - now rewrite (DescribeNodeGroupStacks_value api c stacks H).
  - rewrite (ListNodeGroupStacks_value api c stacks H).
    now apply (listNodeGroupStacksLoop_unnamed api _ s).
Qed.

Lemma ListNodeGroupStacks_legacy_fails_witness :
  In legacyStack (fst (value (DescribeNodeGroupStacks v1alpha5 legacyListing)))
  /\ value (ListNodeGroupStacks v1alpha5 legacyListing)
     = ([], Some (errors_New "failed to find the nodegroup name tag")).
Proof.
  apply (ListNodeGroupStacks_legacy_fails v1alpha5 legacyListing
           [managedStack; legacyStack] legacyStack "eksctl-web").
  - reflexivity.
  - right. now left.
  - simpl. discriminate.
  - simpl. discriminate.
  - reflexivity.
  - left. reflexivity.
Defined.

(** ** GetNodeGroupStackType *)

(** X10: [GetNodeGroupStackType] asks the service only when the options
    carry no stack: with a stack in the options it returns what
    [GetNodeGroupType] gives for the tags of that stack and makes no call,
    so that for a record that [ListNodeGroupStacks] built from a stack with
    a non-empty name in its tags it returns the type of the record without
    an error; without a stack it describes the stack named after the node
    group, once, and returns a failure of that call with the empty type. *)
Theorem GetNodeGroupStackType_of_record (api : ApiConstants) (c : World)
  (p : Provider) (name : string) :
  (forall ngs st,
     ngs_Stack ngs = Some st ->
     GetNodeGroupStackType api c p
       {| option_Stack := Some ngs; option_NodeGroupName := name |}
     = (GetNodeGroupType api (Tags st), []))
  /\ (forall s,
        GetNodegroupTagName api (Tags s) <> "" ->
        GetNodeGroupStackType api c p
          {| option_Stack := Some (nodeGroupStackOf api s);
             option_NodeGroupName := name |}
        = ((ngs_Type (nodeGroupStackOf api s), None), []))
  /\ (forall o,
        option_NodeGroupName o = name ->
        (option_Stack o = None
         \/ exists ngs, option_Stack o = Some ngs /\ ngs_Stack ngs = None) ->
        trace (GetNodeGroupStackType api c p o)
          = [call_DescribeStack (makeNodeGroupStackName c name)]
        /\ (forall st e,
              DescribeStack p (makeNodeGroupStackName c name) = (st, Some e) ->
              value (GetNodeGroupStackType api c p o) = ("", Some e))
        /\ (forall st,
              DescribeStack p (makeNodeGroupStackName c name) = (st, None) ->
              value (GetNodeGroupStackType api c p o)
              = GetNodeGroupType api (Tags st))).
Proof.
  split; [|split].
  - intros ngs st Hst. unfold GetNodeGroupStackType. simpl.
    rewrite Hst. reflexivity.
  - intros s Hs. unfold GetNodeGroupStackType. simpl.
    rewrite (GetNodeGroupType_named api (Tags s) Hs). reflexivity.
  - intros o <- Hnone.
    assert (Hstack :
      match option_Stack o with
      | Some ngs => ngs_Stack ngs
      | None => None
      end = None).
    { destruct Hnone as [-> | (ngs & -> & Hn)]; [reflexivity | exact Hn]. }
    unfold GetNodeGroupStackType, DescribeNodeGroupStack, ask.
    rewrite Hstack.
    destruct (DescribeStack p (makeNodeGroupStackName c
                                 (option_NodeGroupName o))) as [st [e|]];
      (split; [reflexivity|]); split; intros; try discriminate;
      match goal with H : (_, _) = (_, _) |- _ => injection H as <- end;
      subst; reflexivity.
Qed.

Lemma GetNodeGroupStackType_of_record_witness :
  GetNodeGroupStackType v1alpha5 mockWorld failingProvider
    {| option_Stack :=
         Some {| ngs_NodeGroupName := "legacy-nodegroup-0";
                 ngs_Type := "";
                 ngs_Stack := Some legacyStack |};
       option_NodeGroupName := "ng-1" |}
  = (("", Some (errors_New "failed to find the nodegroup name tag")), [])
  /\ GetNodeGroupStackType v1alpha5 mockWorld failingProvider
       {| option_Stack := Some (nodeGroupStackOf v1alpha5 managedStack);
          option_NodeGroupName := "ng-1" |}
     = (("managed", None), [])
  /\ GetNodeGroupStackType v1alpha5 mockWorld mockProvider
       {| option_Stack := None; option_NodeGroupName := "ng-2" |}
     = (("unmanaged", None), [call_DescribeStack "eksctl--nodegroup-ng-2"]).
Proof.
  split; [|split].
  - apply (proj1 (GetNodeGroupStackType_of_record v1alpha5 mockWorld
                    failingProvider "ng-1")
             {| ngs_NodeGroupName := "legacy-nodegroup-0";
                ngs_Type := "";
                ngs_Stack := Some legacyStack |} legacyStack eq_refl).
  - apply (proj1 (proj2 (GetNodeGroupStackType_of_record v1alpha5 mockWorld
                           failingProvider "ng-1")) managedStack).
    simpl. discriminate.
  - destruct (proj2 (proj2 (GetNodeGroupStackType_of_record v1alpha5
                              mockWorld mockProvider "ng-2"))
                {| option_Stack := None; option_NodeGroupName := "ng-2" |}
                eq_refl (or_introl eq_refl)) as (Ht & _ & Hv).
    specialize (Hv _ eq_refl).
    destruct (GetNodeGroupStackType v1alpha5 mockWorld mockProvider
                {| option_Stack := None; option_NodeGroupName := "ng-2" |})
      as [v t].
    simpl in Ht, Hv. now subst.
Defined.

(** ** createNodeGroupTask *)

Lemma mapGet_filter_other {V : Type} (k k' : string) (m : list (string * V)) :
  k' <> k ->
  mapGet k' (filter (fun kv => negb (fst kv =? k)) m) = mapGet k' m.
Proof.
  intros Hk. induction m as [|[k0 v0] m IH]; simpl; [reflexivity|].
  destruct (k0 =? k) eqn:E; simpl.
  - apply String.eqb_eq in E. subst k0.
    assert (Hn : (k =? k') = false) by (apply String.eqb_neq; congruence).
    now rewrite Hn.
  - now rewrite IH.
Qed.

(** Reading the key that was written. *)
Lemma mapGet_mapSet_same {V : Type} (k : string) (v : V)
  (m : list (string * V)) :
  mapGet k (mapSet k v m) = Some v.
Proof.
  unfold mapSet. simpl. now rewrite String.eqb_refl.
Qed.

(** Reading another key. *)
Lemma mapGet_mapSet_other {V : Type} (k k' : string) (v : V)
  (m : list (string * V)) :
  k' <> k -> mapGet k' (mapSet k v m) = mapGet k' m.
Proof.
  intros Hk. unfold mapSet. simpl.
  assert (Hn : (k =? k') = false) by (apply String.eqb_neq; congruence).
  rewrite Hn. now apply mapGet_filter_other.
Qed.

(** The entries of the identity tags. *)
Lemma identityTags_entries (api : ApiConstants) (ng : NodeGroup) :
  NodeGroupTypeTag api <> NodeGroupNameTag api ->
  NodeGroupTypeTag api <> OldNodeGroupNameTag api ->
  mapGet (NodeGroupNameTag api) (identityTags api ng)
    = Some (nodeGroup_Name ng)
  /\ mapGet (OldNodeGroupNameTag api) (identityTags api ng)
     = Some (nodeGroup_Name ng)
  /\ mapGet (NodeGroupTypeTag api) (identityTags api ng)
     = Some (NodeGroupTypeUnmanaged api)
  /\ forall k,
       k <> NodeGroupNameTag api ->
       k <> OldNodeGroupNameTag api ->
       k <> NodeGroupTypeTag api ->
       mapGet k (identityTags api ng)
       = match nodeGroup_Tags ng with
         | Some tags => mapGet k tags
         | None => None
         end.
Proof.
  intros Htn Hto. unfold identityTags. repeat split.
  - rewrite mapGet_mapSet_other by congruence.
    destruct (String.eqb_spec (NodeGroupNameTag api)
                (OldNodeGroupNameTag api)) as [-> | Hne].
    + apply mapGet_mapSet_same.
    + rewrite mapGet_mapSet_other by congruence. apply mapGet_mapSet_same.
  - rewrite mapGet_mapSet_other by congruence. apply mapGet_mapSet_same.
  - apply mapGet_mapSet_same.
  - intros k H1 H2 H3. rewrite !mapGet_mapSet_other by assumption.
    now destruct (nodeGroup_Tags ng).
Qed.

(** X11: in the tags that [createNodeGroupTask] hands to [CreateStack],
    where the type key differs from the two name keys, the current and the
    legacy name key hold the name of the node group and the type key holds
    the Unmanaged value, whatever the node group's own tags had under
    these keys, and every other key holds what the node group's own tags
    hold (nothing when they are nil). *)
Theorem identityTags_lookup (api : ApiConstants) (ng : NodeGroup) :
  NodeGroupTypeTag api <> NodeGroupNameTag api ->
  NodeGroupTypeTag api <> OldNodeGroupNameTag api ->
  mapGet (NodeGroupNameTag api) (identityTags api ng)
    = Some (nodeGroup_Name ng)
  /\ mapGet (OldNodeGroupNameTag api) (identityTags api ng)
     = Some (nodeGroup_Name ng)
  /\ mapGet (NodeGroupTypeTag api) (identityTags api ng)
     = Some (NodeGroupTypeUnmanaged api)
  /\ forall k,
       k <> NodeGroupNameTag api ->
       k <> OldNodeGroupNameTag api ->
       k <> NodeGroupTypeTag api ->
       mapGet k (identityTags api ng)
       = match nodeGroup_Tags ng with
         | Some tags => mapGet k tags
         | None => None
         end.
Proof.
  intros Htn Hto. now apply identityTags_entries.
Qed.

Lemma identityTags_lookup_witness :
  mapGet (NodeGroupNameTag v1alpha5) (identityTags v1alpha5 webNodeGroup)
    = Some "ng-2"
  /\ mapGet (OldNodeGroupNameTag v1alpha5) (identityTags v1alpha5 webNodeGroup)
     = Some "ng-2"
  /\ mapGet (NodeGroupTypeTag v1alpha5) (identityTags v1alpha5 webNodeGroup)
     = Some "unmanaged"
  /\ mapGet "team" (identityTags v1alpha5 webNodeGroup) = Some "web".
Proof.
  destruct (identityTags_lookup v1alpha5 webNodeGroup)
    as (H1 & H2 & H3 & H4); try (simpl; discriminate).
  split; [exact H1|]. split; [exact H2|]. split; [exact H3|].
  rewrite H4; [reflexivity | | |]; simpl; discriminate.
Defined.

(** X12: [createNodeGroupTask] submits the stack at most once, and only
    when the bootstrapper and the resource set are built without error.
    An error of the bootstrapper is returned wrapped and ends the task
    before the resource set is built; an error of the resource set is
    returned as it is; otherwise the result is that of [CreateStack],
    called with the stack name of the node group and the identity tags. *)
Theorem createNodeGroupTask_submission (api : ApiConstants) (c : World)
  (p : Provider) (ng : NodeGroup) (forceAddCNIPolicy : bool) :
  (forall e,
     nodebootstrap_NewBootstrapper p ng = Some e ->
     value (createNodeGroupTask api c p ng forceAddCNIPolicy)
       = Some (errors_Wrapf e "error creating bootstrapper" [])
     /\ trace (createNodeGroupTask api c p ng forceAddCNIPolicy)
        = [event (logger Info "building nodegroup stack %q"
                    [ArgString (makeNodeGroupStackName c
                                  (nodeGroup_Name ng))]);
           call_NewBootstrapper ng])
  /\ (nodebootstrap_NewBootstrapper p ng = None ->
      (forall e,
         nodeGroupStack_AddAllResources p = Some e ->
         value (createNodeGroupTask api c p ng forceAddCNIPolicy) = Some e
         /\ createStackCalls
              (trace (createNodeGroupTask api c p ng forceAddCNIPolicy)) = [])
      /\ (nodeGroupStack_AddAllResources p = None ->
          value (createNodeGroupTask api c p ng forceAddCNIPolicy)
            = CreateStack c (makeNodeGroupStackName c (nodeGroup_Name ng))
                (identityTags api ng)
          /\ createStackCalls
               (trace (createNodeGroupTask api c p ng forceAddCNIPolicy))
             = [(makeNodeGroupStackName c (nodeGroup_Name ng),
                 identityTags api ng)])).
Proof.
  unfold createNodeGroupTask, bind, ask, emit, ret. split.
  - intros e He. rewrite He. split; reflexivity.
  - intros Hb. rewrite Hb. split.
    + intros e He. rewrite He. split; reflexivity.
    + intros Ha. rewrite Ha. split; reflexivity.
Qed.

Lemma createNodeGroupTask_submission_witness :
  value (createNodeGroupTask v1alpha5 mockWorld failingProvider webNodeGroup
           false)
    = Some (errors_Wrapf serviceError "error creating bootstrapper" [])
  /\ (value (createNodeGroupTask v1alpha5 mockWorld resourceSetFails
               webNodeGroup false) = Some serviceError
      /\ createStackCalls
           (trace (createNodeGroupTask v1alpha5 mockWorld resourceSetFails
                     webNodeGroup false)) = [])
  /\ createStackCalls
       (trace (createNodeGroupTask v1alpha5 mockWorld mockProvider
                 webNodeGroup false))
     = [("eksctl--nodegroup-ng-2", identityTags v1alpha5 webNodeGroup)].
Proof.
  split; [|split].
  - apply (proj1 (createNodeGroupTask_submission v1alpha5 mockWorld
                    failingProvider webNodeGroup false) serviceError eq_refl).
  - apply (proj1 (proj2 (createNodeGroupTask_submission v1alpha5 mockWorld
                           resourceSetFails webNodeGroup false) eq_refl)
             serviceError eq_refl).
  - apply (proj2 (proj2 (createNodeGroupTask_submission v1alpha5 mockWorld
                           mockProvider webNodeGroup false) eq_refl)
             eq_refl).
Defined.

(** X13: a stack whose tags are the identity tags of
    [createNodeGroupTask] is read back as that node group: where the three
    name keys and the type key are four different keys except that the two
    name keys may coincide, the name of the node group is not empty and its
    own tags have no legacy id key, [GetNodegroupTagName] and
    [GetNodeGroupName] return the name of the node group and
    [GetNodeGroupType] returns Unmanaged without error, whatever the order
    of the tags of the stack. *)
Theorem createNodeGroupTask_read_back (api : ApiConstants) (ng : NodeGroup)
  (s : Stack) :
  NodeGroupTypeTag api <> NodeGroupNameTag api ->
  NodeGroupTypeTag api <> OldNodeGroupNameTag api ->
  OldNodeGroupIDTag api <> NodeGroupNameTag api ->
  OldNodeGroupIDTag api <> OldNodeGroupNameTag api ->
  OldNodeGroupIDTag api <> NodeGroupTypeTag api ->
  nodeGroup_Name ng <> "" ->
  match nodeGroup_Tags ng with
  | Some tags => mapGet (OldNodeGroupIDTag api) tags
  | None => None
  end = None ->
  represents (Tags s) (identityTags api ng) ->
  GetNodegroupTagName api (Tags s) = nodeGroup_Name ng
  /\ GetNodeGroupName api s = nodeGroup_Name ng
  /\ GetNodeGroupType api (Tags s) = (NodeGroupTypeUnmanaged api, None).
Proof.
  intros Htn Hto Hin Hio Hit Hname Hid [Hsound Hcomplete].
  destruct (identityTags_entries api ng Htn Hto) as (Hn & Ho & Ht & Hother).
  assert (Hidm : mapGet (OldNodeGroupIDTag api) (identityTags api ng) = None).
  { rewrite Hother by assumption. exact Hid. }
  assert (Htag : GetNodegroupTagName api (Tags s) = nodeGroup_Name ng).
  { destruct (nameTag_cases api (Tags s)) as [Hno | [t Hfirst]].
    - exfalso. apply (Hno _ (Hcomplete _ _ Hn)). now left.
    - rewrite (GetNodegroupTagName_firstNameTag api _ t Hfirst).
      destruct (firstNameTag_In api _ t Hfirst) as [Hint Hkey].
      specialize (Hsound t Hint).
      destruct Hkey as [Hk | [Hk | Hk]]; rewrite Hk in Hsound; congruence. }
  assert (Hnamed : GetNodegroupTagName api (Tags s) <> "") by congruence.
  split; [exact Htag|]. split.
  - now rewrite (GetNodeGroupName_of_tag api s Hnamed).
  - rewrite (GetNodeGroupType_named api (Tags s) Hnamed).
    destruct (typeTag_cases api (Tags s)) as [Hno | [t Hlast]].
    + now rewrite (typeTagStep_noTypeTag api _ Hno).
    + rewrite (typeTagStep_lastTypeTag api _ t Hlast).
      destruct Hlast as (pre & post & Heq & Hk & _).
      assert (Hint : In t (Tags s)).
      { rewrite Heq. apply in_or_app. right. now left. }
      specialize (Hsound t Hint). rewrite Hk in Hsound.
      assert (Hv : Value t = NodeGroupTypeUnmanaged api) by congruence.
      rewrite Hv. now destruct (NodeGroupTypeUnmanaged api =? "").
Qed.

Lemma createNodeGroupTask_read_back_witness :
  GetNodegroupTagName v1alpha5
    (tagsOfMap (identityTags v1alpha5 webNodeGroup)) = "ng-2"
  /\ GetNodeGroupName v1alpha5
       (stackOf "eksctl--nodegroup-ng-2" "CREATE_COMPLETE"
          (tagsOfMap (identityTags v1alpha5 webNodeGroup))) = "ng-2"
  /\ GetNodeGroupType v1alpha5
       (tagsOfMap (identityTags v1alpha5 webNodeGroup)) = ("unmanaged", None).
Proof.
  apply (createNodeGroupTask_read_back v1alpha5 webNodeGroup
           (stackOf "eksctl--nodegroup-ng-2" "CREATE_COMPLETE"
              (tagsOfMap (identityTags v1alpha5 webNodeGroup))));
    try (simpl; discriminate); try reflexivity.
  split.
  - intros t Hin. vm_compute in Hin.
    destruct Hin as [<-|[<-|[<-|[<-|[]]]]]; reflexivity.
  - intros k v Hget.
    remember (identityTags v1alpha5 webNodeGroup) as m eqn:Hm.
    vm_compute in Hm. subst m. cbn [mapGet] in Hget.
    repeat match type of Hget with
           | (if ?b then _ else _) = _ =>
               destruct b eqn:E;
               [apply String.eqb_eq in E; subst k; injection Hget as <-;
                simpl; intuition | clear E]
           end.
    discriminate Hget.
Defined.

(** ** createManagedNodeGroupTask *)

(** X14: [createManagedNodeGroupTask] returns a failure of the lookup of
    the cluster stack as it is, after that one call.  When the lookup
    succeeds and the cluster stack is found or IPv6 is off, an error of the
    resource set is returned as it is and no stack is submitted; otherwise
    the stack is submitted once, under the stack name of the node group and
    with the tags of the node group unchanged, and the result is that of
    [CreateStack]. *)
Theorem createManagedNodeGroupTask_submission (c : World)
  (ng : ManagedNodeGroup) (forceAddCNIPolicy : bool) :
  (forall cluster e,
     DescribeClusterStack c = (cluster, Some e) ->
     createManagedNodeGroupTask c ng forceAddCNIPolicy
     = (Some e, [call_DescribeClusterStack]))
  /\ (forall cluster,
        DescribeClusterStack c = (cluster, None) ->
        cluster <> None \/ spec_IPv6Enabled c = false ->
        (forall e,
           stack_AddAllResources c = Some e ->
           value (createManagedNodeGroupTask c ng forceAddCNIPolicy) = Some e
           /\ stackSubmissions
                (trace (createManagedNodeGroupTask c ng forceAddCNIPolicy))
              = [])
        /\ (stack_AddAllResources c = None ->
            value (createManagedNodeGroupTask c ng forceAddCNIPolicy)
              = CreateStack c (makeNodeGroupStackName c (ng_Name ng))
                  (ng_Tags ng)
            /\ stackSubmissions
                 (trace (createManagedNodeGroupTask c ng forceAddCNIPolicy))
               = [(makeNodeGroupStackName c (ng_Name ng), ng_Tags ng)])).
Proof.
  unfold createManagedNodeGroupTask, bind, ask, emit, ret. split.
  - intros cluster e H. rewrite H. reflexivity.
  - intros cluster H Howned. rewrite H.
    assert (Hgo : match cluster with
                  | Some _ => false
                  | None => spec_IPv6Enabled c
                  end = false).
    { destruct cluster; [reflexivity|].
      destruct Howned as [Hc | Hv]; [congruence | exact Hv]. }
    rewrite Hgo. split.
    + intros e He. rewrite He. split; reflexivity.
    + intros Ha. rewrite Ha. split; reflexivity.
Qed.

Lemma createManagedNodeGroupTask_submission_witness :
  createManagedNodeGroupTask clusterLookupFails (testNodeGroup 1) false
    = (Some serviceError, [call_DescribeClusterStack])
  /\ (value (createManagedNodeGroupTask managedResourceSetFails
               (testNodeGroup 1) false) = Some serviceError
      /\ stackSubmissions
           (trace (createManagedNodeGroupTask managedResourceSetFails
                     (testNodeGroup 1) false)) = [])
  /\ stackSubmissions
       (trace (createManagedNodeGroupTask ownedIPv6 (testNodeGroup 1) false))
     = [("eksctl--nodegroup-ng-test-name", testTags 1)].
Proof.
  split; [|split].
  - apply (proj1 (createManagedNodeGroupTask_submission clusterLookupFails
                    (testNodeGroup 1) false) None serviceError eq_refl).
  - refine (proj1 (proj2 (createManagedNodeGroupTask_submission
                            managedResourceSetFails (testNodeGroup 1) false)
                     (Some clusterStack) eq_refl _) serviceError eq_refl).
    left. discriminate.
  - refine (proj2 (proj2 (proj2 (createManagedNodeGroupTask_submission
                                   ownedIPv6 (testNodeGroup 1) false)
                            (Some clusterStack) eq_refl _) eq_refl)).
    left. discriminate.
Defined.

(** ** DescribeNodeGroupStacksAndResources *)

Lemma resourceCalls_app (t1 t2 : list Action) :
  resourceCalls (t1 ++ t2) = resourceCalls t1 ++ resourceCalls t2.
Proof.
  induction t1 as [|a t1 IH]; simpl; [reflexivity|].
  destruct a; simpl; now rewrite ?IH.
Qed.

Lemma resourceCalls_events (t : list Event) :
  resourceCalls (map event t) = [].
Proof.
  induction t as [|e t IH]; simpl; [reflexivity | exact IH].
Qed.

Lemma resourceCalls_described (l : list Stack) :
  resourceCalls (map (fun s => call_DescribeStackResources (StackName s)) l)
  = map StackName l.
Proof.
  induction l as [|s l IH]; simpl; [reflexivity | now rewrite IH].
Qed.

Section ResourceFacts.
Variable api : ApiConstants.
Variable p : Provider.

Lemma describeResourcesLoop_described (stacks : list Stack) :
  (forall s, In s stacks ->
     snd (cloudformationAPI_DescribeStackResources p (StackName s)) = None) ->
  forall acc,
    describeResourcesLoop api p stacks acc
    = ((fold_left (storeStack api p) stacks acc, None),
       map (fun s => call_DescribeStackResources (StackName s)) stacks).
Proof.
  induction stacks as [|s stacks IH]; intros H acc; [reflexivity|].
  cbn [describeResourcesLoop fold_left map]. unfold bind, ask.
  assert (Hs := H s (or_introl eq_refl)).
  unfold storeStack at 2, stackInfoOf.
  destruct (cloudformationAPI_DescribeStackResources p (StackName s))
    as [r err].
  simpl in Hs. subst err. cbn [fst].
  rewrite IH; [reflexivity|]. intros u Hu. apply H. now right.
Qed.

Lemma describeResourcesLoop_interrupted (pre post : list Stack) (s : Stack)
  (e : error) :
  (forall u, In u pre ->
     snd (cloudformationAPI_DescribeStackResources p (StackName u)) = None) ->
  snd (cloudformationAPI_DescribeStackResources p (StackName s)) = Some e ->
  forall acc,
    describeResourcesLoop api p (pre ++ s :: post) acc
    = (([], Some (errors_Wrapf e "getting all resources for %q stack"
                    [StackName s])),
       map (fun s => call_DescribeStackResources (StackName s))
         (pre ++ [s])).
Proof.
  intros Hpre Hs. induction pre as [|u pre IH]; intros acc.
  - cbn [app describeResourcesLoop map]. unfold bind, ask, ret.
    destruct (cloudformationAPI_DescribeStackResources p (StackName s))
      as [r err].
    simpl in Hs. subst err. reflexivity.
  - cbn [app describeResourcesLoop map]. unfold bind, ask.
    assert (Hu := Hpre u (or_introl eq_refl)).
    destruct (cloudformationAPI_DescribeStackResources p (StackName u))
      as [r err].
    simpl in Hu. subst err.
    rewrite IH; [reflexivity|]. intros v Hv. apply Hpre. now right.
Qed.

Lemma store_keeps (k : string) (stacks : list Stack) :
  (forall u, In u stacks -> GetNodeGroupName api u <> k) ->
  forall m, mapGet k (fold_left (storeStack api p) stacks m) = mapGet k m.
Proof.
  induction stacks as [|u stacks IH]; intros H m; [reflexivity|].
  simpl. rewrite IH; [|intros v Hv; apply H; now right].
  unfold storeStack. apply mapGet_mapSet_other.
  intros Heq. apply (H u (or_introl eq_refl)). now symmetry.
Qed.

Lemma store_origin (k : string) (i : StackInfo) (stacks : list Stack) :
  forall m,
    mapGet k (fold_left (storeStack api p) stacks m) = Some i ->
    mapGet k m = Some i
    \/ exists s, In s stacks /\ GetNodeGroupName api s = k
                 /\ i = stackInfoOf p s.
Proof.
  induction stacks as [|u stacks IH]; intros m H; [now left|].
  simpl in H. destruct (IH _ H) as [Hm | (s & Hs & Hk & Hi)].
  - unfold storeStack in Hm.
    destruct (String.eqb_spec k (GetNodeGroupName api u)) as [-> | Hne].
    + rewrite mapGet_mapSet_same in Hm. injection Hm as <-.
      right. exists u. repeat split. now left.
    + rewrite mapGet_mapSet_other in Hm by assumption. now left.
  - right. exists s. repeat split; trivial. now right.
Qed.

End ResourceFacts.

Lemma DescribeNodeGroupStacksAndResources_unfold (api : ApiConstants)
  (c : World) (p : Provider) (stacks : list Stack) :
  DescribeStacks c = (stacks, None) ->
  value (DescribeNodeGroupStacksAndResources api c p)
    = value (describeResourcesLoop api p (filter (keptStack api) stacks) [])
  /\ resourceCalls (trace (DescribeNodeGroupStacksAndResources api c p))
     = resourceCalls
         (trace (describeResourcesLoop api p
                   (filter (keptStack api) stacks) [])).
Proof.
  intros H. unfold DescribeNodeGroupStacksAndResources.
  rewrite value_bind, trace_bind, resourceCalls_app.
  unfold lift. cbn [value trace fst snd].
  change (fst (DescribeNodeGroupStacks api c))
    with (value (DescribeNodeGroupStacks api c)).
  rewrite (DescribeNodeGroupStacks_value api c stacks H).
  rewrite resourceCalls_events. split; reflexivity.
Qed.

(** X15: when the resources of every stack that [DescribeNodeGroupStacks]
    keeps can be described, [DescribeNodeGroupStacksAndResources] returns
    no error, describes the resources of each kept stack once, in their
    order, and returns a map whose keys are node-group names of kept
    stacks, each with the stack and the resources of a stack of that name;
    the last kept stack of a name is the one that the map holds for it, so
    an earlier stack of the same name is not in the map. *)
Theorem DescribeNodeGroupStacksAndResources_map (api : ApiConstants)
  (c : World) (p : Provider) (stacks : list Stack) :
  DescribeStacks c = (stacks, None) ->
  (forall s, In s stacks -> keptStack api s = true ->
     snd (cloudformationAPI_DescribeStackResources p (StackName s)) = None) ->
  snd (value (DescribeNodeGroupStacksAndResources api c p)) = None
  /\ resourceCalls (trace (DescribeNodeGroupStacksAndResources api c p))
     = map StackName (filter (keptStack api) stacks)
  /\ (forall k i,
        mapGet k (fst (value (DescribeNodeGroupStacksAndResources api c p)))
          = Some i ->
        In (info_Stack i) stacks
        /\ keptStack api (info_Stack i) = true
        /\ GetNodeGroupName api (info_Stack i) = k
        /\ i = stackInfoOf p (info_Stack i))
  /\ (forall pre s post,
        filter (keptStack api) stacks = pre ++ s :: post ->
        (forall u, In u post ->
           GetNodeGroupName api u <> GetNodeGroupName api s) ->
        mapGet (GetNodeGroupName api s)
          (fst (value (DescribeNodeGroupStacksAndResources api c p)))
        = Some (stackInfoOf p s)).
Proof.
  intros H Hok.
  destruct (DescribeNodeGroupStacksAndResources_unfold api c p stacks H)
    as [Hv Ht].
  rewrite Hv, Ht.
  assert (Hkept : forall s, In s (filter (keptStack api) stacks) ->
            snd (cloudformationAPI_DescribeStackResources p (StackName s))
            = None).
  { intros s Hs. apply filter_In in Hs. now apply Hok. }
  rewrite (describeResourcesLoop_described api p _ Hkept).
  cbn [value trace fst snd].
  split; [reflexivity|]. split; [|split].
  - apply resourceCalls_described.
  - intros k i Hget.
    destruct (store_origin api p k i _ _ Hget)
      as [Hnil | (s & Hs & Hk & ->)]; [discriminate|].
    apply filter_In in Hs. simpl. tauto.
  - intros pre s post Heq Hpost. rewrite Heq, fold_left_app. simpl.
    rewrite (store_keeps api p _ post Hpost).
    apply mapGet_mapSet_same.
Qed.

Lemma DescribeNodeGroupStacksAndResources_map_witness :
  snd (value (DescribeNodeGroupStacksAndResources v1alpha5 twinListing
                mockProvider)) = None
  /\ resourceCalls (trace (DescribeNodeGroupStacksAndResources v1alpha5
                             twinListing mockProvider))
     = ["eksctl-web-nodegroup-ng-1"; "eksctl-web-nodegroup-ng-1-copy"]
  /\ mapGet "ng-1"
       (fst (value (DescribeNodeGroupStacksAndResources v1alpha5 twinListing
                      mockProvider)))
     = Some (stackInfoOf mockProvider twinStack).
Proof.
  destruct (DescribeNodeGroupStacksAndResources_map v1alpha5 twinListing
              mockProvider [managedStack; twinStack] eq_refl)
    as (Herr & Hcalls & _ & Hlast).
  { intros s _ _. reflexivity. }
  split; [exact Herr|]. split; [exact Hcalls|].
  apply (Hlast [managedStack] twinStack []); [reflexivity|].
  intros u [].
Defined.

(** X16: [DescribeNodeGroupStacksAndResources] stops at the first kept
    stack whose resources cannot be described: it returns no map and the
    error of the service wrapped with the name of that stack, and the
    stacks after it are not described; a failure of the describe-all query
    is returned as it is, and no resources are described. *)
Theorem DescribeNodeGroupStacksAndResources_failure (api : ApiConstants)
  (c : World) (p : Provider) :
  (forall stacks e,
     DescribeStacks c = (stacks, Some e) ->
     value (DescribeNodeGroupStacksAndResources api c p) = ([], Some e)
     /\ resourceCalls (trace (DescribeNodeGroupStacksAndResources api c p))
        = [])
  /\ (forall stacks pre s post e,
        DescribeStacks c = (stacks, None) ->
        filter (keptStack api) stacks = pre ++ s :: post ->
        (forall u, In u pre ->
           snd (cloudformationAPI_DescribeStackResources p (StackName u))
           = None) ->
        snd (cloudformationAPI_DescribeStackResources p (StackName s))
          = Some e ->
        value (DescribeNodeGroupStacksAndResources api c p)
          = ([], Some (errors_Wrapf e "getting all resources for %q stack"
                         [StackName s]))
        /\ resourceCalls
             (trace (DescribeNodeGroupStacksAndResources api c p))
           = map StackName pre ++ [StackName s]).
Proof.
  split.
  - intros stacks e H.
    unfold DescribeNodeGroupStacksAndResources.
    rewrite value_bind, trace_bind, resourceCalls_app.
    unfold lift. rewrite (DescribeNodeGroupStacks_query_fails api c stacks e H).
    split; reflexivity.
  - intros stacks pre s post e H Heq Hpre Hs.
    destruct (DescribeNodeGroupStacksAndResources_unfold api c p stacks H)
      as [Hv Ht].
    rewrite Hv, Ht, Heq.
    rewrite (describeResourcesLoop_interrupted api p pre post s e Hpre Hs).
    cbn [value trace fst snd]. split; [reflexivity|].
    rewrite resourceCalls_described, map_app. reflexivity.
Qed.

Lemma DescribeNodeGroupStacksAndResources_failure_witness :
  (value (DescribeNodeGroupStacksAndResources v1alpha5 listingFails
            mockProvider) = ([], Some serviceError)
   /\ resourceCalls (trace (DescribeNodeGroupStacksAndResources v1alpha5
                              listingFails mockProvider)) = [])
  /\ (value (DescribeNodeGroupStacksAndResources v1alpha5 twinListing
               (resourcesFailFor "eksctl-web-nodegroup-ng-1"))
        = ([], Some (errors_Wrapf serviceError
                       "getting all resources for %q stack"
                       ["eksctl-web-nodegroup-ng-1"]))
      /\ resourceCalls
           (trace (DescribeNodeGroupStacksAndResources v1alpha5 twinListing
                     (resourcesFailFor "eksctl-web-nodegroup-ng-1")))
         = ["eksctl-web-nodegroup-ng-1"]).
Proof.
  split.
  - apply (proj1 (DescribeNodeGroupStacksAndResources_failure v1alpha5
                    listingFails mockProvider) [] serviceError eq_refl).
  - apply (proj2 (DescribeNodeGroupStacksAndResources_failure v1alpha5
                    twinListing
                    (resourcesFailFor "eksctl-web-nodegroup-ng-1"))
             [managedStack; twinStack] [] managedStack [twinStack]
             serviceError eq_refl eq_refl).
    + intros u [].
    + reflexivity.
Defined.

(** ** The autoscaling groups of a stack *)

Lemma getManagedNodeGroupAutoScalingGroupName_no_error (api : ApiConstants)
  (c : World) (s : Stack) :
  snd (value (getManagedNodeGroupAutoScalingGroupName api c s)) = None.
Proof.
  unfold getManagedNodeGroupAutoScalingGroupName, bind, ask, emit, ret.
  destruct (eksAPI_DescribeNodegroup c _) as [res [e|]]; reflexivity.
Qed.

(** X17: [getManagedNodeGroupAutoScalingGroupName] never returns an error
    and makes one call, the describe-node-group call for the cluster name
    and the node-group name of the stack; when that call succeeds the
    result is the names of the autoscaling groups joined by commas, which
    is the empty string when the answer has no resources. *)
Theorem getManagedNodeGroupAutoScalingGroupName_total (api : ApiConstants)
  (c : World) (s : Stack) :
  snd (value (getManagedNodeGroupAutoScalingGroupName api c s)) = None
  /\ networkCalls (trace (getManagedNodeGroupAutoScalingGroupName api c s))
     = [call_DescribeNodegroup (managedInput api c s)]
  /\ (forall res,
        eksAPI_DescribeNodegroup c (managedInput api c s) = (res, None) ->
        fst (value (getManagedNodeGroupAutoScalingGroupName api c s))
        = match eks.Resources res with
          | Some names => strings_Join names ","
          | None => ""
          end).
Proof.
  unfold getManagedNodeGroupAutoScalingGroupName, bind, ask, emit, ret.
  fold (managedInput api c s).
  destruct (eksAPI_DescribeNodegroup c (managedInput api c s))
    as [res [e|]]; simpl.
  - repeat split. intros res' H. discriminate H.
  - repeat split. intros res' H. injection H as <-.
    now destruct (eks.Resources res).
Qed.

Lemma getManagedNodeGroupAutoScalingGroupName_total_witness :
  fst (value (getManagedNodeGroupAutoScalingGroupName v1alpha5 mockWorld
                managedStack)) = "asg-test-name".
Proof.
  apply (proj2 (proj2 (getManagedNodeGroupAutoScalingGroupName_total
                         v1alpha5 mockWorld managedStack))
           {| eks.Resources := Some ["asg-test-name"] |} eq_refl).
Defined.

(** X18: for a stack whose tags give a non-empty name,
    [GetAutoScalingGroupName] is
    [getManagedNodeGroupAutoScalingGroupName] when the type of the stack is
    the Managed value, so that it never fails for such a stack, and is
    [GetUnmanagedNodeGroupAutoScalingGroupName] when the type is the
    Unmanaged value and that differs from the Managed value: same result
    and same calls. *)
Theorem GetAutoScalingGroupName_dispatch (api : ApiConstants) (c : World)
  (s : Stack) :
  GetNodegroupTagName api (Tags s) <> "" ->
  (fst (GetNodeGroupType api (Tags s)) = NodeGroupTypeManaged api ->
   GetAutoScalingGroupName api c s
     = getManagedNodeGroupAutoScalingGroupName api c s
   /\ snd (value (GetAutoScalingGroupName api c s)) = None)
  /\ (fst (GetNodeGroupType api (Tags s)) = NodeGroupTypeUnmanaged api ->
      NodeGroupTypeUnmanaged api <> NodeGroupTypeManaged api ->
      GetAutoScalingGroupName api c s
      = GetUnmanagedNodeGroupAutoScalingGroupName c s).
Proof.
  intros Hnamed.
  assert (Hty := GetNodeGroupType_named api (Tags s) Hnamed).
  assert (Hmanaged :
    fst (GetNodeGroupType api (Tags s)) = NodeGroupTypeManaged api ->
    GetAutoScalingGroupName api c s
    = getManagedNodeGroupAutoScalingGroupName api c s).
  { intros Hm. unfold GetAutoScalingGroupName.
    rewrite Hty in Hm |- *. simpl in Hm. rewrite Hm, String.eqb_refl.
    unfold getManagedNodeGroupAutoScalingGroupName, bind, ask, emit, ret.
    destruct (eksAPI_DescribeNodegroup c _) as [res [e|]]; reflexivity. }
  split.
  - intros Hm. split; [now apply Hmanaged|].
    rewrite (Hmanaged Hm).
    apply getManagedNodeGroupAutoScalingGroupName_no_error.
  - intros Hu Hne. unfold GetAutoScalingGroupName.
    rewrite Hty in Hu |- *. simpl in Hu. rewrite Hu.
    apply String.eqb_neq in Hne. rewrite Hne, String.eqb_refl. simpl.
    unfold GetUnmanagedNodeGroupAutoScalingGroupName, bind, ask, ret.
    destruct (cloudformationAPI_DescribeStackResource c _ _)
      as [res [e|]]; reflexivity.
Qed.

Lemma GetAutoScalingGroupName_dispatch_witness :
  (GetAutoScalingGroupName v1alpha5 describeFails managedStack
     = getManagedNodeGroupAutoScalingGroupName v1alpha5 describeFails
         managedStack
   /\ snd (value (GetAutoScalingGroupName v1alpha5 describeFails
                    managedStack)) = None)
  /\ GetAutoScalingGroupName v1alpha5 describeResourceFails unmanagedStack
     = GetUnmanagedNodeGroupAutoScalingGroupName describeResourceFails
         unmanagedStack.
Proof.
  split.
  - refine (proj1 (GetAutoScalingGroupName_dispatch v1alpha5 describeFails
                     managedStack _) eq_refl).
    simpl. discriminate.
  - refine (proj2 (GetAutoScalingGroupName_dispatch v1alpha5
                     describeResourceFails unmanagedStack _) eq_refl _);
      simpl; discriminate.
Defined.

(** X19: [GetAutoScalingGroupDesiredCapacity] makes one call, for the one
    name it is given, and returns a group exactly when that call succeeds
    with exactly one group, which it returns; in every other case it
    returns the zero group and an error that carries the name and not the
    error of the service. *)
Theorem GetAutoScalingGroupDesiredCapacity_one_group (p : Provider)
  (name : string) :
  groupCalls (trace (GetAutoScalingGroupDesiredCapacity p name)) = [[name]]
  /\ (snd (value (GetAutoScalingGroupDesiredCapacity p name)) = None
      <-> exists g, asgAPI_DescribeAutoScalingGroups p [name] = ([g], None))
  /\ (forall g,
        asgAPI_DescribeAutoScalingGroups p [name] = ([g], None) ->
        value (GetAutoScalingGroupDesiredCapacity p name) = (g, None))
  /\ (snd (value (GetAutoScalingGroupDesiredCapacity p name)) <> None ->
      fst (value (GetAutoScalingGroupDesiredCapacity p name))
        = zeroAutoScalingGroup
      /\ exists format,
           snd (value (GetAutoScalingGroupDesiredCapacity p name))
           = Some (fmt_Errorf format [name])).
Proof.
  unfold GetAutoScalingGroupDesiredCapacity, bind, ask, emit, ret.
  destruct (asgAPI_DescribeAutoScalingGroups p [name]) as [asg [e|]].
  - simpl. split; [reflexivity|]. split; [|split].
    + split; [discriminate | intros [g Hg]; discriminate Hg].
    + intros g Hg. discriminate Hg.
    + intros _. split; [reflexivity | now eexists].
  - destruct asg as [|g [|g' asg]]; simpl;
      (split; [reflexivity|]); (split; [|split]).
    + split; [discriminate | intros [g Hg]; discriminate Hg].
    + intros g Hg. discriminate Hg.
    + intros _. split; [reflexivity | now eexists].
    + split; [intros _; now exists g | reflexivity].
    + intros g0 Hg. injection Hg as <-. reflexivity.
    + intros H. now contradiction H.
    + split; [discriminate | intros [g0 Hg]; discriminate Hg].
    + intros g0 Hg. discriminate Hg.
    + intros _. split; [reflexivity | now eexists].
Qed.

Lemma GetAutoScalingGroupDesiredCapacity_one_group_witness :
  value (GetAutoScalingGroupDesiredCapacity mockProvider "asg-test-name")
    = ({| AutoScalingGroupName := Some "asg-test-name";
          DesiredCapacity := Some 2 |}, None)
  /\ fst (value (GetAutoScalingGroupDesiredCapacity twoGroupsProvider
                   "asg-test-name")) = zeroAutoScalingGroup.
Proof.
  split.
  - apply (proj1 (proj2 (proj2 (GetAutoScalingGroupDesiredCapacity_one_group
                                  mockProvider "asg-test-name")))).
    reflexivity.
  - apply (proj2 (proj2 (proj2 (GetAutoScalingGroupDesiredCapacity_one_group
                                  twoGroupsProvider "asg-test-name")))).
    simpl. discriminate.
Defined.

(** * The propagation of tags to the autoscaling groups *)

(** ** TagBatcher *)

Section Chunks.
Variable A : Type.
Variable M : nat.




End Chunks.

(** ** The submission *)



(** The submission makes tagging calls only, one for each batch of a
    prefix of the batches, and sends nothing on the channel. *)
Lemma submitBatches_trace (c : World)
  (batches : list (list autoscaling.Tag)) :
  exists k,
    trace (submitBatches c batches)
    = map call_CreateOrUpdateTags (firstn k batches).
Proof.
  induction batches as [|b batches IH].
  - exists 0. reflexivity.
  - cbn [submitBatches]. unfold bind, ask.
    destruct (asgAPI_CreateOrUpdateTags c b) as [e|].
    + exists 1. reflexivity.
    + destruct IH as [k Hk]. exists (S k).
      destruct (submitBatches c batches) as [v t].
      simpl in Hk |- *. now rewrite Hk.
Qed.


Lemma delivered_batches (batches : list (list autoscaling.Tag)) :
  delivered (map call_CreateOrUpdateTags batches) = [].
Proof.
  induction batches as [|b batches IH]; simpl; [reflexivity | exact IH].
Qed.

(** Within the quota, the operation is the submission followed by the
    delivery of its outcome. *)
Lemma PropagateManagedNodeGroupTagsToASG_within (c : World) (ngName : string)
  (ngTags : list (string * string)) (asgNames : list string) :
  List.length ngTags <= builder_MaximumTagNumber ->
  PropagateManagedNodeGroupTagsToASG c ngName ngTags asgNames
  = (None,
     trace (submitBatches c (propagationBatches asgNames ngTags))
     ++ [chan_send
           (value (submitBatches c (propagationBatches asgNames ngTags)))]).
Proof.
  intros Hq. unfold PropagateManagedNodeGroupTagsToASG.
  assert (Hlt : Nat.ltb builder_MaximumTagNumber (List.length ngTags) = false)
    by (apply Nat.ltb_ge; exact Hq).
  rewrite Hlt. unfold bind, emit, ret, value, trace.
  destruct (submitBatches c (propagationBatches asgNames ngTags)) as [v t].
  simpl. now rewrite app_nil_r.
Qed.

(** The call returns nil and one value, its outcome, is delivered on the
    channel, whatever the tags, the groups and the answers of the tagging
    API. *)
Lemma PropagateManagedNodeGroupTagsToASG_one_result (c : World)
  (ngName : string) (ngTags : list (string * string))
  (asgNames : list string) :
  value (PropagateManagedNodeGroupTagsToASG c ngName ngTags asgNames) = None
  /\ exists outcome,
       delivered
         (trace (PropagateManagedNodeGroupTagsToASG c ngName ngTags asgNames))
       = [outcome].
Proof.
  destruct (Nat.le_gt_cases (List.length ngTags) builder_MaximumTagNumber)
    as [Hq | Hq].
  - rewrite (PropagateManagedNodeGroupTagsToASG_within c ngName ngTags
               asgNames Hq).
    split; [reflexivity|]. cbn [trace snd].
    destruct (submitBatches_trace c (propagationBatches asgNames ngTags))
      as [k Hk].
    rewrite delivered_app, Hk, delivered_batches. now eexists.
  - unfold PropagateManagedNodeGroupTagsToASG.
    apply Nat.ltb_lt in Hq. rewrite Hq.
    split; [reflexivity | now eexists].
Qed.

(** [api_test.go], "can create propagate tag": one tag on one autoscaling
    group is one call with the record that the mock expects, and nil on
    the channel. *)
Example PropagateManagedNodeGroupTagsToASG_one_tag :
  PropagateManagedNodeGroupTagsToASG mockWorld "ng-test-name"
    [("tag_key_1", "tag_value_1")] ["asg-test-name"]
  = (None,
     [call_CreateOrUpdateTags
        [{| autoscaling.ResourceId := "asg-test-name";
            autoscaling.ResourceType := "auto-scaling-group";
            autoscaling.Key := "tag_key_1";
            autoscaling.Value := "tag_value_1";
            autoscaling.PropagateAtLaunch := false |}];
      chan_send None]).
Proof. reflexivity. Qed.

(** A failure of the first of three batches: no other batch is submitted
    and the error is delivered. *)
Example PropagateManagedNodeGroupTagsToASG_batch_fails :
  value (PropagateManagedNodeGroupTagsToASG taggingFails "ng-test-name"
           (testTags 30) ["asg-a"; "asg-b"]) = None
  /\ map (@List.length autoscaling.Tag)
       (propagationBatches ["asg-a"; "asg-b"] (testTags 30)) = [25; 25; 10]
  /\ map (@List.length autoscaling.Tag)
       (taggingCalls
          (trace (PropagateManagedNodeGroupTagsToASG taggingFails
                    "ng-test-name" (testTags 30) ["asg-a"; "asg-b"])))
     = [25]
  /\ delivered
       (trace (PropagateManagedNodeGroupTagsToASG taggingFails
                 "ng-test-name" (testTags 30) ["asg-a"; "asg-b"]))
     = [Some serviceError].
Proof. repeat split; vm_compute; reflexivity. Qed.





(** * Failures of the services *)

(** C8, as stated, fails.  The describe-node-group call that resolves the
    autoscaling groups of a managed stack fails, and
    [getManagedNodeGroupAutoScalingGroupName], and with it
    [GetAutoScalingGroupName], returns the empty name and a nil error.
    Where a failure is returned, it is not always wrapped:
    [GetUnmanagedNodeGroupAutoScalingGroupName] and
    [DescribeNodeGroupStacks] return the error of the service as it is,
    and [GetAutoScalingGroupDesiredCapacity] returns an error of its own
    that does not hold the error of the service. *)
Lemma describe_failure_discarded :
  (snd (eksAPI_DescribeNodegroup describeFails
          (managedInput v1alpha5 describeFails managedStack))
     = Some serviceError
   /\ value (getManagedNodeGroupAutoScalingGroupName v1alpha5 describeFails
               managedStack) = ("", None)
   /\ value (GetAutoScalingGroupName v1alpha5 describeFails managedStack)
      = ("", None))
  /\ (snd (cloudformationAPI_DescribeStackResource describeResourceFails
             (StackName unmanagedStack) "NodeGroup") = Some serviceError
      /\ value (GetUnmanagedNodeGroupAutoScalingGroupName
                  describeResourceFails unmanagedStack)
         = ("", Some serviceError))
  /\ (DescribeStacks listingFails = ([], Some serviceError)
      /\ value (DescribeNodeGroupStacks v1alpha5 listingFails)
         = ([], Some serviceError))
  /\ (snd (asgAPI_DescribeAutoScalingGroups failingProvider ["asg-test-name"])
        = Some serviceError
      /\ value (GetAutoScalingGroupDesiredCapacity failingProvider
                  "asg-test-name")
         = (zeroAutoScalingGroup,
            Some (fmt_Errorf "couldn't describe ASG: %s" ["asg-test-name"]))).
Proof. repeat split. Qed.

Section FailureFacts.
Variable api : ApiConstants.
Variable c : World.
Variable p : Provider.

Lemma ListNodeGroupStacks_query_fails (stacks : list Stack) (e : error) :
  DescribeStacks c = (stacks, Some e) ->
  value (ListNodeGroupStacks api c) = ([], Some e).
Proof.
  intros H. unfold ListNodeGroupStacks. rewrite value_bind.
  now rewrite (DescribeNodeGroupStacks_query_fails api c stacks e H).
Qed.

Lemma DescribeNodeGroupStacksAndResources_query_fails (stacks : list Stack)
  (e : error) :
  DescribeStacks c = (stacks, Some e) ->
  value (DescribeNodeGroupStacksAndResources api c p) = ([], Some e).
Proof.
  intros H. unfold DescribeNodeGroupStacksAndResources.
  rewrite value_bind. unfold lift.
  now rewrite (DescribeNodeGroupStacks_query_fails api c stacks e H).
Qed.

Lemma DescribeNodeGroupStacksAndResources_wraps (stacks pre post : list Stack)
  (s : Stack) (e : error) :
  DescribeStacks c = (stacks, None) ->
  filter (keptStack api) stacks = pre ++ s :: post ->
  (forall u, In u pre ->
     snd (cloudformationAPI_DescribeStackResources p (StackName u)) = None) ->
  snd (cloudformationAPI_DescribeStackResources p (StackName s)) = Some e ->
  value (DescribeNodeGroupStacksAndResources api c p)
  = ([], Some (errors_Wrapf e "getting all resources for %q stack"
                 [StackName s])).
Proof.
  intros H Heq Hpre Hs.
  destruct (DescribeNodeGroupStacksAndResources_unfold api c p stacks H)
    as [Hv _].
  rewrite Hv, Heq.
  now rewrite (describeResourcesLoop_interrupted api p pre post s e Hpre Hs).
Qed.

Lemma createManagedNodeGroupTask_results (ng : ManagedNodeGroup)
  (forceAddCNIPolicy : bool) :
  (forall cluster e,
     DescribeClusterStack c = (cluster, Some e) ->
     value (createManagedNodeGroupTask c ng forceAddCNIPolicy) = Some e)
  /\ (forall cluster,
        DescribeClusterStack c = (cluster, None) ->
        cluster <> None \/ spec_IPv6Enabled c = false ->
        stack_AddAllResources c = None ->
        value (createManagedNodeGroupTask c ng forceAddCNIPolicy)
        = CreateStack c (makeNodeGroupStackName c (ng_Name ng)) (ng_Tags ng)).
Proof.
  unfold createManagedNodeGroupTask, bind, ask, emit, ret. split.
  - intros cluster e H. now rewrite H.
  - intros cluster H Howned Ha. rewrite H.
    assert (Hgo : match cluster with
                  | Some _ => false
                  | None => spec_IPv6Enabled c
                  end = false).
    { destruct cluster; [reflexivity|].
      destruct Howned as [Hc | Hv]; [congruence | exact Hv]. }
    now rewrite Hgo, Ha.
Qed.

Lemma createNodeGroupTask_result (ng : NodeGroup) (forceAddCNIPolicy : bool) :
  nodebootstrap_NewBootstrapper p ng = None ->
  nodeGroupStack_AddAllResources p = None ->
  value (createNodeGroupTask api c p ng forceAddCNIPolicy)
  = CreateStack c (makeNodeGroupStackName c (nodeGroup_Name ng))
      (identityTags api ng).
Proof.
  intros Hb Ha. unfold createNodeGroupTask, bind, ask, emit, ret.
  now rewrite Hb, Ha.
Qed.

Lemma GetUnmanagedNodeGroupAutoScalingGroupName_fails (s : Stack) (e : error) :
  snd (cloudformationAPI_DescribeStackResource c (StackName s) "NodeGroup")
    = Some e ->
  value (GetUnmanagedNodeGroupAutoScalingGroupName c s) = ("", Some e).
Proof.
  intros He. unfold GetUnmanagedNodeGroupAutoScalingGroupName, ask.
  destruct (cloudformationAPI_DescribeStackResource c (StackName s)
              "NodeGroup") as [res err].
  simpl in He. subst err. reflexivity.
Qed.

Lemma getManagedNodeGroupAutoScalingGroupName_fails (s : Stack) (e : error) :
  snd (eksAPI_DescribeNodegroup c (managedInput api c s)) = Some e ->
  getManagedNodeGroupAutoScalingGroupName api c s
  = (("", None),
     [call_DescribeNodegroup (managedInput api c s);
      logger Warning "couldn't get managed nodegroup details for stack %q"
        [ArgString (StackName s)]]).
Proof.
  intros He. unfold getManagedNodeGroupAutoScalingGroupName, ask.
  fold (managedInput api c s).
  destruct (eksAPI_DescribeNodegroup c (managedInput api c s)) as [res err].
  simpl in He. subst err. reflexivity.
Qed.

Lemma GetNodeGroupStackType_fails (name : string) (st : Stack) (e : error) :
  DescribeStack p (makeNodeGroupStackName c name) = (st, Some e) ->
  value (GetNodeGroupStackType api c p
           {| option_Stack := None; option_NodeGroupName := name |})
  = ("", Some e).
Proof.
  intros H. unfold GetNodeGroupStackType, DescribeNodeGroupStack, bind, ask.
  simpl. now rewrite H.
Qed.

Lemma GetAutoScalingGroupDesiredCapacity_fails (name : string)
  (groups : list AutoScalingGroup) (e : error) :
  asgAPI_DescribeAutoScalingGroups p [name] = (groups, Some e) ->
  value (GetAutoScalingGroupDesiredCapacity p name)
  = (zeroAutoScalingGroup,
     Some (fmt_Errorf "couldn't describe ASG: %s" [name])).
Proof.
  intros H. unfold GetAutoScalingGroupDesiredCapacity, bind, ask.
  now rewrite H.
Qed.

End FailureFacts.

(** C8, amended: for every failure that the external infrastructure
    service or the tagging API returns during a node-group operation of
    this file, the operation returns a non-nil error to its caller, except
    for the describe-node-group call that resolves the autoscaling groups
    of a managed node group, whose failure
    [getManagedNodeGroupAutoScalingGroupName] logs as a warning and turns
    into the empty name with a nil error.  The error that is returned
    wraps the failure with operation context in the tag-propagation task
    (the name of the node group, for the describe-node-group call and for
    the tagging call) and in [DescribeNodeGroupStacksAndResources] (the
    name of the stack); it is the failure as it is for the describe-all
    query ([DescribeNodeGroupStacks], [ListNodeGroupStacks],
    [DescribeNodeGroupStacksAndResources]), the lookup of the cluster stack
    and the submission of the stack in the two creation tasks, the
    describe-stack-resource call of
    [GetUnmanagedNodeGroupAutoScalingGroupName] and the describe-stack call
    of [GetNodeGroupStackType]; and it is a new error with the name of the
    group, without the failure, in [GetAutoScalingGroupDesiredCapacity]. *)
Theorem service_failures_reported (api : ApiConstants) (c : World)
  (p : Provider) :
  ((forall ng e,
      propagationDisabled ng = false ->
      snd (eksAPI_DescribeNodegroup c (propagateInput c ng)) = Some e ->
      value (propagateManagedNodeGroupTagsToASGTask c ng)
      = Some (errors_Wrapf e
                "couldn't get managed nodegroup details for nodegroup %q"
                [ng_Name ng]))
   /\ (forall ng res asgs e,
         propagationDisabled ng = false ->
         eksAPI_DescribeNodegroup c (propagateInput c ng) = (res, None) ->
         eks.Resources res = Some asgs ->
         asgAPI_CreateOrUpdateTags c (buildASGTags asgs (ng_Tags ng))
           = Some e ->
         value (propagateManagedNodeGroupTagsToASGTask c ng)
         = Some (errors_Wrapf e
                   "creating or updating asg tags for managed nodegroup %q"
                   [ng_Name ng]))
   /\ (forall stacks pre s post e,
         DescribeStacks c = (stacks, None) ->
         filter (keptStack api) stacks = pre ++ s :: post ->
         (forall u, In u pre ->
            snd (cloudformationAPI_DescribeStackResources p (StackName u))
            = None) ->
         snd (cloudformationAPI_DescribeStackResources p (StackName s))
           = Some e ->
         value (DescribeNodeGroupStacksAndResources api c p)
         = ([], Some (errors_Wrapf e "getting all resources for %q stack"
                        [StackName s]))))
  /\ ((forall stacks e,
         DescribeStacks c = (stacks, Some e) ->
         value (DescribeNodeGroupStacks api c) = ([], Some e)
         /\ value (ListNodeGroupStacks api c) = ([], Some e)
         /\ value (DescribeNodeGroupStacksAndResources api c p)
            = ([], Some e))
      /\ (forall ng forceAddCNIPolicy cluster e,
            DescribeClusterStack c = (cluster, Some e) ->
            value (createManagedNodeGroupTask c ng forceAddCNIPolicy)
            = Some e)
      /\ (forall ng forceAddCNIPolicy cluster e,
            DescribeClusterStack c = (cluster, None) ->
            cluster <> None \/ spec_IPv6Enabled c = false ->
            stack_AddAllResources c = None ->
            CreateStack c (makeNodeGroupStackName c (ng_Name ng)) (ng_Tags ng)
              = Some e ->
            value (createManagedNodeGroupTask c ng forceAddCNIPolicy)
            = Some e)
      /\ (forall ng forceAddCNIPolicy e,
            nodebootstrap_NewBootstrapper p ng = None ->
            nodeGroupStack_AddAllResources p = None ->
            CreateStack c (makeNodeGroupStackName c (nodeGroup_Name ng))
              (identityTags api ng) = Some e ->
            value (createNodeGroupTask api c p ng forceAddCNIPolicy) = Some e)
      /\ (forall s e,
            snd (cloudformationAPI_DescribeStackResource c (StackName s)
                   "NodeGroup") = Some e ->
            value (GetUnmanagedNodeGroupAutoScalingGroupName c s)
            = ("", Some e))
      /\ (forall name st e,
            DescribeStack p (makeNodeGroupStackName c name) = (st, Some e) ->
            value (GetNodeGroupStackType api c p
                     {| option_Stack := None; option_NodeGroupName := name |})
            = ("", Some e)))
  /\ (forall name groups e,
        asgAPI_DescribeAutoScalingGroups p [name] = (groups, Some e) ->
        value (GetAutoScalingGroupDesiredCapacity p name)
        = (zeroAutoScalingGroup,
           Some (fmt_Errorf "couldn't describe ASG: %s" [name])))
  /\ (forall s e,
        snd (eksAPI_DescribeNodegroup c (managedInput api c s)) = Some e ->
        getManagedNodeGroupAutoScalingGroupName api c s
        = (("", None),
           [call_DescribeNodegroup (managedInput api c s);
            logger Warning
              "couldn't get managed nodegroup details for stack %q"
              [ArgString (StackName s)]])).
Proof.
  split; [|split; [|split]].
  - split; [|split].
    + intros ng e Hd He. now rewrite (propagate_describe_error c ng e Hd He).
    + intros ng res asgs e Hd Hres Hasgs He.
      now rewrite (propagate_tagging_error c ng res asgs e Hd Hres Hasgs He).
    + intros stacks pre s post e.
      apply DescribeNodeGroupStacksAndResources_wraps.
  - split; [|split; [|split; [|split; [|split]]]].
    + intros stacks e H. split; [|split].
      * now rewrite (DescribeNodeGroupStacks_query_fails api c stacks e H).
      * now apply (ListNodeGroupStacks_query_fails api c stacks).
      * now apply (DescribeNodeGroupStacksAndResources_query_fails api c p
                     stacks).
    + intros ng force cluster e.
      apply (proj1 (createManagedNodeGroupTask_results c ng force)).
    + intros ng force cluster e H Howned Ha He.
      rewrite (proj2 (createManagedNodeGroupTask_results c ng force)
                 cluster H Howned Ha).
      exact He.
    + intros ng force e Hb Ha He.
      now rewrite (createNodeGroupTask_result api c p ng force Hb Ha).
    + apply GetUnmanagedNodeGroupAutoScalingGroupName_fails.
    + apply GetNodeGroupStackType_fails.
  - apply GetAutoScalingGroupDesiredCapacity_fails.
  - apply getManagedNodeGroupAutoScalingGroupName_fails.
Qed.

Lemma service_failures_reported_witness :
  (value (propagateManagedNodeGroupTagsToASGTask describeFails
            (testNodeGroup 1))
     = Some (errors_Wrapf serviceError
               "couldn't get managed nodegroup details for nodegroup %q"
               ["ng-test-name"])
   /\ value (propagateManagedNodeGroupTagsToASGTask taggingFails
               (testNodeGroup 1))
      = Some (errors_Wrapf serviceError
                "creating or updating asg tags for managed nodegroup %q"
                ["ng-test-name"])
   /\ value (DescribeNodeGroupStacksAndResources v1alpha5 twinListing
               (resourcesFailFor "eksctl-web-nodegroup-ng-1-copy"))
      = ([], Some (errors_Wrapf serviceError
                     "getting all resources for %q stack"
                     ["eksctl-web-nodegroup-ng-1-copy"])))
  /\ (value (ListNodeGroupStacks v1alpha5 listingFails)
        = ([], Some serviceError)
      /\ value (createManagedNodeGroupTask clusterLookupFails
                  (testNodeGroup 1) false) = Some serviceError
      /\ value (createManagedNodeGroupTask submissionFails
                  (testNodeGroup 1) false) = Some serviceError
      /\ value (createNodeGroupTask v1alpha5 submissionFails mockProvider
                  webNodeGroup false) = Some serviceError
      /\ value (GetUnmanagedNodeGroupAutoScalingGroupName
                  describeResourceFails unmanagedStack)
         = ("", Some serviceError)
      /\ value (GetNodeGroupStackType v1alpha5 mockWorld failingProvider
                  {| option_Stack := None; option_NodeGroupName := "ng-1" |})
         = ("", Some serviceError))
  /\ value (GetAutoScalingGroupDesiredCapacity failingProvider
              "asg-test-name")
     = (zeroAutoScalingGroup,
        Some (fmt_Errorf "couldn't describe ASG: %s" ["asg-test-name"]))
  /\ getManagedNodeGroupAutoScalingGroupName v1alpha5 describeFails
       managedStack
     = (("", None),
        [call_DescribeNodegroup
           (managedInput v1alpha5 describeFails managedStack);
         logger Warning
           "couldn't get managed nodegroup details for stack %q"
           [ArgString "eksctl-web-nodegroup-ng-1"]]).
Proof.
  split; [|split; [|split]].
  - split; [|split].
    + apply (proj1 (proj1 (service_failures_reported v1alpha5 describeFails
                             mockProvider)) (testNodeGroup 1));
        reflexivity.
    + apply (proj1 (proj2 (proj1 (service_failures_reported v1alpha5
                                    taggingFails mockProvider)))
               (testNodeGroup 1)
               {| eks.Resources := Some ["asg-test-name"] |}
               ["asg-test-name"]); reflexivity.
    + apply (proj2 (proj2 (proj1 (service_failures_reported v1alpha5
                                    twinListing
                                    (resourcesFailFor
                                       "eksctl-web-nodegroup-ng-1-copy"))))
               [managedStack; twinStack] [managedStack] twinStack []
               serviceError eq_refl eq_refl).
      * intros u [<-|[]]. reflexivity.
      * reflexivity.
  - destruct (proj1 (proj2 (service_failures_reported v1alpha5 listingFails
                              mockProvider)))
      as (Hquery & _).
    destruct (proj1 (proj2 (service_failures_reported v1alpha5
                              clusterLookupFails mockProvider)))
      as (_ & Hlookup & _).
    destruct (proj1 (proj2 (service_failures_reported v1alpha5
                              submissionFails mockProvider)))
      as (_ & _ & Hmanaged & Hunmanaged & _).
    destruct (proj1 (proj2 (service_failures_reported v1alpha5
                              describeResourceFails mockProvider)))
      as (_ & _ & _ & _ & Hresource & _).
    destruct (proj1 (proj2 (service_failures_reported v1alpha5 mockWorld
                              failingProvider)))
      as (_ & _ & _ & _ & _ & Hstack).
    split; [|split; [|split; [|split; [|split]]]].
    + apply (Hquery [] serviceError eq_refl).
    + apply (Hlookup (testNodeGroup 1) false None serviceError eq_refl).
    + apply (Hmanaged (testNodeGroup 1) false None serviceError eq_refl);
        [now right | reflexivity | reflexivity].
    + apply (Hunmanaged webNodeGroup false serviceError); reflexivity.
    + apply (Hresource unmanagedStack serviceError). reflexivity.
    + apply (Hstack "ng-1" (stackOf "eksctl--nodegroup-ng-1" "" [])
               serviceError).
      reflexivity.
  - apply (proj1 (proj2 (proj2 (service_failures_reported v1alpha5 mockWorld
                                  failingProvider)))
             "asg-test-name" [] serviceError).
    reflexivity.
  - apply (proj2 (proj2 (proj2 (service_failures_reported v1alpha5
                                  describeFails mockProvider)))
             managedStack serviceError).
    reflexivity.
Defined.
